(** * Calculator: the six arithmetic operations of [src/calculator.py]

  The source is a Python class whose methods are one-line uses of Python's
  numeric operators ([+], [-], [*], [/], [**], [==], [<]) on the numbers
  the tests pass to it: [int] (unbounded) and [float] (IEEE 754 binary64).
  Module [Py] gives these operators their CPython meaning, with every
  exception they can raise; module [Calculator] is the class itself. *)

From Stdlib Require Import ZArith Lia Bool String.
From Stdlib Require Import Floats.SpecFloat.

Local Open Scope Z_scope.

(* ===================================================================== *)
(** ** Python numbers and their operators                                 *)
(* ===================================================================== *)

Module Py.

(** *** binary64 *)

Definition prec : Z := 53.
Definition emax : Z := 1024.

(** A Python [float]: sign, mantissa and exponent of a binary64, the two
    zeros, the two infinities, NaN. *)
Definition float : Type := spec_float.

Definition valid (x : float) : bool := valid_binary prec emax x.

Definition fadd : float -> float -> float := SFadd prec emax.
Definition fsub : float -> float -> float := SFsub prec emax.
Definition fmul : float -> float -> float := SFmul prec emax.
Definition fdiv : float -> float -> float := SFdiv prec emax.
Definition fsqrt : float -> float := SFsqrt prec emax.
Definition fopp : float -> float := SFopp.
Definition fabs : float -> float := SFabs.
Definition feqb : float -> float -> bool := SFeqb.
Definition fltb : float -> float -> bool := SFltb.

(** [flt m e] is the binary64 nearest to [m * 2^e] (ties to even). *)
Definition flt (m e : Z) : float := binary_normalize prec emax m e false.

Definition fzero : float := S754_zero false.
Definition fone : float := Eval cbv in flt 1 0.
Definition fhalf : float := Eval cbv in flt 1 (-1).

Definition is_nan (x : float) : bool :=
  match x with S754_nan => true | _ => false end.

Definition is_inf (x : float) : bool :=
  match x with S754_infinity _ => true | _ => false end.

Definition is_finite (x : float) : bool :=
  match x with S754_zero _ | S754_finite _ _ _ => true | _ => false end.

Definition sign_of (x : float) : bool :=
  match x with
  | S754_zero s | S754_infinity s | S754_finite s _ _ => s
  | S754_nan => false
  end.

(** C's [copysign(0.0, x)]. *)
Definition copysign_zero (x : float) : float := S754_zero (sign_of x).

(** [x == floor(x)] in C: the value of [x] is an integer. *)
Definition float_is_integer (x : float) : bool :=
  match x with
  | S754_zero _ | S754_infinity _ => true
  | S754_nan => false
  | S754_finite _ m e =>
      if 0 <=? e then true else Z.land (Zpos m) (Z.ones (- e)) =? 0
  end.

(** CPython's [DOUBLE_IS_ODD_INTEGER(x)]: [fmod(fabs(x), 2.0) == 1.0]. *)
Definition float_is_odd_integer (x : float) : bool :=
  match x with
  | S754_finite _ m e =>
      if 0 <? e then false
      else (Z.land (Zpos m) (Z.ones (- e)) =? 0) && Z.testbit (Zpos m) (- e)
  | _ => false
  end.

(** *** Values, exceptions, results *)

(** The numbers the calculator is called with. *)
Inductive num : Type :=
| PyInt (n : Z)
| PyFloat (x : float).

(** What [**] can return: a real number or, for a negative base with a
    fractional exponent, a [complex]. *)
Inductive pyval : Type :=
| Real (v : num)
| PyComplex (re im : float).

Inductive exn : Type :=
| ValueError (msg : string)
| ZeroDivisionError
| OverflowError.

Inductive result (A : Type) : Type :=
| Return (v : A)
| Raise (e : exn).

Arguments Return {A} v.
Arguments Raise {A} e.

Definition bind {A B : Type} (r : result A) (k : A -> result B) : result B :=
  match r with
  | Return v => k v
  | Raise e => Raise e
  end.

Definition returns {A : Type} (r : result A) : bool :=
  match r with Return _ => true | Raise _ => false end.

Notation "x <- r ;; k" := (bind r (fun x => k))
  (at level 61, r at next level, right associativity).

(** *** Conversions and comparisons *)

(** An [int] written as an unrounded mantissa with exponent 0, the form
    in which it enters a correctly rounded division. *)
Definition int_raw (n : Z) : float :=
  match n with
  | Z0 => S754_zero false
  | Zpos p => S754_finite false p 0
  | Zneg p => S754_finite true p 0
  end.

(** [PyLong_AsDouble]: the nearest binary64 (ties to even); an [int]
    that rounds beyond the largest float raises [OverflowError]. *)
Definition int_to_float (n : Z) : result float :=
  let x := flt n 0 in
  if is_inf x then Raise OverflowError else Return x.

(** [CONVERT_TO_DOUBLE] of [floatobject.c]. *)
Definition to_double (v : num) : result float :=
  match v with
  | PyInt n => int_to_float n
  | PyFloat x => Return x
  end.

(** Comparison of a float with an int is exact in Python (no conversion
    of the int): [None] when the float is NaN. *)
Definition float_cmp_int (x : float) (n : Z) : option comparison :=
  match x with
  | S754_nan => None
  | S754_infinity s => Some (if s then Lt else Gt)
  | S754_zero _ => Some (0 ?= n)
  | S754_finite s m e =>
      if 0 <=? e then Some (cond_Zopp s (Zpos m * 2 ^ e) ?= n)
      else Some (cond_Zopp s (Zpos m) ?= n * 2 ^ (- e))
  end.

Definition py_cmp (a b : num) : option comparison :=
  match a, b with
  | PyInt x, PyInt y => Some (x ?= y)
  | PyFloat x, PyFloat y => SFcompare x y
  | PyFloat x, PyInt y => float_cmp_int x y
  | PyInt x, PyFloat y => option_map CompOpp (float_cmp_int y x)
  end.

(** [a == b] *)
Definition py_eq (a b : num) : bool :=
  match py_cmp a b with Some Eq => true | _ => false end.

(** [a < b] *)
Definition py_lt (a b : num) : bool :=
  match py_cmp a b with Some Lt => true | _ => false end.

(** *** [+], [-], [*]

    Two ints give the exact int; as soon as one operand is a float the
    other is converted ([OverflowError] when it does not fit) and the
    IEEE operation is applied, which never raises. *)

Definition arith (iop : Z -> Z -> Z) (fop : float -> float -> float)
           (a b : num) : result num :=
  match a, b with
  | PyInt x, PyInt y => Return (PyInt (iop x y))
  | _, _ =>
      x <- to_double a ;;
      y <- to_double b ;;
      Return (PyFloat (fop x y))
  end.

Definition py_add : num -> num -> result num := arith Z.add fadd.
Definition py_sub : num -> num -> result num := arith Z.sub fsub.
Definition py_mul : num -> num -> result num := arith Z.mul fmul.

(** *** [/] (true division)

    [long_true_divide] for two ints: the exact quotient rounded once to
    the nearest float, [OverflowError] when that is beyond the largest
    float.  [float_div] otherwise.  Both raise [ZeroDivisionError] on a
    zero divisor. *)

Definition int_true_divide (x y : Z) : result float :=
  if y =? 0 then Raise ZeroDivisionError
  else
    let q := fdiv (int_raw x) (int_raw y) in
    if is_inf q then Raise OverflowError else Return q.

Definition float_div (x y : float) : result float :=
  if feqb y fzero then Raise ZeroDivisionError else Return (fdiv x y).

Definition py_truediv (a b : num) : result num :=
  match a, b with
  | PyInt x, PyInt y => q <- int_true_divide x y ;; Return (PyFloat q)
  | _, _ =>
      x <- to_double a ;;
      y <- to_double b ;;
      q <- float_div x y ;;
      Return (PyFloat q)
  end.

(** *** [**]

    The C library enters in one place: [pow] for a positive finite base
    other than 1 and a finite non-zero exponent, and the complex power
    for a negative base with a fractional exponent.  Its results are not
    fixed by IEEE 754, so the library is a parameter.  [libm_cpow]
    answers [None] when the complex result is out of range. *)

Record Libm : Type := {
  libm_pow : float -> float -> float;
  libm_cpow : float -> float -> option (float * float)
}.

Section Pow.

Variable L : Libm.

(** [float_pow] of [floatobject.c], branch by branch. *)
Definition float_pow (iv iw : float) : result pyval :=
  if feqb iw fzero then Return (Real (PyFloat fone))
  else if is_nan iv then Return (Real (PyFloat iv))
  else if is_nan iw then
    Return (Real (PyFloat (if feqb iv fone then fone else iw)))
  else if is_inf iw then
    let av := fabs iv in
    if feqb av fone then Return (Real (PyFloat fone))
    else if Bool.eqb (fltb fzero iw) (fltb fone av)
         then Return (Real (PyFloat (fabs iw)))
         else Return (Real (PyFloat fzero))
  else if is_inf iv then
    let odd := float_is_odd_integer iw in
    if fltb fzero iw
    then Return (Real (PyFloat (if odd then iv else fabs iv)))
    else Return (Real (PyFloat (if odd then copysign_zero iv else fzero)))
  else if feqb iv fzero then
    if fltb iw fzero then Raise ZeroDivisionError
    else Return (Real (PyFloat (if float_is_odd_integer iw then iv else fzero)))
  else if fltb iv fzero && negb (float_is_integer iw) then
    match libm_cpow L iv iw with
    | Some (re, im) => Return (PyComplex re im)
    | None => Raise OverflowError
    end
  else
    let negate_result := fltb iv fzero && float_is_odd_integer iw in
    let av := if fltb iv fzero then fopp iv else iv in
    if feqb av fone
    then Return (Real (PyFloat (if negate_result then fopp fone else fone)))
    else
      let ix := libm_pow L av iw in
      let ix := if negate_result then fopp ix else ix in
      if is_inf ix then Raise OverflowError
      else Return (Real (PyFloat ix)).

(** [long_pow] for two ints with a non-negative exponent (exact);
    [float_pow] on the converted operands otherwise. *)
Definition py_pow (a b : num) : result pyval :=
  match a, b with
  | PyInt x, PyInt y =>
      if 0 <=? y then Return (Real (PyInt (x ^ y)))
      else
        iv <- int_to_float x ;;
        iw <- int_to_float y ;;
        float_pow iv iw
  | _, _ =>
      iv <- to_double a ;;
      iw <- to_double b ;;
      float_pow iv iw
  end.

End Pow.

End Py.

(* ===================================================================== *)
(** ** The class                                                          *)
(* ===================================================================== *)

Module Calculator.
Import Py.

Definition add (a b : num) : result num := py_add a b.

Definition subtract (a b : num) : result num := py_sub a b.

Definition multiply (a b : num) : result num := py_mul a b.

Definition divide (a b : num) : result num :=
  if py_eq b (PyInt 0) then Raise (ValueError "Cannot divide by zero")
  else py_truediv a b.

Definition power (L : Libm) (base exponent : num) : result pyval :=
  py_pow L base exponent.

Definition square_root (L : Libm) (number : num) : result pyval :=
  if py_lt number (PyInt 0)
  then Raise (ValueError "Cannot calculate square root of negative number")
  else py_pow L number (PyFloat fhalf).

End Calculator.


(* ===================================================================== *)
(** ** Vocabulary of the properties                                       *)
(* ===================================================================== *)

Import Py.

(** A real number: any int, or a float that is neither NaN nor infinite. *)
Definition is_real (v : num) : bool :=
  match v with
  | PyInt _ => true
  | PyFloat x => is_finite x
  end.

(** A well-formed number: a float is a binary64 (53-bit mantissa, exponent
    in range). *)
Definition valid_num (v : num) : bool :=
  match v with
  | PyInt _ => true
  | PyFloat x => valid x
  end.

Definition exn_eqb (e1 e2 : exn) : bool :=
  match e1, e2 with
  | ValueError m1, ValueError m2 => String.eqb m1 m2
  | ZeroDivisionError, ZeroDivisionError => true
  | OverflowError, OverflowError => true
  | _, _ => false
  end.

(** [r1 == r2] for two calls: both return and the values compare equal
    under Python's [==], or both raise the same exception. *)
Definition result_eqb (r1 r2 : result num) : bool :=
  match r1, r2 with
  | Return v, Return w => py_eq v w
  | Raise e1, Raise e2 => exn_eqb e1 e2
  | _, _ => false
  end.

(** *** A C library to run the examples with

    Its [pow] is the correctly rounded power at the exponent 1/2 (the
    IEEE square root) and at integral exponents; at the other exponents,
    which no example uses, it answers NaN.  Its complex power knows the
    exponent 1/2 only. *)

(** The integer a float is, if it is one. *)
Definition float_to_int (y : float) : option Z :=
  match y with
  | S754_zero _ => Some 0
  | S754_finite s m e =>
      if 0 <=? e then Some (cond_Zopp s (Zpos m * 2 ^ e))
      else if Z.land (Zpos m) (Z.ones (- e)) =? 0
           then Some (cond_Zopp s (Z.shiftr (Zpos m) (- e)))
           else None
  | _ => None
  end.

(** [x ** n] for a positive finite [x], rounded once. *)
Definition pow_int (x : float) (n : Z) : float :=
  match x with
  | S754_finite false m e =>
      if 0 <=? n then flt (Zpos m ^ n) (e * n)
      else fdiv (int_raw 1) (S754_finite false (m ^ Z.to_pos (- n)) (e * - n))
  | _ => S754_nan
  end.

Definition sample_pow (x y : float) : float :=
  if feqb y fhalf then fsqrt x
  else match float_to_int y with
       | Some n => pow_int x n
       | None => S754_nan
       end.

Definition sample_cpow (x y : float) : option (float * float) :=
  if feqb y fhalf then Some (fzero, fsqrt (fabs x)) else None.

Definition sample_libm : Libm :=
  {| libm_pow := sample_pow; libm_cpow := sample_cpow |}.

(** The position of [N/D] between two consecutive integers, as the
    rounding functions record it. *)
Definition loc_of_frac (N D : Z) : location :=
  if N mod D =? 0 then loc_Exact else loc_Inexact (2 * (N mod D) ?= D).

Definition represents (mrs : shr_record) (N D : Z) : Prop :=
  shr_m mrs = N / D /\ loc_of_shr_record mrs = loc_of_frac N D.


(** What [x ** 0.5] comes to for a float [x] that is not negative: the
    branches of [float_pow] that such a base can take. *)
Definition pow_half (L : Libm) (x : float) : result pyval :=
  if is_nan x || is_inf x then Return (Real (PyFloat x))
  else if feqb x fzero then Return (Real (PyFloat fzero))
  else if feqb x fone then Return (Real (PyFloat fone))
  else
    let r := libm_pow L x fhalf in
    if is_inf r then Raise OverflowError else Return (Real (PyFloat r)).

(** The value of a finite binary64 in units of [2^-1074], the smallest
    positive float: an integer. *)
Definition float_units (x : float) : Z :=
  match x with
  | S754_finite s m e => cond_Zopp s (Zpos m * 2 ^ (e + 1074))
  | _ => 0
  end.

Definition num_units (v : num) : Z :=
  match v with
  | PyInt n => n * 2 ^ 1074
  | PyFloat x => float_units x
  end.

(** The unit in the last place of a finite binary64, in the same units. *)
Definition ulp_units (x : float) : Z :=
  match x with
  | S754_finite _ _ e => 2 ^ (e + 1074)
  | _ => 1
  end.

(** [|x - y| <= 2^-k * |y| + 2^-1074], both real. *)
Definition within (k : Z) (x y : num) : bool :=
  is_real x && is_real y &&
  (2 ^ k * Z.abs (num_units x - num_units y) <=? Z.abs (num_units y) + 2 ^ k).

(** [x] is within floating-point tolerance of [y]: two units in the last
    place, [|x - y| <= 2^-51 * |y| + 2^-1074]. *)
Definition close_to (x y : num) : bool := within 51 x y.

(** [r] is within one unit in its last place of the square root of [x],
    both finite: [(|r| - ulp)^2 <= x <= (|r| + ulp)^2], on integers. *)
Definition sqrt_within_ulp (r x : float) : bool :=
  let R := Z.abs (float_units r) in
  let U := ulp_units r in
  let X := float_units x in
  is_finite r && is_finite x &&
  (Z.max 0 (R - U) ^ 2 <=? X * 2 ^ 1074) && (X * 2 ^ 1074 <=? (R + U) ^ 2).

(** A normal binary64: finite, with a full 53-bit mantissa. *)
Definition is_normal (x : float) : bool :=
  match x with
  | S754_finite _ m _ => Zpos (digits2_pos m) =? 53
  | _ => false
  end.

Definition is_zero (x : float) : bool :=
  match x with S754_zero _ => true | _ => false end.

(** The product [p] of [a] by some number neither overflowed nor
    underflowed: it is an int, a normal float, or a zero because [a] is. *)
Definition product_in_range (a p : num) : bool :=
  match p with
  | PyInt _ => true
  | PyFloat x => is_normal x || (is_zero x && py_eq a (PyInt 0))
  end.

(** [divide(multiply(a,b), b) ~ a], as one test: both calls return and
    the result is within tolerance of [a]. *)
Definition round_trip_ok (a b : num) : bool :=
  match Calculator.multiply a b with
  | Return p =>
      match Calculator.divide p b with
      | Return q => close_to q a
      | Raise _ => false
      end
  | Raise _ => false
  end.

(** [q] is the quotient of two magnitudes [P] and [B] (in units of
    [2^-1074]) rounded once: a binary64 within half a unit in its last
    place of [P / B], a zero when [P / B] is at most half the smallest
    float, or an infinity (overflow). *)
Definition rounded_quotient (q : float) (P B : Z) : bool :=
  match q with
  | S754_finite _ mq eq =>
      bounded prec emax mq eq &&
      (2 * Z.abs (Zpos mq * 2 ^ (eq + 1074) * B - P * 2 ^ 1074)
       <=? 2 ^ (eq + 1074) * B)
  | S754_zero _ => 2 * (P * 2 ^ 1074) <=? B
  | S754_infinity _ => true
  | S754_nan => false
  end.
From Stdlib Require Import List.

(* ===================================================================== *)
(** ** Vocabulary of the further properties                               *)
(* ===================================================================== *)

(** Both ints or both floats: no conversion takes place. *)
Definition same_type (a b : num) : bool :=
  match a, b with
  | PyInt _, PyInt _ | PyFloat _, PyFloat _ => true
  | _, _ => false
  end.

Definition is_nan_num (v : num) : bool :=
  match v with
  | PyInt _ => false
  | PyFloat x => is_nan x
  end.

(** [r] is the rational number [N / D], counted in units of [2^-1074],
    rounded once to the floats: of the sign of [N] and within half a unit
    in its last place of [|N| / D]; a zero only when [|N| / D] is at most
    half the smallest float; an infinity only when [|N| / D] is at least
    [2^1024 - 2^970], the midpoint above the largest float. *)
Definition rounded (r : float) (N D : Z) : bool :=
  match r with
  | S754_zero _ => 2 * Z.abs N <=? D
  | S754_finite s m e =>
      Bool.eqb s (N <? 0) && bounded prec emax m e &&
      (2 * Z.abs (Zpos m * 2 ^ (e + 1074) * D - Z.abs N)
       <=? 2 ^ (e + 1074) * D)
  | S754_infinity s =>
      Bool.eqb s (N <? 0) && ((2 ^ 54 - 1) * 2 ^ 2045 * D <=? 2 * Z.abs N)
  | S754_nan => false
  end.

(** No finite float is nearer than [r] to the rational number [N / D]
    (counted in units of [2^-1074]). *)
Definition nearest (r : float) (N D : Z) : Prop :=
  forall z, valid z = true -> is_finite z = true ->
    Z.abs (float_units r * D - N) <= Z.abs (float_units z * D - N).

(** The value of a float on a scale that has room for the infinities
    beyond every finite float. *)
Definition ext_units (r : float) : Z :=
  match r with
  | S754_infinity s => cond_Zopp s (2 ^ 2100)
  | _ => float_units r
  end.

(** [a <= b] *)
Definition py_le (a b : num) : bool :=
  match py_cmp a b with
  | Some Lt | Some Eq => true
  | _ => false
  end.

(** [r1 <= r2] for two calls: both return and the values are in order. *)
Definition result_le (r1 r2 : result num) : bool :=
  match r1, r2 with
  | Return v, Return w => py_le v w
  | _, _ => false
  end.

(* ===================================================================== *)
(** ** The test suite of [src/tests/test_calculator.py]                   *)
(* ===================================================================== *)

Module TestCalculator.

(** How a test method ends.  [Unmodelled] marks the one comparison this
    development does not cover: [pytest.approx] against a complex
    number, whose modulus is another C library call. *)
Inductive outcome : Type :=
| Passed
| AssertionError
| DidNotRaise
| Errored (e : exn)
| Unmodelled.

(** The statements of a test method run in order, up to the first one
    that does not pass. *)
Definition and_then (o k : outcome) : outcome :=
  match o with
  | Passed => k
  | _ => o
  end.

Notation "o >> k" := (and_then o k) (at level 62, right associativity).

(** A float literal [digits * 10^-scale]: Python reads it as the nearest
    binary64. *)
Definition float_lit (digits scale : Z) : float :=
  fdiv (int_raw digits) (int_raw (10 ^ scale)).

(** [complex == real]: equal real parts and a zero imaginary part. *)
Definition pyval_eq (v : pyval) (w : num) : bool :=
  match v with
  | Real x => py_eq x w
  | PyComplex re im => py_eq (PyFloat re) w && feqb im fzero
  end.

(** [assert call == expected] *)
Definition assert_eq (call : result num) (expected : num) : outcome :=
  match call with
  | Return v => if py_eq v expected then Passed else AssertionError
  | Raise e => Errored e
  end.

Definition assert_eq_val (call : result pyval) (expected : num) : outcome :=
  match call with
  | Return v => if pyval_eq v expected then Passed else AssertionError
  | Raise e => Errored e
  end.

(** [actual == pytest.approx(expected, rel=rel)] on real numbers, with
    pytest's defaults ([rel] 1e-6 when not given, [abs] 1e-12): equal, or
    [abs(expected - actual) <= max(rel * abs(expected), 1e-12)] for a
    finite [expected].  A negative relative tolerance is a [ValueError]
    (whose message also shows the number in pytest). *)
Definition approx_eq (actual : num) (expected : float) (rel : option float)
  : result bool :=
  if py_eq actual (PyFloat expected) then Return true
  else if is_nan expected then Return false
  else if is_inf expected then Return false
  else
    let absolute_tolerance := float_lit 1 12 in
    let r := match rel with Some r => r | None => float_lit 1 6 end in
    let relative_tolerance := fmul r (fabs expected) in
    if fltb relative_tolerance fzero
    then Raise (ValueError "relative tolerance can't be negative")
    else if is_nan relative_tolerance
    then Raise (ValueError "relative tolerance can't be NaN.")
    else
      let tolerance :=
        if fltb relative_tolerance absolute_tolerance
        then absolute_tolerance else relative_tolerance in
      d <- py_sub (PyFloat expected) actual ;;
      match d with
      | PyFloat d => Return (SFleb (fabs d) tolerance)
      | PyInt _ => Return false
      end.

(** [assert call == pytest.approx(expected, rel=rel)] *)
Definition assert_approx (call : result num) (expected : float)
           (rel : option float) : outcome :=
  match call with
  | Return v =>
      match approx_eq v expected rel with
      | Return true => Passed
      | Return false => AssertionError
      | Raise e => Errored e
      end
  | Raise e => Errored e
  end.

Definition assert_approx_val (call : result pyval) (expected : float)
           (rel : option float) : outcome :=
  match call with
  | Return (Real v) => assert_approx (Return v) expected rel
  | Return (PyComplex _ _) => Unmodelled
  | Raise e => Errored e
  end.

(** [re.search] for a pattern without special characters. *)
Fixpoint contains (pattern s : string) : bool :=
  String.prefix pattern s
  || match s with
     | EmptyString => false
     | String _ s' => contains pattern s'
     end.

(** [with pytest.raises(ValueError, match=pattern): call] *)
Definition raises_value_error {A : Type} (pattern : string) (call : result A)
  : outcome :=
  match call with
  | Return _ => DidNotRaise
  | Raise (ValueError msg) =>
      if contains pattern msg then Passed else AssertionError
  | Raise e => Errored e
  end.

Definition int (n : Z) : num := PyInt n.
Definition flo (digits scale : Z) : num := PyFloat (float_lit digits scale).
Definition neg_flo (digits scale : Z) : num :=
  PyFloat (fopp (float_lit digits scale)).

Definition test_add_positive_numbers : outcome :=
  assert_eq (Calculator.add (int 5) (int 3)) (int 8) >>
  assert_eq (Calculator.add (int 10) (int 20)) (int 30) >>
  assert_eq (Calculator.add (int 0) (int 5)) (int 5).

Definition test_add_negative_numbers : outcome :=
  assert_eq (Calculator.add (int (-5)) (int (-3))) (int (-8)) >>
  assert_eq (Calculator.add (int (-10)) (int 5)) (int (-5)) >>
  assert_eq (Calculator.add (int 5) (int (-3))) (int 2).

Definition test_add_decimal_numbers : outcome :=
  assert_eq (Calculator.add (flo 25 1) (flo 37 1)) (flo 62 1) >>
  assert_approx (Calculator.add (flo 1 1) (flo 2 1)) (float_lit 3 1) None.

Definition test_subtract_positive_numbers : outcome :=
  assert_eq (Calculator.subtract (int 10) (int 3)) (int 7) >>
  assert_eq (Calculator.subtract (int 5) (int 5)) (int 0) >>
  assert_eq (Calculator.subtract (int 3) (int 10)) (int (-7)).

Definition test_subtract_negative_numbers : outcome :=
  assert_eq (Calculator.subtract (int (-5)) (int (-3))) (int (-2)) >>
  assert_eq (Calculator.subtract (int (-10)) (int 5)) (int (-15)) >>
  assert_eq (Calculator.subtract (int 5) (int (-3))) (int 8).

Definition test_multiply_positive_numbers : outcome :=
  assert_eq (Calculator.multiply (int 5) (int 3)) (int 15) >>
  assert_eq (Calculator.multiply (int 10) (int 0)) (int 0) >>
  assert_eq (Calculator.multiply (int 4) (flo 25 1)) (flo 100 1).

Definition test_multiply_negative_numbers : outcome :=
  assert_eq (Calculator.multiply (int (-5)) (int 3)) (int (-15)) >>
  assert_eq (Calculator.multiply (int (-5)) (int (-3))) (int 15) >>
  assert_eq (Calculator.multiply (int 5) (int (-3))) (int (-15)).

Definition test_divide_positive_numbers : outcome :=
  assert_eq (Calculator.divide (int 10) (int 2)) (flo 50 1) >>
  assert_eq (Calculator.divide (int 15) (int 3)) (flo 50 1) >>
  assert_eq (Calculator.divide (int 7) (int 2)) (flo 35 1).

Definition test_divide_negative_numbers : outcome :=
  assert_eq (Calculator.divide (int (-10)) (int 2)) (neg_flo 50 1) >>
  assert_eq (Calculator.divide (int 10) (int (-2))) (neg_flo 50 1) >>
  assert_eq (Calculator.divide (int (-10)) (int (-2))) (flo 50 1).

Definition test_divide_by_zero_raises_error : outcome :=
  raises_value_error "Cannot divide by zero"
    (Calculator.divide (int 10) (int 0)) >>
  raises_value_error "Cannot divide by zero"
    (Calculator.divide (int (-5)) (int 0)).

Section WithLibm.

Variable L : Libm.

Definition test_power_positive_numbers : outcome :=
  assert_eq_val (Calculator.power L (int 2) (int 3)) (int 8) >>
  assert_eq_val (Calculator.power L (int 5) (int 2)) (int 25) >>
  assert_eq_val (Calculator.power L (int 10) (int 0)) (int 1) >>
  assert_approx_val (Calculator.power L (int 2) (flo 5 1))
    (float_lit 1414 3) (Some (float_lit 1 2)).

Definition test_power_negative_base : outcome :=
  assert_eq_val (Calculator.power L (int (-2)) (int 2)) (int 4) >>
  assert_eq_val (Calculator.power L (int (-2)) (int 3)) (int (-8)).

Definition test_square_root_positive_numbers : outcome :=
  assert_eq_val (Calculator.square_root L (int 4)) (flo 20 1) >>
  assert_eq_val (Calculator.square_root L (int 9)) (flo 30 1) >>
  assert_eq_val (Calculator.square_root L (int 16)) (flo 40 1) >>
  assert_eq_val (Calculator.square_root L (int 25)) (flo 50 1) >>
  assert_eq_val (Calculator.square_root L (int 0)) (flo 0 1).

Definition test_square_root_decimal_numbers : outcome :=
  assert_eq_val (Calculator.square_root L (flo 225 2)) (flo 15 1) >>
  assert_eq_val (Calculator.square_root L (flo 25 2)) (flo 5 1).

Definition test_square_root_negative_number_raises_error : outcome :=
  raises_value_error "Cannot calculate square root of negative number"
    (Calculator.square_root L (int (-4))) >>
  raises_value_error "Cannot calculate square root of negative number"
    (Calculator.square_root L (int (-1))).

(** The fifteen test methods, in the order of the file. *)
Definition test_suite : list outcome :=
  (test_add_positive_numbers
   :: test_add_negative_numbers
   :: test_add_decimal_numbers
   :: test_subtract_positive_numbers
   :: test_subtract_negative_numbers
   :: test_multiply_positive_numbers
   :: test_multiply_negative_numbers
   :: test_divide_positive_numbers
   :: test_divide_negative_numbers
   :: test_divide_by_zero_raises_error
   :: test_power_positive_numbers
   :: test_power_negative_base
   :: test_square_root_positive_numbers
   :: test_square_root_decimal_numbers
   :: test_square_root_negative_number_raises_error
   :: nil)%list.

End WithLibm.

(** The arguments at which the tests reach the C library's [pow], all
    with the exponent 0.5: 2, 4, 9, 16, 25, 2.25 and 0.25. *)
Definition pow_arguments : list float :=
  (flt 2 0 :: flt 4 0 :: flt 9 0 :: flt 16 0 :: flt 25 0
   :: float_lit 225 2 :: float_lit 25 2 :: nil)%list.

End TestCalculator.

(* ===================================================================== *)
(** ** Vocabulary of the amended algebra and concrete cases               *)
(* ===================================================================== *)

(** An int too large for a float: of magnitude [2^1024 - 2^970] or more. *)
Definition int_overflows (v : num) : bool :=
  match v with
  | PyInt n => 2 ^ 1024 - 2 ^ 970 <=? Z.abs n
  | PyFloat _ => false
  end.

(** An int too large for a float meets a float. *)
Definition mixed_overflow (a b : num) : bool :=
  negb (same_type a b) && (int_overflows a || int_overflows b).




(* ===================================================================== *)
(** ** Facts about binary64 arithmetic                                    *)
(* ===================================================================== *)

Lemma fadd_comm (x y : float) : fadd x y = fadd y x.
Proof.
  destruct x as [sx|sx| |sx mx ex], y as [sy|sy| |sy my ey];
    try reflexivity; try (destruct sx, sy; reflexivity).
  unfold fadd, SFadd. rewrite (Z.min_comm ey ex). f_equal. apply Z.add_comm.
Qed.

Lemma fmul_comm (x y : float) : fmul x y = fmul y x.
Proof.
  destruct x as [sx|sx| |sx mx ex], y as [sy|sy| |sy my ey];
    try reflexivity; unfold fmul, SFmul;
    rewrite ?(xorb_comm sy sx); try reflexivity.
  rewrite (Pos.mul_comm my mx), (Z.add_comm ey ex). reflexivity.
Qed.

(** Shifting a mantissa to the right keeps it non-negative. *)
Lemma shr_1_nonneg (mrs : shr_record) : 0 <= shr_m mrs -> 0 <= shr_m (shr_1 mrs).
Proof.
  destruct mrs as [m r s]; simpl; intros Hm.
  destruct m as [|p|p]; [ | destruct p | lia ]; simpl; lia.
Qed.

Lemma iter_shr_1_nonneg (p : positive) (mrs : shr_record) :
  0 <= shr_m mrs -> 0 <= shr_m (iter_pos shr_1 p mrs).
Proof.
  revert mrs; induction p as [p IH|p IH|]; intros mrs Hm; simpl.
  - apply IH, IH, shr_1_nonneg, Hm.
  - apply IH, IH, Hm.
  - apply shr_1_nonneg, Hm.
Qed.

Lemma shr_fexp_nonneg (m e : Z) (l : location) :
  0 <= m -> 0 <= shr_m (fst (shr_fexp prec emax m e l)).
Proof.
  intros Hm. unfold shr_fexp, shr.
  assert (H0 : 0 <= shr_m (shr_record_of_loc m l))
    by (destruct l as [|[]]; exact Hm).
  destruct (fexp prec emax (Zdigits2 m + e) - e); simpl; auto.
  apply iter_shr_1_nonneg, H0.
Qed.

Lemma round_nearest_even_nonneg (m : Z) (l : location) :
  0 <= m -> 0 <= round_nearest_even m l.
Proof.
  intros Hm. destruct l as [|[]]; simpl; try lia.
  destruct (Z.even m); lia.
Qed.

(** Rounding a non-negative mantissa gives a zero, a finite float or an
    infinity: never NaN. *)
Lemma binary_round_aux_not_nan (s : bool) (m e : Z) (l : location) :
  0 <= m -> is_nan (binary_round_aux prec emax s m e l) = false.
Proof.
  intros Hm. unfold binary_round_aux.
  pose proof (shr_fexp_nonneg m e l Hm) as H1.
  destruct (shr_fexp prec emax m e l) as [mrs1 e1]; simpl in H1.
  pose proof (shr_fexp_nonneg _ e1 loc_Exact
                (round_nearest_even_nonneg _ (loc_of_shr_record mrs1) H1)) as H2.
  destruct (shr_fexp prec emax _ e1 loc_Exact) as [mrs2 e2]; simpl in H2.
  destruct (shr_m mrs2) as [|p|p]; [reflexivity | | lia].
  destruct (e2 <=? emax - prec); reflexivity.
Qed.

Lemma binary_round_not_nan (s : bool) (m : positive) (e : Z) :
  is_nan (binary_round prec emax s m e) = false.
Proof.
  unfold binary_round.
  destruct (shl_align m e _) as [mz ez].
  apply binary_round_aux_not_nan. lia.
Qed.

Lemma flt_not_nan (m e : Z) : is_nan (flt m e) = false.
Proof.
  unfold flt, binary_normalize.
  destruct m; [reflexivity | apply binary_round_not_nan ..].
Qed.

Lemma fadd_finite_not_nan (x y : float) :
  is_finite x = true -> is_finite y = true -> is_nan (fadd x y) = false.
Proof.
  destruct x as [sx|sx| |sx mx ex], y as [sy|sy| |sy my ey];
    try discriminate; intros _ _; try reflexivity.
  - destruct sx, sy; reflexivity.
  - unfold fadd, SFadd. apply flt_not_nan.
Qed.

Lemma fmul_finite_not_nan (x y : float) :
  is_finite x = true -> is_finite y = true -> is_nan (fmul x y) = false.
Proof.
  destruct x as [sx|sx| |sx mx ex], y as [sy|sy| |sy my ey];
    try discriminate; intros _ _; try reflexivity.
  unfold fmul, SFmul. apply binary_round_aux_not_nan. lia.
Qed.

(** Python's [==] is reflexive on every float but NaN. *)
Lemma SFcompare_refl (x : float) : is_nan x = false -> SFcompare x x = Some Eq.
Proof.
  destruct x as [s|s| |s m e]; try discriminate; intros _; simpl.
  - reflexivity.
  - destruct s; reflexivity.
  - rewrite Z.compare_refl, Pos.compare_cont_refl. destruct s; reflexivity.
Qed.

Lemma py_eq_float_refl (x : float) :
  is_nan x = false -> py_eq (PyFloat x) (PyFloat x) = true.
Proof.
  intros H. unfold py_eq, py_cmp. rewrite (SFcompare_refl x H). reflexivity.
Qed.

Lemma py_eq_int_refl (n : Z) : py_eq (PyInt n) (PyInt n) = true.
Proof. unfold py_eq, py_cmp. rewrite Z.compare_refl. reflexivity. Qed.


(* ===================================================================== *)
(** ** Rounding to binary64                                               *)
(* ===================================================================== *)

Lemma fexp_eq (x : Z) : fexp prec emax x = Z.max (x - 53) (-1074).
Proof. reflexivity. Qed.

Lemma digits2_pos_size (p : positive) : digits2_pos p = Pos.size p.
Proof. induction p; simpl; congruence. Qed.

Lemma Zdigits2_log2 (m : Z) : 0 < m -> Zdigits2 m = Z.log2 m + 1.
Proof.
  destruct m as [|p|p]; try lia. intros _. simpl.
  rewrite digits2_pos_size. destruct p; simpl; lia.
Qed.

Lemma Zdigits2_spec (m : Z) :
  0 < m -> 2 ^ (Zdigits2 m - 1) <= m < 2 ^ Zdigits2 m.
Proof.
  intros Hm. rewrite (Zdigits2_log2 m Hm).
  replace (Z.log2 m + 1 - 1) with (Z.log2 m) by lia.
  apply (Z.log2_spec m Hm).
Qed.

Lemma Zdigits2_unique (m d : Z) :
  0 < d -> 2 ^ (d - 1) <= m < 2 ^ d -> Zdigits2 m = d.
Proof.
  intros Hd Hm.
  assert (0 < m) by (pose proof (Z.pow_pos_nonneg 2 (d - 1)); lia).
  rewrite Zdigits2_log2 by assumption.
  rewrite (Z.log2_unique m (d - 1)); try lia.
  replace (Z.succ (d - 1)) with d by lia. exact Hm.
Qed.

Lemma Zdigits2_nonneg (m : Z) : 0 <= Zdigits2 m.
Proof. destruct m; simpl; lia. Qed.

Lemma Zdigits2_pos (m : Z) : 0 < m -> 0 < Zdigits2 m.
Proof. destruct m; simpl; lia. Qed.

Lemma Zdigits2_le_mono (m n : Z) : 0 <= m <= n -> Zdigits2 m <= Zdigits2 n.
Proof.
  intros [H0 Hmn]. destruct (Z.eq_dec m 0) as [->|Hm].
  - apply Zdigits2_nonneg.
  - rewrite !Zdigits2_log2 by lia. pose proof (Z.log2_le_mono m n Hmn). lia.
Qed.

Lemma Zdigits2_div_pow2 (m k : Z) :
  0 <= m -> 0 <= k -> Zdigits2 (m / 2 ^ k) = Z.max 0 (Zdigits2 m - k).
Proof.
  intros Hm Hk. destruct (Z.eq_dec m 0) as [->|Hm0].
  - rewrite Z.div_0_l by (pose proof (Z.pow_pos_nonneg 2 k); lia).
    simpl. pose proof Hk. lia.
  - pose proof (Zdigits2_spec m ltac:(lia)) as [Hlo Hhi].
    destruct (Z_lt_le_dec k (Zdigits2 m)) as [Hlt|Hge].
    + rewrite Z.max_r by lia.
      apply Zdigits2_unique; [lia | ].
      assert (E : 2 ^ (Zdigits2 m - 1) = 2 ^ (Zdigits2 m - k - 1) * 2 ^ k)
        by (rewrite <- Z.pow_add_r by lia; f_equal; lia).
      assert (E' : 2 ^ (Zdigits2 m) = 2 ^ (Zdigits2 m - k) * 2 ^ k)
        by (rewrite <- Z.pow_add_r by lia; f_equal; lia).
      pose proof (Z.pow_pos_nonneg 2 k ltac:(lia) Hk).
      split.
      * apply Z.div_le_lower_bound; lia.
      * apply Z.div_lt_upper_bound; lia.
    + rewrite Z.max_l by lia.
      rewrite Z.div_small; [reflexivity | ].
      pose proof (Z.pow_le_mono_r 2 (Zdigits2 m) k ltac:(lia) Hge). lia.
Qed.

Lemma Zdigits2_mul_pow2 (m k : Z) :
  0 < m -> 0 <= k -> Zdigits2 (m * 2 ^ k) = Zdigits2 m + k.
Proof.
  intros Hm Hk.
  pose proof (Z.pow_pos_nonneg 2 k ltac:(lia) Hk).
  rewrite !Zdigits2_log2 by nia.
  rewrite Z.log2_mul_pow2 by lia. lia.
Qed.

(* shr *)
Lemma shr_1_eq (m : Z) (r s : bool) :
  0 <= m ->
  shr_1 (Build_shr_record m r s) = Build_shr_record (m / 2) (Z.odd m) (r || s).
Proof.
  intros Hm. destruct m as [|p|p]; [reflexivity | | lia].
  destruct p as [p|p|]; simpl shr_1; f_equal.
  - rewrite Pos2Z.inj_xI. apply Z.div_unique with (r := 1); lia.
  - rewrite Pos2Z.inj_xO. apply Z.div_unique with (r := 0); lia.
Qed.

Lemma represents_of_loc (N D : Z) :
  represents (shr_record_of_loc (N / D) (loc_of_frac N D)) N D.
Proof.
  unfold represents. destruct (loc_of_frac N D) as [|[]]; split; reflexivity.
Qed.

Lemma shr_1_represents (mrs : shr_record) (N D : Z) :
  0 <= N -> 0 < D -> represents mrs N D -> represents (shr_1 mrs) N (2 * D).
Proof.
  intros HN HD [Hm Hl]. destruct mrs as [m r s]. cbn [shr_m] in Hm.
  assert (Hm0 : 0 <= m) by (subst m; apply Z.div_pos; lia).
  rewrite shr_1_eq by exact Hm0.
  assert (Hdiv : N / (2 * D) = m / 2).
  { subst m. rewrite (Z.mul_comm 2 D). rewrite Z.div_div by lia. reflexivity. }
  assert (Hmod : N mod (2 * D) = N mod D + D * (m mod 2)).
  { subst m. rewrite (Z.mul_comm 2 D). apply Z.rem_mul_r; lia. }
  pose proof (Z.mod_pos_bound N D HD) as Hr.
  split; [cbn [shr_m]; symmetry; exact Hdiv | ].
  unfold loc_of_frac in *. rewrite Hmod, Zmod_odd. clear Hmod Hdiv Hm.
  set (x := N mod D) in *.
  destruct (Z.eqb_spec x 0) as [E0|E0].
  - assert (r = false /\ s = false) as [-> ->]
      by (destruct r, s; try discriminate; auto).
    destruct (Z.odd m); cbn [orb loc_of_shr_record].
    + destruct (Z.eqb_spec (x + D * 1) 0); [lia | ].
      f_equal. symmetry. apply Z.compare_eq_iff. lia.
    + destruct (Z.eqb_spec (x + D * 0) 0); [reflexivity | lia].
  - assert (Hrs : (r || s)%bool = true)
      by (destruct r, s; try reflexivity; discriminate).
    rewrite Hrs.
    destruct (Z.odd m); cbn [loc_of_shr_record].
    + destruct (Z.eqb_spec (x + D * 1) 0); [lia | ].
      f_equal. symmetry. apply Z.compare_gt_iff. lia.
    + destruct (Z.eqb_spec (x + D * 0) 0); [lia | ].
      f_equal. symmetry. apply Z.compare_lt_iff. lia.
Qed.

Lemma pow2_xO (p : positive) : 2 ^ Zpos p~0 = 2 ^ Zpos p * 2 ^ Zpos p.
Proof. rewrite <- Z.pow_add_r by lia. f_equal. lia. Qed.

Lemma pow2_xI (p : positive) : 2 ^ Zpos p~1 = 2 * (2 ^ Zpos p * 2 ^ Zpos p).
Proof.
  rewrite <- Z.pow_add_r by lia.
  replace (Zpos p~1) with (1 + (Zpos p + Zpos p)) by lia.
  rewrite Z.pow_add_r by lia. reflexivity.
Qed.

Lemma iter_shr_1_represents (p : positive) (mrs : shr_record) (N D : Z) :
  0 <= N -> 0 < D -> represents mrs N D ->
  represents (iter_pos shr_1 p mrs) N (D * 2 ^ Zpos p).
Proof.
  intros HN. revert mrs D.
  induction p as [p IH|p IH|]; intros mrs D HD H; cbn [iter_pos];
    try pose proof (Z.pow_pos_nonneg 2 (Zpos p) ltac:(lia) ltac:(lia)) as Hp.
  - rewrite pow2_xI.
    replace (D * (2 * (2 ^ Zpos p * 2 ^ Zpos p)))
      with (2 * D * 2 ^ Zpos p * 2 ^ Zpos p) by ring.
    apply IH; [nia | ]. apply IH; [lia | ].
    now apply shr_1_represents.
  - rewrite pow2_xO.
    replace (D * (2 ^ Zpos p * 2 ^ Zpos p))
      with (D * 2 ^ Zpos p * 2 ^ Zpos p) by ring.
    apply IH; [nia | ]. now apply IH.
  - replace (D * 2 ^ 1) with (2 * D) by lia. now apply shr_1_represents.
Qed.

(** [shr] by [k >= 0] places. *)
Lemma shr_represents (mrs : shr_record) (e k N D : Z) :
  0 <= N -> 0 < D -> 0 <= k -> represents mrs N D ->
  snd (shr mrs e k) = e + k /\ represents (fst (shr mrs e k)) N (D * 2 ^ k).
Proof.
  intros HN HD Hk H. destruct k as [|p|p]; [ | | lia]; cbn [shr fst snd].
  - rewrite Z.add_0_r, Z.mul_1_r. now split.
  - split; [reflexivity | now apply iter_shr_1_represents].
Qed.

(** Rounding to nearest, ties to even, of [N/D]. *)
Lemma round_nearest_even_spec (N D : Z) :
  0 <= N -> 0 < D ->
  let M := round_nearest_even (N / D) (loc_of_frac N D) in
  N / D <= M <= N / D + 1 /\ 2 * Z.abs (M * D - N) <= D.
Proof.
  intros HN HD M. subst M. unfold loc_of_frac.
  pose proof (Z.mod_pos_bound N D HD) as Hr.
  pose proof (Z.div_mod N D ltac:(lia)) as HE.
  set (q := N / D) in *. set (x := N mod D) in *.
  destruct (Z.eqb_spec x 0) as [E0|E0]; cbn [round_nearest_even].
  - split; [lia | nia].
  - destruct (Z.compare_spec (2 * x) D) as [E|E|E].
    + destruct (Z.even q); split; try lia; nia.
    + split; [lia | nia].
    + split; [lia | nia].
Qed.

Lemma shr_fexp_represents (e N D : Z) :
  0 <= N -> 0 < D ->
  let t := fexp prec emax (Zdigits2 (N / D) + e) in
  e <= t ->
  exists mrs, shr_fexp prec emax (N / D) e (loc_of_frac N D) = (mrs, t)
              /\ represents mrs N (D * 2 ^ (t - e)).
Proof.
  intros HN HD t Ht. unfold shr_fexp. fold t.
  pose proof (shr_represents _ e (t - e) N D HN HD ltac:(lia)
                (represents_of_loc N D)) as [H1 H2].
  destruct (shr _ e (t - e)) as [mrs e1]. cbn [fst snd] in *.
  exists mrs. split; [f_equal; lia | exact H2].
Qed.

Lemma shr_fexp_exact_id (M t : Z) :
  fexp prec emax (Zdigits2 M + t) <= t ->
  shr_fexp prec emax M t loc_Exact = (Build_shr_record M false false, t).
Proof.
  intros H. unfold shr_fexp, shr. cbn [shr_record_of_loc].
  destruct (fexp prec emax (Zdigits2 M + t) - t) eqn:E; try reflexivity. lia.
Qed.

Lemma shr_fexp_exact_carry (t : Z) :
  -1075 <= t ->
  shr_fexp prec emax (2 ^ 53) t loc_Exact
  = (Build_shr_record (2 ^ 52) false false, t + 1).
Proof.
  intros H. unfold shr_fexp, shr. cbn [shr_record_of_loc].
  replace (fexp prec emax (Zdigits2 (2 ^ 53) + t) - t) with 1.
  - reflexivity.
  - rewrite fexp_eq. change (Zdigits2 (2 ^ 53)) with 54. lia.
Qed.

(** Rounding [N/D * 2^e] to binary64, when the mantissa [N/D] needs no
    left shift.  The mantissa is shifted to the exponent [t] the format
    gives to the value and rounded there to the integer [M1]; the result
    is [M1 * 2^t] written canonically, an infinity when that is beyond
    the largest float. *)
Lemma binary_round_aux_detail (s : bool) (e N D : Z) :
  0 <= N -> 0 < D ->
  e <= fexp prec emax (Zdigits2 (N / D) + e) ->
  let t := fexp prec emax (Zdigits2 (N / D) + e) in
  let D1 := D * 2 ^ (t - e) in
  let M1 := round_nearest_even (N / D1) (loc_of_frac N D1) in
  match binary_round_aux prec emax s (N / D) e (loc_of_frac N D) with
  | S754_zero s' => s' = s /\ t = -1074 /\ M1 = 0
  | S754_finite s' m' e' =>
      s' = s /\ t <= e' /\ bounded prec emax m' e' = true /\
      Zpos m' * 2 ^ (e' - t) = M1
  | S754_infinity s' =>
      s' = s /\ 971 <= t /\ (971 < t /\ 2 ^ 52 <= N / D1 \/ M1 = 2 ^ 53)
  | S754_nan => False
  end.
Proof.
  intros HN HD Ht.
  destruct (shr_fexp_represents e N D HN HD Ht) as (mrs & E1 & [Hm1 Hl1]).
  unfold binary_round_aux. rewrite E1. rewrite Hm1, Hl1. clear E1 Hm1 Hl1 mrs.
  set (m := N / D) in *. set (d := Zdigits2 m) in *.
  set (t := fexp prec emax (d + e)) in *.
  assert (Hk : 0 <= t - e) by lia.
  pose proof (Z.pow_pos_nonneg 2 (t - e) ltac:(lia) Hk) as Hpk.
  set (D1 := D * 2 ^ (t - e)) in *.
  assert (HD1 : 0 < D1) by (unfold D1; nia).
  pose proof (round_nearest_even_spec N D1 HN HD1) as [HM _].
  cbv zeta in HM |- *.
  set (M1 := round_nearest_even (N / D1) (loc_of_frac N D1)) in *.
  assert (Hm0 : 0 <= m) by (apply Z.div_pos; lia).
  assert (Em1 : N / D1 = m / 2 ^ (t - e))
    by (unfold D1, m; rewrite Z.div_div by lia; reflexivity).
  pose proof (Zdigits2_div_pow2 m (t - e) Hm0 Hk) as Hd1.
  rewrite <- Em1 in Hd1. fold d in Hd1.
  assert (Hm1 : 0 <= N / D1) by (apply Z.div_pos; lia).
  assert (Et : t = Z.max (d + e - 53) (-1074)) by (unfold t; apply fexp_eq).
  destruct (Z_le_gt_dec (-1074) (d + e - 53)) as [HA|HB].
  - (* normal range: the shifted mantissa has 53 digits *)
    assert (Hd53 : Zdigits2 (N / D1) = 53) by lia.
    assert (Hpos : 0 < N / D1).
    { destruct (Z.eq_dec (N / D1) 0) as [E0|]; [ | lia].
      rewrite E0 in Hd53. discriminate. }
    pose proof (Zdigits2_spec _ Hpos) as Hb. rewrite Hd53 in Hb.
    change (2 ^ (53 - 1)) with (2 ^ 52) in Hb.
    destruct (Z.eq_dec M1 (2 ^ 53)) as [Ec|Hn].
    + rewrite Ec, shr_fexp_exact_carry by lia. cbn [shr_m].
      change (2 ^ 52) with (Zpos (4503599627370496)).
      destruct (Z.leb_spec (t + 1) (emax - prec)) as [Hle|Hgt].
      * split; [reflexivity | ]. split; [lia | ]. split.
        -- unfold bounded, canonical_mantissa.
           apply andb_true_intro; split; [ | apply Z.leb_le; exact Hle].
           apply Z.eqb_eq. rewrite fexp_eq.
           change (Zpos (digits2_pos 4503599627370496)) with 53. lia.
        -- replace (t + 1 - t) with 1 by lia. reflexivity.
      * unfold emax, prec in Hgt. split; [reflexivity | ].
        split; [lia | now right].
    + assert (HdM : Zdigits2 M1 = 53).
      { apply Zdigits2_unique; [lia | ].
        change (2 ^ (53 - 1)) with (2 ^ 52). lia. }
      rewrite shr_fexp_exact_id by (rewrite fexp_eq, HdM; lia).
      cbn [shr_m].
      destruct M1 as [|p|p] eqn:EM; try lia.
      destruct (Z.leb_spec t (emax - prec)) as [Hle|Hgt].
      * split; [reflexivity | ]. split; [lia | ]. split.
        -- unfold bounded, canonical_mantissa.
           apply andb_true_intro; split; [ | apply Z.leb_le; exact Hle].
           apply Z.eqb_eq. rewrite fexp_eq.
           change (Zpos (digits2_pos p)) with (Zdigits2 (Zpos p)). lia.
        -- rewrite Z.sub_diag. lia.
      * unfold emax, prec in Hgt. split; [reflexivity | ].
        split; [lia | left; lia].
  - (* subnormal range *)
    assert (Et' : t = -1074) by lia.
    assert (Hd52 : Zdigits2 (N / D1) <= 52) by lia.
    assert (Hlt : N / D1 < 2 ^ 52).
    { destruct (Z.eq_dec (N / D1) 0) as [E0|]; [rewrite E0; reflexivity | ].
      pose proof (Zdigits2_spec (N / D1) ltac:(lia)) as [_ Hhi].
      pose proof (Z.pow_le_mono_r 2 _ 52 ltac:(lia) Hd52). lia. }
    assert (HdM : Zdigits2 M1 <= 53).
    { change 53 with (Zdigits2 (2 ^ 52)). apply Zdigits2_le_mono. lia. }
    rewrite shr_fexp_exact_id by (rewrite fexp_eq; lia).
    cbn [shr_m].
    destruct M1 as [|p|p] eqn:EM; try lia.
    + split; [reflexivity | ]. split; [lia | reflexivity].
    + destruct (Z.leb_spec t (emax - prec)) as [Hle|Hgt];
        [ | unfold emax, prec in Hgt; lia].
      split; [reflexivity | ]. split; [lia | ]. split.
      * unfold bounded, canonical_mantissa.
        apply andb_true_intro; split; [ | apply Z.leb_le; exact Hle].
        apply Z.eqb_eq. rewrite fexp_eq.
        change (Zpos (digits2_pos p)) with (Zdigits2 (Zpos p)). lia.
      * rewrite Z.sub_diag. lia.
Qed.

Lemma pow2_pos (k : Z) : 0 <= k -> 0 < 2 ^ k.
Proof. intros. apply Z.pow_pos_nonneg; lia. Qed.

Lemma pow2_split (a b : Z) : 0 <= a -> 0 <= b -> 2 ^ (a + b) = 2 ^ a * 2 ^ b.
Proof. intros. apply Z.pow_add_r; lia. Qed.

(** The same on values: the result is canonical and within half a unit
    in its last place of the exact value; an overflow means a value of
    at least [2^1024 - 2^970]. *)
Lemma binary_round_aux_spec (s : bool) (e N D : Z) :
  0 <= N -> 0 < D ->
  e <= fexp prec emax (Zdigits2 (N / D) + e) ->
  match binary_round_aux prec emax s (N / D) e (loc_of_frac N D) with
  | S754_zero s' => s' = s /\ e <= -1074 /\ 2 * N <= D * 2 ^ (-1074 - e)
  | S754_finite s' m' e' =>
      s' = s /\ e <= e' /\ bounded prec emax m' e' = true /\
      2 * Z.abs (Zpos m' * 2 ^ (e' - e) * D - N) <= 2 ^ (e' - e) * D
  | S754_infinity s' =>
      s' = s /\
      forall c, 0 <= e + c -> 0 <= 971 + c ->
        (2 ^ 54 - 1) * D * 2 ^ (971 + c) <= 2 * N * 2 ^ (e + c)
  | S754_nan => False
  end.
Proof.
  intros HN HD Ht.
  pose proof (binary_round_aux_detail s e N D HN HD Ht) as S.
  cbv zeta in S.
  set (t := fexp prec emax (Zdigits2 (N / D) + e)) in *.
  pose proof (pow2_pos (t - e) ltac:(lia)) as Hpk.
  set (D1 := D * 2 ^ (t - e)) in *.
  assert (HD1 : 0 < D1) by (unfold D1; nia).
  pose proof (round_nearest_even_spec N D1 HN HD1) as [HM Hnear].
  cbv zeta in HM, Hnear.
  set (M1 := round_nearest_even (N / D1) (loc_of_frac N D1)) in *.
  assert (Hfl : N / D1 * D1 <= N).
  { pose proof (Z.mul_div_le N D1 HD1). lia. }
  destruct (binary_round_aux prec emax _ _ _ _) as [s'|s'| |s' m' e'];
    try contradiction.
  - destruct S as (-> & Et & E0). split; [reflexivity | ]. split; [lia | ].
    rewrite E0 in Hnear. unfold D1 in Hnear. rewrite Et in Hnear. lia.
  - destruct S as (-> & H971 & Hov). split; [reflexivity | ].
    intros c Hc1 Hc2.
    assert (E1 : 2 ^ (e + c) * 2 ^ (t - e) = 2 ^ (t - 971) * 2 ^ (971 + c))
      by (rewrite <- !pow2_split by lia; f_equal; lia).
    pose proof (pow2_pos (e + c) Hc1) as H1.
    pose proof (pow2_pos (971 + c) Hc2) as H2.
    pose proof (pow2_pos (t - 971) ltac:(lia)) as H3.
    change (2 ^ 54) with 18014398509481984.
    change (2 ^ 52) with 4503599627370496 in Hov.
    change (2 ^ 53) with 9007199254740992 in Hov.
    set (X := 2 ^ (971 + c)) in *. set (Y := 2 ^ (t - 971)) in *.
    set (Z' := 2 ^ (e + c)) in *.
    assert (EW : D1 * Z' = D * Y * X).
    { unfold D1. rewrite <- Z.mul_assoc, (Z.mul_comm (2 ^ (t - e)) Z'), E1.
      ring. }
    assert (HDX : 0 < D * X) by nia.
    destruct Hov as [[Hgt Hge] | Ec].
    + assert (HY : 2 <= Y).
      { unfold Y. change 2 with (2 ^ 1) at 1. apply Z.pow_le_mono_r; lia. }
      assert (HN1 : 4503599627370496 * D1 <= N) by nia.
      assert (HN2 : 4503599627370496 * (D1 * Z') <= N * Z') by nia.
      rewrite EW in HN2. nia.
    + rewrite Ec in Hnear.
      assert (HN1 : (18014398509481984 - 1) * D1 <= 2 * N) by lia.
      assert (HN2 : (18014398509481984 - 1) * (D1 * Z') <= 2 * N * Z') by nia.
      rewrite EW in HN2. nia.
  - destruct S as (-> & Hle & Hb & EM). split; [reflexivity | ].
    split; [lia | ]. split; [exact Hb | ].
    assert (E1 : 2 ^ (e' - e) = 2 ^ (e' - t) * 2 ^ (t - e))
      by (rewrite <- pow2_split by lia; f_equal; lia).
    pose proof (pow2_pos (e' - t) ltac:(lia)) as H1.
    rewrite E1.
    replace (Zpos m' * (2 ^ (e' - t) * 2 ^ (t - e)) * D - N)
      with (Zpos m' * 2 ^ (e' - t) * D1 - N) by (unfold D1; ring).
    rewrite EM.
    replace (2 ^ (e' - t) * 2 ^ (t - e) * D) with (2 ^ (e' - t) * D1)
      by (unfold D1; ring).
    nia.
Qed.

Lemma Zpos_iter_xO (m d : positive) :
  Zpos (Pos.iter xO m d) = Zpos m * 2 ^ Zpos d.
Proof.
  induction d as [|d IH] using Pos.peano_ind.
  - simpl. lia.
  - rewrite Pos.iter_succ, Pos2Z.inj_xO, IH, Pos2Z.inj_succ, Z.pow_succ_r by lia.
    ring.
Qed.

Lemma shl_align_spec (m : positive) (e t : Z) :
  let '(mz, ez) := shl_align m e t in
  ez = Z.min e t /\ Zpos mz = Zpos m * 2 ^ (e - ez).
Proof.
  unfold shl_align. destruct (t - e) as [|p|p] eqn:E.
  - split; [lia | ]. rewrite Z.sub_diag. lia.
  - split; [lia | ]. rewrite Z.sub_diag. lia.
  - split; [lia | ]. rewrite Zpos_iter_xO. f_equal. f_equal. lia.
Qed.

Lemma loc_of_frac_1 (N : Z) : loc_of_frac N 1 = loc_Exact.
Proof. unfold loc_of_frac. rewrite Z.mod_1_r. reflexivity. Qed.


(** Rounding [m * 2^e]: the error is at most half a unit in the last
    place of the result, stated on integers at any scale [2^c] below
    both exponents. *)
Lemma binary_round_spec (s : bool) (m : positive) (e : Z) :
  match binary_round prec emax s m e with
  | S754_zero s' => s' = s /\ Zpos (digits2_pos m) + e <= -1074
  | S754_finite s' m' e' =>
      s' = s /\ bounded prec emax m' e' = true /\
      forall c, c <= e -> c <= -1074 ->
        2 * Z.abs (Zpos m' * 2 ^ (e' - c) - Zpos m * 2 ^ (e - c)) <= 2 ^ (e' - c)
  | S754_infinity s' => s' = s
  | S754_nan => False
  end.
Proof.
  unfold binary_round.
  set (t := fexp prec emax (Zpos (digits2_pos m) + e)).
  pose proof (shl_align_spec m e t) as H.
  destruct (shl_align m e t) as [mz ez]. destruct H as [Hez Hmz].
  assert (Hez' : 0 <= e - ez) by lia.
  assert (Hd : Zdigits2 (Zpos mz) + ez = Zpos (digits2_pos m) + e).
  { rewrite Hmz, Zdigits2_mul_pow2 by lia.
    change (Zdigits2 (Zpos m)) with (Zpos (digits2_pos m)). lia. }
  pose proof (binary_round_aux_spec s ez (Zpos mz) 1 ltac:(lia) ltac:(lia)) as S.
  rewrite Z.div_1_r, loc_of_frac_1 in S.
  rewrite Hd in S. fold t in S. specialize (S ltac:(lia)).
  assert (Ht : t = Z.max (Zpos (digits2_pos m) + e - 53) (-1074))
    by (unfold t; apply fexp_eq).
  destruct (binary_round_aux prec emax s (Zpos mz) ez loc_Exact)
    as [s'|s'| |s' m' e']; auto; try (now destruct S).
  - destruct S as (-> & Hle & Hv). split; [reflexivity | ].
    rewrite Z.mul_1_l in Hv.
    pose proof (pow2_pos (-1074 - ez) ltac:(lia)).
    pose proof (Zdigits2_spec (Zpos mz) ltac:(lia)) as [Hlo _].
    destruct (Z_le_gt_dec (Zpos (digits2_pos m) + e) (-1074)); [assumption | ].
    exfalso.
    assert (Hp : 2 ^ (-1074 - ez) <= 2 ^ (Zdigits2 (Zpos mz) - 1))
      by (apply Z.pow_le_mono_r; lia).
    lia.
  - destruct S as (-> & Hle & Hb & Hv). split; [reflexivity | ].
    split; [exact Hb | ]. intros c Hce Hc.
    unfold bounded, canonical_mantissa in Hb.
    apply andb_prop in Hb. destruct Hb as [Hcan _].
    apply Z.eqb_eq in Hcan. rewrite fexp_eq in Hcan.
    assert (Hcz : c <= ez) by lia.
    rewrite Z.mul_1_r, Hmz in Hv.
    replace (e' - c) with ((e' - ez) + (ez - c)) by lia.
    replace (e - c) with ((e - ez) + (ez - c)) by lia.
    rewrite !pow2_split by lia.
    pose proof (pow2_pos (ez - c) ltac:(lia)).
    set (X := 2 ^ (ez - c)) in *.
    replace (Zpos m' * (2 ^ (e' - ez) * X) - Zpos m * (2 ^ (e - ez) * X))
      with ((Zpos m' * 2 ^ (e' - ez) - Zpos m * 2 ^ (e - ez)) * X) by ring.
    rewrite Z.abs_mul, (Z.abs_eq X) by lia. nia.
Qed.

(* ===================================================================== *)
(** ** Multiplication and division, in units of [2^-1074]                 *)
(* ===================================================================== *)

Lemma bounded_inv (m : positive) (e : Z) :
  bounded prec emax m e = true ->
  -1074 <= e <= 971 /\ Zdigits2 (Zpos m) <= 53 /\
  (Zdigits2 (Zpos m) = 53 \/ e = -1074).
Proof.
  unfold bounded, canonical_mantissa. intros H.
  apply andb_prop in H. destruct H as [Hc He].
  apply Z.eqb_eq in Hc. apply Z.leb_le in He. rewrite fexp_eq in Hc.
  change (Zpos (digits2_pos m)) with (Zdigits2 (Zpos m)) in Hc.
  unfold emax, prec in He. lia.
Qed.

Lemma Zdigits2_mul_ge (m n : Z) :
  0 < m -> 0 < n -> Zdigits2 m + Zdigits2 n - 1 <= Zdigits2 (m * n).
Proof.
  intros Hm Hn.
  pose proof (Zdigits2_spec m Hm) as [Hm1 _].
  pose proof (Zdigits2_spec n Hn) as [Hn1 _].
  pose proof (Zdigits2_pos m Hm). pose proof (Zdigits2_pos n Hn).
  assert (Hp : 2 ^ (Zdigits2 m - 1 + (Zdigits2 n - 1)) <= m * n).
  { rewrite pow2_split by lia.
    pose proof (pow2_pos (Zdigits2 m - 1) ltac:(lia)).
    pose proof (pow2_pos (Zdigits2 n - 1) ltac:(lia)). nia. }
  apply Z.log2_le_pow2 in Hp; [ | nia].
  rewrite (Zdigits2_log2 (m * n)) by nia. lia.
Qed.

(** A product of two binary64 is rounded once: the result is a binary64
    within half a unit in its last place of the exact product. *)
Lemma fmul_spec (sa sb : bool) (ma mb : positive) (ea eb : Z) :
  bounded prec emax ma ea = true -> bounded prec emax mb eb = true ->
  let A := Zpos ma * 2 ^ (ea + 1074) in
  let B := Zpos mb * 2 ^ (eb + 1074) in
  match fmul (S754_finite sa ma ea) (S754_finite sb mb eb) with
  | S754_zero s' => s' = xorb sa sb /\ 2 * (A * B) <= 2 ^ 1074
  | S754_finite s' mp ep =>
      s' = xorb sa sb /\ bounded prec emax mp ep = true /\
      2 * Z.abs (Zpos mp * 2 ^ (ep + 2148) - A * B) <= 2 ^ (ep + 2148)
  | S754_infinity s' => s' = xorb sa sb
  | S754_nan => False
  end.
Proof.
  intros Ha Hb A B.
  destruct (bounded_inv ma ea Ha) as (Hea & Hda & Hna).
  destruct (bounded_inv mb eb Hb) as (Heb & Hdb & Hnb).
  pose proof (Zdigits2_mul_ge (Zpos ma) (Zpos mb) ltac:(lia) ltac:(lia)) as Hd.
  pose proof (Zdigits2_pos (Zpos ma) ltac:(lia)).
  pose proof (Zdigits2_pos (Zpos mb) ltac:(lia)).
  unfold fmul, SFmul. rewrite Pos2Z.inj_mul.
  pose proof (binary_round_aux_spec (xorb sa sb) (ea + eb)
                (Zpos ma * Zpos mb) 1 ltac:(lia) ltac:(lia)) as S.
  rewrite Z.div_1_r, loc_of_frac_1, fexp_eq in S.
  specialize (S ltac:(lia)).
  assert (EAB : A * B = Zpos ma * Zpos mb * 2 ^ (ea + eb + 2148)).
  { unfold A, B. replace (ea + eb + 2148) with ((ea + 1074) + (eb + 1074)) by lia.
    rewrite (pow2_split (ea + 1074) (eb + 1074)) by lia. ring. }
  pose proof (pow2_pos (ea + eb + 2148) ltac:(lia)) as HX.
  destruct (binary_round_aux prec emax _ _ _ _) as [s'|s'| |s' mp ep]; auto;
    try (now destruct S).
  - destruct S as (-> & Hle & Hv). split; [reflexivity | ].
    rewrite EAB. rewrite Z.mul_1_l in Hv.
    assert (E : 2 ^ 1074 = 2 ^ (-1074 - (ea + eb)) * 2 ^ (ea + eb + 2148))
      by (rewrite <- pow2_split by lia; f_equal; lia).
    rewrite E.
    pose proof (pow2_pos (-1074 - (ea + eb)) ltac:(lia)). nia.
  - destruct S as (-> & Hle & Hbd & Hv). split; [reflexivity | ].
    split; [exact Hbd | ].
    rewrite EAB. rewrite !Z.mul_1_r in Hv.
    assert (E : 2 ^ (ep + 2148) = 2 ^ (ep - (ea + eb)) * 2 ^ (ea + eb + 2148))
      by (rewrite <- pow2_split by lia; f_equal; lia).
    rewrite E.
    set (X := 2 ^ (ea + eb + 2148)) in *.
    set (Y := 2 ^ (ep - (ea + eb))) in *.
    replace (Zpos mp * (Y * X) - Zpos ma * Zpos mb * X)
      with ((Zpos mp * Y - Zpos ma * Zpos mb) * X) by ring.
    rewrite Z.abs_mul, (Z.abs_eq X) by lia. nia.
Qed.



Lemma new_location_spec (D r : Z) :
  0 < D -> 0 <= r < D ->
  new_location D r = if r =? 0 then loc_Exact else loc_Inexact (2 * r ?= D).
Proof.
  intros HD Hr. unfold new_location, new_location_even, new_location_odd.
  destruct (Z.even D) eqn:Ev; [reflexivity | ].
  destruct (r =? 0); [reflexivity | ]. f_equal.
  assert (Hodd : Z.odd D = true) by (rewrite <- Z.negb_even, Ev; reflexivity).
  apply Z.odd_spec in Hodd. destruct Hodd as [k Hk].
  destruct (Z.compare_spec (2 * r + 1) D);
    destruct (Z.compare_spec (2 * r) D); try reflexivity; lia.
Qed.

Lemma Zdigits2_pow2 (j : Z) : 0 <= j -> Zdigits2 (2 ^ j) = j + 1.
Proof.
  intros Hj. apply Zdigits2_unique; [lia | ].
  replace (j + 1 - 1) with j by lia. split; [lia | ].
  apply Z.pow_lt_mono_r; lia.
Qed.

Lemma Zdigits2_div_ge (N D : Z) :
  0 < N -> 0 < D -> Zdigits2 N - Zdigits2 D <= Zdigits2 (N / D).
Proof.
  intros HN HD.
  pose proof (Zdigits2_nonneg (N / D)).
  destruct (Z_le_gt_dec (Zdigits2 N - Zdigits2 D) 0) as [|Hgt]; [lia | ].
  pose proof (Zdigits2_spec N HN) as [HN1 _].
  pose proof (Zdigits2_spec D HD) as [_ HD2].
  pose proof (Zdigits2_pos D HD).
  set (j := Zdigits2 N - Zdigits2 D - 1).
  assert (E : 2 ^ (Zdigits2 N - 1) = 2 ^ j * 2 ^ Zdigits2 D)
    by (rewrite <- pow2_split by lia; f_equal; lia).
  pose proof (pow2_pos j ltac:(lia)).
  assert (Hq : 2 ^ j <= N / D) by (apply Z.div_le_lower_bound; nia).
  pose proof (Zdigits2_le_mono (2 ^ j) (N / D) ltac:(lia)) as Hm.
  rewrite Zdigits2_pow2 in Hm by lia. lia.
Qed.

(** A quotient is rounded once: the result is a binary64 within half a
    unit in its last place of the exact quotient [P/B].  The dividend and
    the divisor may have mantissas of any length (two ints). *)
Lemma fdiv_spec (sp sb : bool) (mp mb : positive) (ep eb : Z) :
  -1074 <= ep -> -1074 <= eb ->
  let P := Zpos mp * 2 ^ (ep + 1074) in
  let B := Zpos mb * 2 ^ (eb + 1074) in
  match fdiv (S754_finite sp mp ep) (S754_finite sb mb eb) with
  | S754_zero s' => s' = xorb sp sb /\ 2 * (P * 2 ^ 1074) <= B
  | S754_finite s' mq eq =>
      s' = xorb sp sb /\ bounded prec emax mq eq = true /\
      2 * Z.abs (Zpos mq * 2 ^ (eq + 1074) * B - P * 2 ^ 1074)
      <= 2 ^ (eq + 1074) * B
  | S754_infinity s' =>
      s' = xorb sp sb /\ (2 ^ 54 - 1) * 2 ^ 2045 * B <= 2 * (P * 2 ^ 1074)
  | S754_nan => False
  end.
Proof.
  intros Hep Heb P B.
  unfold fdiv, SFdiv, SFdiv_core_binary.
  set (d1 := Zdigits2 (Zpos mp)). set (d2 := Zdigits2 (Zpos mb)).
  set (e' := Z.min (fexp prec emax (d1 + ep - (d2 + eb))) (ep - eb)).
  set (s := ep - eb - e').
  assert (Hs : 0 <= s) by (unfold s, e'; lia).
  assert (Hm' : match s with
                | Zpos _ => Z.shiftl (Zpos mp) s
                | Z0 => Zpos mp
                | Zneg _ => 0
                end = Zpos mp * 2 ^ s).
  { destruct s as [|p|p] eqn:Es; [lia | | lia].
    rewrite Z.shiftl_mul_pow2 by lia. reflexivity. }
  rewrite Hm'. clear Hm'.
  pose proof (pow2_pos s Hs) as H2s.
  set (N := Zpos mp * 2 ^ s) in *.
  assert (HN : 0 < N) by (unfold N; nia).
  pose proof (Z.mod_pos_bound N (Zpos mb) ltac:(lia)) as Hr.
  assert (Hqr : Z.div_eucl N (Zpos mb) = (N / Zpos mb, N mod Zpos mb)).
  { unfold Z.div, Z.modulo. destruct (Z.div_eucl N (Zpos mb)); reflexivity. }
  rewrite Hqr, (new_location_spec (Zpos mb) _ ltac:(lia) Hr).
  fold (loc_of_frac N (Zpos mb)).
  pose proof (binary_round_aux_spec (xorb sp sb) e' N (Zpos mb)
                ltac:(lia) ltac:(lia)) as S.
  assert (Hdig : d1 + s - d2 <= Zdigits2 (N / Zpos mb)).
  { pose proof (Zdigits2_div_ge N (Zpos mb) HN ltac:(lia)) as Hd.
    unfold N in Hd at 1. rewrite Zdigits2_mul_pow2 in Hd by lia.
    fold d1 d2 in Hd. lia. }
  assert (He' : e' <= fexp prec emax (Zdigits2 (N / Zpos mb) + e')).
  { assert (Ee : e' = Z.min (Z.max (d1 + ep - (d2 + eb) - 53) (-1074)) (ep - eb))
      by reflexivity.
    assert (Es : s = ep - eb - e') by reflexivity.
    rewrite fexp_eq. clearbody e' s. lia. }
  specialize (S He').
  assert (He'lo : 0 <= e' + eb + 2148).
  { assert (Ee : e' = Z.min (Z.max (d1 + ep - (d2 + eb) - 53) (-1074)) (ep - eb))
      by reflexivity.
    clearbody e'. lia. }
  pose proof (pow2_pos _ He'lo) as HX.
  set (X := 2 ^ (e' + eb + 2148)) in *.
  assert (EP : P * 2 ^ 1074 = N * X).
  { unfold P, N, X.
    rewrite <- !Z.mul_assoc, <- !pow2_split by lia.
    f_equal. f_equal. unfold s. lia. }
  destruct (binary_round_aux prec emax _ _ _ _) as [s'|s'| |s' mq eq]; auto.
  - destruct S as (-> & Hle & Hv). split; [reflexivity | ].
    rewrite EP.
    assert (EB : B = Zpos mb * 2 ^ (-1074 - e') * X).
    { unfold B, X. rewrite <- Z.mul_assoc, <- pow2_split by lia.
      f_equal. f_equal. lia. }
    rewrite EB. nia.
  - destruct S as (-> & Hov). split; [reflexivity | ].
    specialize (Hov (eb + 2148) ltac:(lia) ltac:(lia)).
    rewrite EP.
    replace (e' + (eb + 2148)) with (e' + eb + 2148) in Hov by lia.
    fold X in Hov.
    assert (EB : 2 ^ 2045 * B = Zpos mb * 2 ^ (971 + (eb + 2148))).
    { unfold B. rewrite (Z.mul_comm (2 ^ 2045)), <- Z.mul_assoc.
      rewrite <- pow2_split by lia. f_equal. f_equal. lia. }
    replace ((2 ^ 54 - 1) * 2 ^ 2045 * B) with ((2 ^ 54 - 1) * (2 ^ 2045 * B))
      by ring.
    rewrite EB, !Z.mul_assoc. exact Hov.
  - destruct S as (-> & Hle & Hbd & Hv). split; [reflexivity | ].
    split; [exact Hbd | ].
    destruct (bounded_inv mq eq Hbd) as (Heq & _).
    rewrite EP.
    assert (EQ : 2 ^ (eq + 1074) * B = 2 ^ (eq - e') * Zpos mb * X).
    { unfold B, X.
      replace (2 ^ (eq + 1074) * (Zpos mb * 2 ^ (eb + 1074)))
        with (Zpos mb * (2 ^ (eq + 1074) * 2 ^ (eb + 1074))) by ring.
      replace (2 ^ (eq - e') * Zpos mb * 2 ^ (e' + eb + 2148))
        with (Zpos mb * (2 ^ (eq - e') * 2 ^ (e' + eb + 2148))) by ring.
      rewrite <- !pow2_split by lia. f_equal. f_equal. lia. }
    replace (Zpos mq * 2 ^ (eq + 1074) * B)
      with (Zpos mq * (2 ^ (eq + 1074) * B)) by ring.
    rewrite EQ.
    set (Y := 2 ^ (eq - e')) in *.
    replace (Zpos mq * (Y * Zpos mb * X) - N * X)
      with ((Zpos mq * Y * Zpos mb - N) * X) by ring.
    rewrite Z.abs_mul, (Z.abs_eq X) by lia. nia.
Qed.

(** The quotient of a finite float by a finite, non-zero one, whatever
    the length of their mantissas. *)
Lemma fdiv_rounded_quotient (x : float) (sb : bool) (mb : positive) (eb : Z) :
  is_finite x = true ->
  match x with S754_finite _ _ e => -1074 <= e | _ => True end ->
  -1074 <= eb ->
  rounded_quotient (fdiv x (S754_finite sb mb eb))
    (Z.abs (float_units x)) (Zpos mb * 2 ^ (eb + 1074)) = true
  /\ (is_nan (fdiv x (S754_finite sb mb eb)) = false ->
      sign_of (fdiv x (S754_finite sb mb eb)) = xorb (sign_of x) sb).
Proof.
  intros Hf Hex Heb. destruct x as [sx|sx| |sx mx ex]; try discriminate Hf.
  - pose proof (pow2_pos (eb + 1074) ltac:(lia)).
    change (fdiv (S754_zero sx) (S754_finite sb mb eb))
      with (S754_zero (xorb sx sb)).
    split; [ | reflexivity]. cbn [rounded_quotient float_units].
    change (Z.abs 0) with 0. rewrite Z.mul_0_l. apply Z.leb_le. nia.
  - pose proof (fdiv_spec sx sb mx mb ex eb Hex Heb) as S. cbv zeta in S.
    pose proof (pow2_pos (ex + 1074) ltac:(lia)).
    assert (EA : Z.abs (float_units (S754_finite sx mx ex))
                 = Zpos mx * 2 ^ (ex + 1074))
      by (cbn [float_units]; destruct sx; cbn [cond_Zopp]; nia).
    rewrite EA.
    destruct (fdiv _ _) as [sq|sq| |sq mq eq]; try contradiction;
      cbn [rounded_quotient sign_of].
    + destruct S as [-> Hz]. split; [now apply Z.leb_le | reflexivity].
    + destruct S as [-> _]. split; [reflexivity | now intros _].
    + destruct S as (-> & Hb & Hv). split; [ | reflexivity].
      rewrite Hb. cbn [andb]. now apply Z.leb_le.
Qed.
(* ===================================================================== *)
(** ** Conversions                                                        *)
(* ===================================================================== *)

Lemma int_to_float_cases (n : Z) :
  (exists x, int_to_float n = Return x /\ is_finite x = true /\ x = flt n 0)
  \/ (int_to_float n = Raise OverflowError /\ is_inf (flt n 0) = true).
Proof.
  unfold int_to_float. pose proof (flt_not_nan n 0) as Hn.
  destruct (flt n 0) as [s|s| |s m e] eqn:E; simpl in *; try discriminate.
  - left. eexists; repeat split.
  - right. split; reflexivity.
  - left. eexists; repeat split.
Qed.

Lemma to_double_real (a : num) :
  is_real a = true ->
  (exists x, to_double a = Return x /\ is_finite x = true)
  \/ to_double a = Raise OverflowError.
Proof.
  destruct a as [n|x]; simpl; intros Hr.
  - destruct (int_to_float_cases n) as [(x & -> & Hx & _) | [-> _]]; eauto.
  - left. eauto.
Qed.

(* ===================================================================== *)
(** ** [+], [-], [*]: symmetry and results                                *)
(* ===================================================================== *)

Section Arith.

Variable iop : Z -> Z -> Z.
Variable fop : float -> float -> float.

Lemma arith_comm :
  (forall x y, iop x y = iop y x) ->
  (forall x y, fop x y = fop y x) ->
  forall a b, arith iop fop a b = arith iop fop b a.
Proof.
  intros Hi Hf [x|x] [y|y]; simpl.
  - now rewrite Hi.
  - destruct (int_to_float x); simpl; [now rewrite Hf | reflexivity].
  - destruct (int_to_float y); simpl; [now rewrite Hf | reflexivity].
  - now rewrite Hf.
Qed.

(** What a call on real numbers comes to: an int, a float that is not
    NaN, or [OverflowError]. *)
Lemma arith_real_outcome :
  (forall x y, is_finite x = true -> is_finite y = true ->
               is_nan (fop x y) = false) ->
  forall a b, is_real a = true -> is_real b = true ->
  (exists n, arith iop fop a b = Return (PyInt n))
  \/ (exists x, arith iop fop a b = Return (PyFloat x) /\ is_nan x = false)
  \/ arith iop fop a b = Raise OverflowError.
Proof.
  intros Hf a b Ha Hb.
  destruct a as [x|x], b as [y|y];
    try (left; eexists; reflexivity); right.
  all: unfold arith.
  all: destruct (to_double_real _ Ha) as [(x' & -> & Hx) | ->];
         cbn [bind]; [ | now right ].
  all: destruct (to_double_real _ Hb) as [(y' & -> & Hy) | ->];
         cbn [bind]; [ | now right ].
  all: left; eexists; split; [reflexivity | now apply Hf].
Qed.

Lemma arith_real_eq_self :
  (forall x y, is_finite x = true -> is_finite y = true ->
               is_nan (fop x y) = false) ->
  forall a b, is_real a = true -> is_real b = true ->
  result_eqb (arith iop fop a b) (arith iop fop a b) = true.
Proof.
  intros Hf a b Ha Hb.
  destruct (arith_real_outcome Hf a b Ha Hb)
    as [(n & ->) | [(x & -> & Hx) | ->]]; simpl.
  - apply py_eq_int_refl.
  - now apply py_eq_float_refl.
  - reflexivity.
Qed.

(** Operands that fit a float are combined without an exception. *)
Lemma arith_returns :
  (forall x y, is_finite x = true -> is_finite y = true ->
               is_nan (fop x y) = false) ->
  forall a b, is_real a = true -> is_real b = true ->
  returns (to_double a) = true -> returns (to_double b) = true ->
  exists v, arith iop fop a b = Return v /\ py_eq v v = true.
Proof.
  intros Hf a b Ha Hb Hta Htb.
  destruct (arith_real_outcome Hf a b Ha Hb)
    as [(n & E) | [(x & E & Hx) | E]].
  - exists (PyInt n). split; [exact E | apply py_eq_int_refl].
  - exists (PyFloat x). split; [exact E | now apply py_eq_float_refl].
  - exfalso. destruct a as [x|x], b as [y|y]; cbn in E, Hta, Htb;
      try discriminate E.
    + destruct (int_to_float x); [discriminate E | discriminate Hta].
    + destruct (int_to_float y); [discriminate E | discriminate Htb].
Qed.

End Arith.


(** The conversion of a non-zero int: a non-zero binary64 within half a
    unit in its last place of the int, or [OverflowError]. *)
Lemma int_to_float_spec (n : Z) :
  n <> 0 ->
  match int_to_float n with
  | Return x =>
      exists m e, x = S754_finite (n <? 0) m e /\
                  bounded prec emax m e = true /\
                  2 * Z.abs (Zpos m * 2 ^ (e + 1074) - Z.abs n * 2 ^ 1074)
                  <= 2 ^ (e + 1074)
  | Raise e => e = OverflowError
  end.
Proof.
  intros Hn. unfold int_to_float, flt, binary_normalize.
  destruct n as [|p|p]; [congruence | | ].
  all: pose proof (binary_round_spec (Zpos p <? 0) p 0) as S;
       pose proof (binary_round_spec (Zneg p <? 0) p 0) as S'.
  all: change (Zpos p <? 0) with false in *; change (Zneg p <? 0) with true in *.
  - clear S'. destruct (binary_round prec emax false p 0) as [s|s| |s m e];
      cbn [is_inf]; auto; try contradiction.
    + destruct S as [_ Hd]. pose proof (Zdigits2_pos (Zpos p)). simpl in *. lia.
    + destruct S as (-> & Hb & Hv). exists m, e. repeat split; auto.
      specialize (Hv (-1074) ltac:(lia) ltac:(lia)).
      replace (e - -1074) with (e + 1074) in Hv by lia.
      replace (0 - -1074) with 1074 in Hv by lia. exact Hv.
  - clear S. destruct (binary_round prec emax true p 0) as [s|s| |s m e];
      cbn [is_inf]; auto; try contradiction.
    + destruct S' as [_ Hd]. pose proof (Zdigits2_pos (Zpos p)). simpl in *. lia.
    + destruct S' as (-> & Hb & Hv). exists m, e. repeat split; auto.
      specialize (Hv (-1074) ltac:(lia) ltac:(lia)).
      replace (e - -1074) with (e + 1074) in Hv by lia.
      replace (0 - -1074) with 1074 in Hv by lia. exact Hv.
Qed.

(** Python's [b == 0] and C's [b == 0.0] agree on every float. *)
Lemma py_eq_zero_float (x : float) : py_eq (PyFloat x) (PyInt 0) = feqb x fzero.
Proof.
  destruct x as [s|s| |s m e]; try reflexivity.
  unfold py_eq, py_cmp, float_cmp_int, feqb, SFeqb, SFcompare.
  destruct (Z.leb_spec 0 e) as [He|He].
  - pose proof (pow2_pos e He).
    destruct s; cbn [cond_Zopp].
    + destruct (Z.compare_spec (- (Zpos m * 2 ^ e)) 0); try reflexivity; nia.
    + destruct (Z.compare_spec (Zpos m * 2 ^ e) 0); try reflexivity; nia.
  - destruct s; reflexivity.
Qed.

(* ===================================================================== *)
(** ** Where the operators raise                                          *)
(* ===================================================================== *)

(** Python's [x < 0] and C's [x < 0.0] agree on every float. *)
Lemma py_lt_zero_float (x : float) : py_lt (PyFloat x) (PyInt 0) = fltb x fzero.
Proof.
  destruct x as [s|s| |s m e]; try reflexivity.
  unfold py_lt, py_cmp, float_cmp_int, fltb, SFltb, SFcompare.
  destruct (Z.leb_spec 0 e) as [He|He].
  - pose proof (pow2_pos e He).
    destruct s; cbn [cond_Zopp].
    + destruct (Z.compare_spec (- (Zpos m * 2 ^ e)) 0); try reflexivity; nia.
    + destruct (Z.compare_spec (Zpos m * 2 ^ e) 0); try reflexivity; nia.
  - destruct s; reflexivity.
Qed.

(** A converted int is zero, or negative, exactly when the int is. *)
Lemma int_to_float_sign (n : Z) (x : float) :
  int_to_float n = Return x ->
  feqb x fzero = (n =? 0) /\ fltb x fzero = (n <? 0).
Proof.
  intros H. destruct (Z.eq_dec n 0) as [->|Hn].
  - cbv in H. injection H as <-. split; reflexivity.
  - pose proof (int_to_float_spec n Hn) as S. rewrite H in S.
    destruct S as (m & e & -> & _).
    destruct (Z.eqb_spec n 0); [contradiction | ].
    destruct (n <? 0); split; reflexivity.
Qed.

Lemma to_double_zero (v : num) (x : float) :
  to_double v = Return x -> feqb x fzero = py_eq v (PyInt 0).
Proof.
  destruct v as [n|y]; simpl; intros H.
  - apply int_to_float_sign in H. destruct H as [-> _].
    unfold py_eq, py_cmp. rewrite Z.eqb_compare. reflexivity.
  - injection H as <-. symmetry. apply py_eq_zero_float.
Qed.

Lemma to_double_neg (v : num) (x : float) :
  to_double v = Return x -> fltb x fzero = py_lt v (PyInt 0).
Proof.
  destruct v as [n|y]; simpl; intros H.
  - apply int_to_float_sign in H. destruct H as [_ ->].
    unfold py_lt, py_cmp, Z.ltb. reflexivity.
  - injection H as <-. symmetry. apply py_lt_zero_float.
Qed.

Lemma to_double_raise (v : num) (e : exn) :
  to_double v = Raise e -> e = OverflowError /\ exists n, v = PyInt n.
Proof.
  destruct v as [n|y]; simpl; [ | discriminate].
  unfold int_to_float. destruct (is_inf (flt n 0)); [ | discriminate].
  intros H. injection H as <-. split; [reflexivity | now exists n].
Qed.



Ltac case_ifs :=
  repeat match goal with
         | |- context [if ?c then _ else _] => destruct c eqn:?
         | |- context [match libm_cpow ?L ?x ?y with _ => _ end] =>
             destruct (libm_cpow L x y) as [[? ?]|] eqn:?
         end.

(** [float_pow] raises [ZeroDivisionError] on a zero base with a negative
    exponent, [OverflowError] when the C library's result is out of
    range, and nothing else. *)
Lemma float_pow_raise (L : Libm) (iv iw : float) (e : exn) :
  float_pow L iv iw = Raise e ->
  e = OverflowError
  \/ (e = ZeroDivisionError /\ feqb iv fzero = true /\ fltb iw fzero = true).
Proof.
  unfold float_pow. case_ifs; intros H; try discriminate;
    injection H as <-; auto.
Qed.

Lemma float_pow_half (L : Libm) (x : float) :
  fltb x fzero = false -> float_pow L x fhalf = pow_half L x.
Proof.
  intros Hx. unfold float_pow, pow_half.
  change (feqb fhalf fzero) with false. cbn iota.
  change (is_nan fhalf) with false. change (is_inf fhalf) with false.
  change (fltb fhalf fzero) with false. change (fltb fzero fhalf) with true.
  change (float_is_odd_integer fhalf) with false.
  rewrite Hx. cbn [andb]. cbn iota.
  destruct x as [s|s| |s m e]; try reflexivity.
  destruct s; [discriminate Hx | reflexivity].
Qed.

Lemma pow_half_raise (L : Libm) (x : float) (e : exn) :
  pow_half L x = Raise e -> e = OverflowError.
Proof.
  unfold pow_half. case_ifs; intros H; try discriminate.
  now injection H as <-.
Qed.

(* ===================================================================== *)
(** ** Multiplying, then dividing                                         *)
(* ===================================================================== *)


Lemma float_units_finite (s : bool) (m : positive) (e : Z) :
  -1074 <= e ->
  Z.abs (float_units (S754_finite s m e)) = Zpos m * 2 ^ (e + 1074)
  /\ 0 < Zpos m * 2 ^ (e + 1074).
Proof.
  intros He. pose proof (pow2_pos (e + 1074) ltac:(lia)).
  cbn [float_units]. destruct s; cbn [cond_Zopp]; split; nia.
Qed.

(** The unit in the last place of a binary64 is 1 (subnormal) or at most
    [2^-52] times its magnitude (normal). *)
Lemma ulp_units_bound (s : bool) (m : positive) (e : Z) :
  bounded prec emax m e = true ->
  ulp_units (S754_finite s m e) = 1
  \/ 2 ^ 52 * ulp_units (S754_finite s m e) <= Zpos m * 2 ^ (e + 1074).
Proof.
  intros Hb. destruct (bounded_inv m e Hb) as (He & _ & [Hn | Hs]).
  - right. cbn [ulp_units].
    pose proof (Zdigits2_spec (Zpos m) ltac:(lia)) as [Hlo _].
    rewrite Hn in Hlo. change (2 ^ (53 - 1)) with (2 ^ 52) in Hlo.
    pose proof (pow2_pos (e + 1074) ltac:(lia)). nia.
  - left. subst e. reflexivity.
Qed.

Lemma is_normal_inv (x : float) :
  is_normal x = true ->
  exists s m e, x = S754_finite s m e /\ 2 ^ 52 <= Zpos m.
Proof.
  destruct x as [s|s| |s m e]; try discriminate. cbn [is_normal].
  intros H. apply Z.eqb_eq in H. exists s, m, e. split; [reflexivity | ].
  pose proof (Zdigits2_spec (Zpos m) ltac:(lia)) as [Hlo _].
  cbn [Zdigits2] in Hlo. rewrite H in Hlo. exact Hlo.
Qed.


Lemma cond_Zopp_sub_abs (s : bool) (x y : Z) :
  Z.abs (cond_Zopp s x - cond_Zopp s y) = Z.abs (x - y).
Proof. destruct s; cbn [cond_Zopp]; lia. Qed.


Lemma int_raw_nonzero (n : Z) :
  n <> 0 -> int_raw n = S754_finite (n <? 0) (Z.to_pos (Z.abs n)) 0.
Proof. destruct n; [congruence | reflexivity | reflexivity]. Qed.

Lemma int_units (n T : Z) : n * T = cond_Zopp (n <? 0) (Z.abs n * T).
Proof.
  destruct (Z.ltb_spec n 0); cbn [cond_Zopp]; [rewrite Z.abs_neq | rewrite Z.abs_eq]; lia.
Qed.

Lemma float_quotient_rounded (x y : float) :
  valid x = true -> valid y = true ->
  is_finite x = true -> is_finite y = true ->
  py_eq (PyFloat y) (PyInt 0) = false ->
  rounded_quotient (fdiv x y) (Z.abs (float_units x)) (Z.abs (float_units y))
  = true.
Proof.
  intros Hvx Hvy Hfx Hfy Hy.
  destruct y as [sy|sy| |sy my ey]; try discriminate Hfy.
  - destruct sy; discriminate Hy.
  - destruct (bounded_inv my ey Hvy) as (Hey & _).
    destruct (float_units_finite sy my ey ltac:(lia)) as [-> _].
    apply fdiv_rounded_quotient; [exact Hfx | | lia].
    destruct x as [sx|sx| |sx mx ex]; try exact I.
    destruct (bounded_inv mx ex Hvx) as (Hex & _). lia.
Qed.

Lemma int_quotient_rounded (x y : Z) :
  y <> 0 ->
  rounded_quotient (fdiv (int_raw x) (int_raw y))
    (Z.abs x * 2 ^ 1074) (Z.abs y * 2 ^ 1074) = true.
Proof.
  intros Hy. rewrite (int_raw_nonzero y Hy).
  assert (EB : Z.abs y * 2 ^ 1074 = Zpos (Z.to_pos (Z.abs y)) * 2 ^ (0 + 1074))
    by (rewrite Z2Pos.id by lia; reflexivity).
  assert (EA : Z.abs x * 2 ^ 1074 = Z.abs (float_units (int_raw x))).
  { destruct x as [|p|p]; [reflexivity | | ].
    - destruct (float_units_finite false p 0 ltac:(lia)) as [E _]. exact (eq_sym E).
    - destruct (float_units_finite true p 0 ltac:(lia)) as [E _]. exact (eq_sym E). }
  rewrite EA, EB.
  apply fdiv_rounded_quotient; [destruct x; reflexivity | destruct x; simpl; lia | lia].
Qed.



(** An operand as a float: a binary64 within half a unit in its last
    place of the operand (equal to it when the operand is a float). *)
Lemma to_double_close (a : num) (x : float) :
  valid_num a = true -> is_real a = true -> to_double a = Return x ->
  valid x = true /\ is_finite x = true /\
  is_zero x = py_eq a (PyInt 0) /\
  2 * Z.abs (float_units x - num_units a) <= ulp_units x /\
  (ulp_units x = 1 \/ 2 ^ 52 * ulp_units x <= Z.abs (float_units x)).
Proof.
  intros Hv Hr Hd. destruct a as [n|y]; cbn [to_double] in Hd.
  - destruct (Z.eq_dec n 0) as [->|Hn].
    + cbv in Hd. injection Hd as <-. cbn. repeat split; auto; lia.
    + pose proof (int_to_float_spec n Hn) as S. rewrite Hd in S.
      destruct S as (m & e & -> & Hbd & Hc).
      destruct (bounded_inv m e Hbd) as (He & _).
      pose proof (ulp_units_bound (n <? 0) m e Hbd) as Hu.
      pose proof (float_units_finite (n <? 0) m e ltac:(lia)) as [EA HA].
      rewrite EA.
      split; [exact Hbd | ]. split; [reflexivity | ]. split.
      * unfold py_eq, py_cmp. destruct (Z.compare_spec n 0); try reflexivity.
        contradiction.
      * split; [ | exact Hu].
        cbn [float_units num_units ulp_units].
        rewrite (int_units n (2 ^ 1074)), cond_Zopp_sub_abs. exact Hc.
  - injection Hd as <-. cbn [num_units]. rewrite Z.sub_diag.
    destruct y as [s|s| |s m e]; try discriminate Hr.
    + cbn. destruct s; repeat split; auto; lia.
    + pose proof (ulp_units_bound s m e Hv) as Hu.
      destruct (bounded_inv m e Hv) as (He & _).
      pose proof (float_units_finite s m e ltac:(lia)) as [EA HA].
      rewrite EA. pose proof (pow2_pos (e + 1074) ltac:(lia)).
      split; [exact Hv | ]. split; [reflexivity | ]. split.
      * rewrite py_eq_zero_float. destruct s; reflexivity.
      * split; [cbn [ulp_units Z.abs]; lia | exact Hu].
Qed.


(* ===================================================================== *)
(** ** Squaring an approximate square root                                *)
(* ===================================================================== *)

Lemma pow2_1074_big : 2 ^ 108 <= 2 ^ 1074.
Proof. apply Z.pow_le_mono_r; lia. Qed.

(** If [r] is within one unit in its last place of the square root of
    [x], the rounded product [r * r], when finite, is within
    [2^-50.5 * x + 2^-1074] of [x]. *)
Lemma fmul_square_close (r x : float) :
  valid r = true -> sqrt_within_ulp r x = true ->
  is_finite (fmul r r) = true ->
  3 * 2 ^ 49 * Z.abs (float_units (fmul r r) - float_units x)
  <= Z.abs (float_units x) + 3 * 2 ^ 49.
Proof.
  intros Hv Hs Hp. unfold sqrt_within_ulp in Hs. cbv zeta in Hs.
  apply andb_prop in Hs. destruct Hs as [Hs Hhi].
  apply andb_prop in Hs. destruct Hs as [Hs Hlo].
  apply andb_prop in Hs. destruct Hs as [Hfr Hfx].
  apply Z.leb_le in Hlo. apply Z.leb_le in Hhi.
  rewrite !Z.pow_2_r in *.
  pose proof pow2_1074_big as HT. change (2 ^ 108) with 324518553658426726783156020576256 in HT.
  set (T := 2 ^ 1074) in *. set (X := float_units x) in *.
  assert (HX : 0 <= X) by nia.
  rewrite (Z.abs_eq X) by exact HX.
  change (2 ^ 49) with 562949953421312.
  destruct r as [sr|sr| |sr mr er]; try discriminate Hfr.
  - (* r is a zero *)
    change (fmul (S754_zero sr) (S754_zero sr)) with (S754_zero (xorb sr sr)).
    cbn [float_units ulp_units] in Hhi, Hlo |- *.
    change (Z.abs 0) with 0 in Hhi.
    assert (X = 0) by nia. lia.
  - pose proof (fmul_spec sr sr mr mr er er Hv Hv) as S. cbv zeta in S.
    destruct (bounded_inv mr er Hv) as (Her & Hdr & _).
    pose proof (ulp_units_bound sr mr er Hv) as Hu.
    pose proof (float_units_finite sr mr er ltac:(lia)) as [ER HR].
    rewrite ER in Hlo, Hhi. cbn [ulp_units] in Hlo, Hhi, Hu.
    pose proof (pow2_pos (er + 1074) ltac:(lia)) as HU.
    pose proof (Zdigits2_spec (Zpos mr) ltac:(lia)) as [_ Hmr].
    assert (Hmr' : Zpos mr < 2 ^ 53).
    { pose proof (Z.pow_le_mono_r 2 _ 53 ltac:(lia) Hdr). lia. }
    change (2 ^ 53) with 9007199254740992 in Hmr'.
    change (2 ^ 52) with 4503599627370496 in Hu.
    set (R := Zpos mr * 2 ^ (er + 1074)) in *.
    set (U := 2 ^ (er + 1074)) in *.
    assert (HRU : U <= R) by (unfold R; nia).
    rewrite Z.max_r in Hlo by lia.
    assert (Elo : (R - U) * (R - U) = R * R - 2 * (R * U) + U * U) by ring.
    assert (Ehi : (R + U) * (R + U) = R * R + 2 * (R * U) + U * U) by ring.
    rewrite Elo in Hlo. rewrite Ehi in Hhi. clear Elo Ehi.
    assert (HUU : U * U <= R * U) by nia.
    assert (HRU' : R * U <= R * R) by nia.
    assert (Hsub : U = 1 -> R * R < 81129638414606681695789005144064).
    { intros E1. unfold R. fold U. rewrite E1. nia. }
    assert (Hnor : 4503599627370496 * U <= R ->
                   4503599627370496 * (R * U) <= R * R
                   /\ 4503599627370496 * (U * U) <= R * U) by (intros; split; nia).
    set (RR := R * R) in *. set (RU := R * U) in *. set (UU := U * U) in *.
    destruct (fmul _ _) as [sp|sp| |sp mp ep]; try discriminate Hp;
      try contradiction.
    + (* the product underflows to zero *)
      destruct S as [_ Hz]. fold T in Hz. cbn [float_units].
      assert (X = 0); [ | lia].
      destruct Hu as [Hu|Hu]; [specialize (Hsub Hu) | specialize (Hnor Hu)]; nia.
    + destruct S as (Hsp & Hbp & Hv1). fold RR in Hv1.
      rewrite xorb_nilpotent in Hsp. subst sp.
      destruct (bounded_inv mp ep Hbp) as (Hep & _).
      pose proof (ulp_units_bound false mp ep Hbp) as Hup.
      cbn [ulp_units] in Hup.
      change (2 ^ 52) with 4503599627370496 in Hup.
      pose proof (pow2_pos (ep + 1074) ltac:(lia)) as HUp.
      assert (EP : 2 ^ (ep + 2148) = 2 ^ (ep + 1074) * T)
        by (unfold T; rewrite <- pow2_split by lia; f_equal; lia).
      rewrite EP in Hv1.
      cbn [float_units cond_Zopp].
      set (Pu := 2 ^ (ep + 1074)) in *.
      assert (Hgoal : 1688849860263936 * Z.abs (Zpos mp * Pu - X) <= X + 1688849860263936).
      { apply (Z.mul_le_mono_pos_r _ _ T ltac:(lia)).
        replace (1688849860263936 * Z.abs (Zpos mp * Pu - X) * T)
          with (1688849860263936 * Z.abs (Zpos mp * (Pu * T) - X * T)).
        2:{ replace (Zpos mp * (Pu * T) - X * T)
              with ((Zpos mp * Pu - X) * T) by ring.
            rewrite Z.abs_mul, (Z.abs_eq T) by lia. ring. }
        replace (Zpos mp * (Pu * T)) with (Zpos mp * Pu * T) in * by ring.
        assert (HP : 0 < Zpos mp * Pu)
          by (apply Z.mul_pos_pos; [apply Pos2Z.is_pos | exact HUp]).
        assert (HPT : T <= Zpos mp * Pu * T).
        { replace T with (1 * T) at 1 by ring.
          apply Z.mul_le_mono_nonneg_r; lia. }
        assert (HUT : Pu = 1 \/ 4503599627370496 * (Pu * T) <= Zpos mp * Pu * T).
        { destruct Hup as [Hup | Hup]; [left; assumption | right].
          rewrite Z.mul_assoc. apply Z.mul_le_mono_nonneg_r; lia. }
        set (P' := Zpos mp * Pu * T) in *. set (XT := X * T) in *.
        set (UT := Pu * T) in *.
        assert (EUT : Pu = 1 -> UT = T) by (intros E1; unfold UT; rewrite E1; lia).
        destruct Hu as [Hu|Hu]; [specialize (Hsub Hu) | specialize (Hnor Hu)];
          destruct HUT as [HUT|HUT]; try specialize (EUT HUT); lia. }
      exact Hgoal.
Qed.
(* ===================================================================== *)
(** ** Rounding is exact on the floats                                    *)
(* ===================================================================== *)

Lemma bounded_canonical (m : positive) (e : Z) :
  bounded prec emax m e = true -> fexp prec emax (Zdigits2 (Zpos m) + e) = e.
Proof.
  unfold bounded, canonical_mantissa. intros H.
  apply andb_prop in H. destruct H as [Hc _].
  apply Z.eqb_eq in Hc. exact Hc.
Qed.

Lemma bounded_lt (m : positive) (e : Z) :
  bounded prec emax m e = true -> Zpos m < 2 ^ 53.
Proof.
  intros H. destruct (bounded_inv m e H) as (_ & Hd & _).
  pose proof (Zdigits2_spec (Zpos m) ltac:(lia)) as [_ Hu].
  pose proof (Zdigits2_pos (Zpos m) ltac:(lia)).
  apply Z.lt_le_trans with (1 := Hu).
  apply Z.pow_le_mono_r; lia.
Qed.

Lemma bounded_normal (m : positive) (e : Z) :
  bounded prec emax m e = true -> -1074 < e -> 2 ^ 52 <= Zpos m.
Proof.
  intros H He. destruct (bounded_inv m e H) as (_ & _ & [Hd | Hd]); [ | lia].
  pose proof (Zdigits2_spec (Zpos m) ltac:(lia)) as [Hl _].
  rewrite Hd in Hl. exact Hl.
Qed.

(** A binary64 is determined by its value. *)
Lemma bounded_unique (m m' : positive) (e e' : Z) :
  bounded prec emax m e = true -> bounded prec emax m' e' = true ->
  e <= e' -> Zpos m' * 2 ^ (e' - e) = Zpos m ->
  m' = m /\ e' = e.
Proof.
  intros Hb Hb' Hle Hv.
  assert (He : e' = e).
  { destruct (Z.eq_dec e' e) as [E|E]; [exact E | exfalso].
    destruct (bounded_inv m e Hb) as (Hr & _).
    pose proof (bounded_normal m' e' Hb' ltac:(lia)) as Hn.
    pose proof (bounded_lt m e Hb) as Hlt.
    assert (2 ^ 1 <= 2 ^ (e' - e)) by (apply Z.pow_le_mono_r; lia).
    change (2 ^ 1) with 2 in *. nia. }
  subst e'. rewrite Z.sub_diag, Z.mul_1_r in Hv.
  split; [ | reflexivity]. now injection Hv.
Qed.

(** Rounding a fraction [N/D * 2^e] whose value is the binary64
    [mz * 2^ez] returns that float. *)
Lemma binary_round_aux_exact (s : bool) (e N D : Z) (mz : positive) (ez : Z) :
  0 < D -> bounded prec emax mz ez = true -> e <= ez ->
  N = Zpos mz * 2 ^ (ez - e) * D ->
  binary_round_aux prec emax s (N / D) e (loc_of_frac N D) = S754_finite s mz ez.
Proof.
  intros HD Hb Hle HN.
  pose proof (pow2_pos (ez - e) ltac:(lia)) as HY.
  assert (Hq : N / D = Zpos mz * 2 ^ (ez - e)).
  { rewrite HN. apply Z.div_mul. lia. }
  assert (Hdig : Zdigits2 (N / D) + e = Zdigits2 (Zpos mz) + ez).
  { rewrite Hq, Zdigits2_mul_pow2 by lia. lia. }
  pose proof (bounded_canonical mz ez Hb) as Hc.
  assert (Ht : fexp prec emax (Zdigits2 (N / D) + e) = ez) by (now rewrite Hdig).
  pose proof (binary_round_aux_detail s e N D ltac:(nia) HD ltac:(lia)) as S.
  cbv zeta in S. rewrite Ht in S.
  assert (HN1 : N = Zpos mz * (D * 2 ^ (ez - e))) by (rewrite HN; ring).
  assert (HM : round_nearest_even (N / (D * 2 ^ (ez - e)))
                 (loc_of_frac N (D * 2 ^ (ez - e))) = Zpos mz).
  { rewrite HN1 at 1 2. unfold loc_of_frac.
    rewrite Z.div_mul, Z.mod_mul by nia. reflexivity. }
  rewrite HM in S.
  pose proof (bounded_lt mz ez Hb) as Hlt.
  destruct (bounded_inv mz ez Hb) as (Hr & _).
  destruct (binary_round_aux prec emax s (N / D) e (loc_of_frac N D))
    as [s'|s'| |s' m' e'].
  - destruct S as (_ & _ & S). lia.
  - destruct S as (_ & _ & [[S _] | S]); [lia | ].
    change (2 ^ 53) with 9007199254740992 in *. lia.
  - contradiction.
  - destruct S as (-> & Hle' & Hb' & Hv).
    destruct (bounded_unique mz m' ez e' Hb Hb' Hle' Hv) as [-> ->].
    reflexivity.
Qed.

(** [binary_round] on a value that is a binary64. *)
Lemma binary_round_exact (s : bool) (m : positive) (e : Z)
      (mz : positive) (ez c : Z) :
  bounded prec emax mz ez = true -> c <= e -> c <= ez ->
  Zpos m * 2 ^ (e - c) = Zpos mz * 2 ^ (ez - c) ->
  binary_round prec emax s m e = S754_finite s mz ez.
Proof.
  intros Hb Hce Hcz Hv.
  pose proof (pow2_pos (e - c) ltac:(lia)) as H1.
  pose proof (pow2_pos (ez - c) ltac:(lia)) as H2.
  assert (Hdig : Zdigits2 (Zpos m) + e = Zdigits2 (Zpos mz) + ez).
  { pose proof (Zdigits2_mul_pow2 (Zpos m) (e - c) ltac:(lia) ltac:(lia)) as D1.
    pose proof (Zdigits2_mul_pow2 (Zpos mz) (ez - c) ltac:(lia) ltac:(lia)) as D2.
    rewrite Hv in D1. lia. }
  pose proof (bounded_canonical mz ez Hb) as Hc.
  unfold binary_round.
  change (Zpos (digits2_pos m)) with (Zdigits2 (Zpos m)).
  rewrite Hdig, Hc.
  pose proof (shl_align_spec m e ez) as A.
  destruct (shl_align m e ez) as [m2 e2]. destruct A as [E2 M2].
  pose proof (binary_round_aux_exact s e2 (Zpos m2) 1 mz ez ltac:(lia) Hb
                ltac:(lia)) as R.
  rewrite Z.div_1_r, loc_of_frac_1 in R. apply R.
  rewrite Z.mul_1_r, M2.
  pose proof (pow2_pos (e - e2) ltac:(lia)).
  pose proof (pow2_pos (ez - e2) ltac:(lia)).
  pose proof (pow2_pos (e2 - c) ltac:(lia)) as H3.
  assert (E1 : 2 ^ (e - c) = 2 ^ (e - e2) * 2 ^ (e2 - c))
    by (rewrite <- pow2_split by lia; f_equal; lia).
  assert (E3 : 2 ^ (ez - c) = 2 ^ (ez - e2) * 2 ^ (e2 - c))
    by (rewrite <- pow2_split by lia; f_equal; lia).
  rewrite E1, E3 in Hv.
  apply Z.mul_reg_r with (p := 2 ^ (e2 - c)); [lia | ].
  rewrite <- !Z.mul_assoc. exact Hv.
Qed.

(* ===================================================================== *)
(** ** Comparison is the comparison of the values                         *)
(* ===================================================================== *)

Lemma bounded_exp_lt (m1 m2 : positive) (e1 e2 : Z) :
  bounded prec emax m1 e1 = true -> bounded prec emax m2 e2 = true ->
  e1 < e2 -> Zpos m1 * 2 ^ (e1 + 1074) < Zpos m2 * 2 ^ (e2 + 1074).
Proof.
  intros H1 H2 Hlt.
  destruct (bounded_inv m1 e1 H1) as (Hr1 & _).
  pose proof (bounded_lt m1 e1 H1) as Hm1.
  pose proof (bounded_normal m2 e2 H2 ltac:(lia)) as Hm2.
  pose proof (pow2_pos (e1 + 1074) ltac:(lia)) as HX.
  assert (E : 2 ^ (e2 + 1074) = 2 ^ (e2 - e1) * 2 ^ (e1 + 1074))
    by (rewrite <- pow2_split by lia; f_equal; lia).
  assert (2 ^ 1 <= 2 ^ (e2 - e1)) by (apply Z.pow_le_mono_r; lia).
  rewrite E. change (2 ^ 1) with 2 in *.
  change (2 ^ 53) with (2 * 2 ^ 52) in Hm1. nia.
Qed.

Lemma compare_scale (x y p : Z) : 0 < p -> (x * p ?= y * p) = (x ?= y).
Proof.
  intros Hp. symmetry. apply Zmult_compare_compat_r. lia.
Qed.

Lemma compare_opp (x y : Z) : (- x ?= - y) = CompOpp (x ?= y).
Proof. rewrite Z.compare_opp. apply Z.compare_antisym. Qed.

Lemma SFcompare_units (x y : float) :
  valid x = true -> valid y = true ->
  is_finite x = true -> is_finite y = true ->
  SFcompare x y = Some (float_units x ?= float_units y).
Proof.
  destruct x as [sx|sx| |sx mx ex]; try discriminate;
    destruct y as [sy|sy| |sy my ey]; try discriminate;
    intros Hx Hy _ _; cbn [SFcompare float_units].
  - reflexivity.
  - destruct (bounded_inv my ey Hy) as (Hr & _).
    pose proof (pow2_pos (ey + 1074) ltac:(lia)).
    f_equal. destruct sy; cbn [cond_Zopp]; symmetry;
      [apply Z.compare_gt_iff | apply Z.compare_lt_iff]; nia.
  - destruct (bounded_inv mx ex Hx) as (Hr & _).
    pose proof (pow2_pos (ex + 1074) ltac:(lia)).
    f_equal. destruct sx; cbn [cond_Zopp]; symmetry;
      [apply Z.compare_lt_iff | apply Z.compare_gt_iff]; nia.
  - cbn [valid valid_binary] in Hx, Hy.
    destruct (bounded_inv mx ex Hx) as (Hrx & _).
    destruct (bounded_inv my ey Hy) as (Hry & _).
    pose proof (pow2_pos (ex + 1074) ltac:(lia)).
    pose proof (pow2_pos (ey + 1074) ltac:(lia)).
    assert (C : (Zpos mx * 2 ^ (ex + 1074) ?= Zpos my * 2 ^ (ey + 1074))
                = match ex ?= ey with
                  | Lt => Lt
                  | Gt => Gt
                  | Eq => Pos.compare_cont Eq mx my
                  end).
    { destruct (Z.compare_spec ex ey) as [E|E|E].
      - subst ey. rewrite compare_scale by lia. reflexivity.
      - apply Z.compare_lt_iff. now apply bounded_exp_lt.
      - apply Z.compare_gt_iff. now apply bounded_exp_lt. }
    f_equal. destruct sx, sy; cbn [cond_Zopp].
    + rewrite compare_opp, C. destruct (ex ?= ey); reflexivity.
    + symmetry. apply Z.compare_lt_iff. nia.
    + symmetry. apply Z.compare_gt_iff. nia.
    + rewrite C. reflexivity.
Qed.

Lemma float_cmp_int_units (x : float) (n : Z) :
  valid x = true -> is_finite x = true ->
  float_cmp_int x n = Some (float_units x ?= n * 2 ^ 1074).
Proof.
  destruct x as [sx|sx| |sx mx ex]; try discriminate; intros Hx _;
    cbn [float_cmp_int float_units].
  - f_equal. symmetry. change 0 with (0 * 2 ^ 1074) at 1.
    apply compare_scale. reflexivity.
  - cbn [valid valid_binary] in Hx.
    destruct (bounded_inv mx ex Hx) as (Hrx & _).
    destruct (0 <=? ex) eqn:He; f_equal.
    + apply Z.leb_le in He.
      rewrite (pow2_split ex 1074) by lia.
      rewrite <- (compare_scale _ n (2 ^ 1074)) by reflexivity.
      f_equal. destruct sx; cbn [cond_Zopp]; ring.
    + apply Z.leb_gt in He.
      pose proof (pow2_pos (ex + 1074) ltac:(lia)) as HX.
      pose proof (pow2_pos (- ex) ltac:(lia)) as HY.
      assert (E : 2 ^ 1074 = 2 ^ (- ex) * 2 ^ (ex + 1074))
        by (rewrite <- pow2_split by lia; f_equal; lia).
      rewrite E, Z.mul_assoc.
      rewrite <- (compare_scale _ (n * 2 ^ (- ex)) (2 ^ (ex + 1074))) by lia.
      f_equal. destruct sx; cbn [cond_Zopp]; ring.
Qed.

(** [==] and [<] on real numbers compare the values. *)
Lemma py_cmp_units (a b : num) :
  valid_num a = true -> valid_num b = true ->
  is_real a = true -> is_real b = true ->
  py_cmp a b = Some (num_units a ?= num_units b).
Proof.
  destruct a as [x|x], b as [y|y]; cbn [valid_num is_real py_cmp num_units];
    intros Va Vb Ra Rb.
  - f_equal. symmetry. apply compare_scale. reflexivity.
  - rewrite float_cmp_int_units by assumption. cbn [option_map]. f_equal.
    symmetry. apply Z.compare_antisym.
  - now apply float_cmp_int_units.
  - now apply SFcompare_units.
Qed.

(** A finite binary64 is determined by its value, up to the sign of zero. *)
Lemma float_units_inj (x y : float) :
  valid x = true -> valid y = true ->
  is_finite x = true -> is_finite y = true ->
  float_units x = float_units y ->
  x = y \/ (is_zero x = true /\ is_zero y = true).
Proof.
  destruct x as [sx|sx| |sx mx ex]; try discriminate;
    destruct y as [sy|sy| |sy my ey]; try discriminate;
    intros Hx Hy _ _; cbn [float_units valid valid_binary is_zero] in *.
  - auto.
  - destruct (bounded_inv my ey Hy) as (Hr & _).
    pose proof (pow2_pos (ey + 1074) ltac:(lia)).
    destruct sy; cbn [cond_Zopp]; nia.
  - destruct (bounded_inv mx ex Hx) as (Hr & _).
    pose proof (pow2_pos (ex + 1074) ltac:(lia)).
    destruct sx; cbn [cond_Zopp]; nia.
  - intros E. left.
    destruct (bounded_inv mx ex Hx) as (Hrx & _).
    destruct (bounded_inv my ey Hy) as (Hry & _).
    pose proof (pow2_pos (ex + 1074) ltac:(lia)).
    pose proof (pow2_pos (ey + 1074) ltac:(lia)).
    assert (Es : sx = sy) by (destruct sx, sy; cbn [cond_Zopp] in E; try reflexivity; nia).
    subst sy.
    assert (Ev : Zpos mx * 2 ^ (ex + 1074) = Zpos my * 2 ^ (ey + 1074))
      by (destruct sx; cbn [cond_Zopp] in E; lia).
    assert (Ee : ex = ey).
    { destruct (Z.compare_spec ex ey) as [E1|E1|E1]; [exact E1 | | ];
        exfalso.
      - pose proof (bounded_exp_lt mx my ex ey Hx Hy E1). lia.
      - pose proof (bounded_exp_lt my mx ey ex Hy Hx E1). lia. }
    subst ey. f_equal. apply Z.mul_reg_r in Ev; [ | lia]. now injection Ev.
Qed.

(* ===================================================================== *)
(** ** [+] and [-] on floats: one rounding of the exact result            *)
(* ===================================================================== *)

Lemma binary_normalize_spec (m e : Z) :
  -1074 <= e ->
  match binary_normalize prec emax m e false with
  | S754_zero s' => m = 0 /\ s' = false
  | S754_finite s' m' e' =>
      m <> 0 /\ s' = (m <? 0) /\ bounded prec emax m' e' = true /\
      2 * Z.abs (Zpos m' * 2 ^ (e' + 1074) - Z.abs m * 2 ^ (e + 1074))
      <= 2 ^ (e' + 1074)
  | S754_infinity s' => m <> 0 /\ s' = (m <? 0)
  | S754_nan => False
  end.
Proof.
  intros He. destruct m as [|p|p]; cbn [binary_normalize].
  - auto.
  - pose proof (binary_round_spec false p e) as S.
    destruct (binary_round prec emax false p e) as [s'|s'| |s' m' e'].
    + destruct S as (_ & S). pose proof (Pos2Z.is_pos (digits2_pos p)). lia.
    + split; [lia | exact S].
    + exact S.
    + destruct S as (-> & Hb & Hv). split; [lia | ]. split; [reflexivity | ].
      split; [exact Hb | ].
      specialize (Hv (-1074) ltac:(lia) ltac:(lia)).
      replace (e' - -1074) with (e' + 1074) in Hv by lia.
      replace (e - -1074) with (e + 1074) in Hv by lia. exact Hv.
  - pose proof (binary_round_spec true p e) as S.
    destruct (binary_round prec emax true p e) as [s'|s'| |s' m' e'].
    + destruct S as (_ & S). pose proof (Pos2Z.is_pos (digits2_pos p)). lia.
    + split; [lia | exact S].
    + exact S.
    + destruct S as (-> & Hb & Hv). split; [lia | ]. split; [reflexivity | ].
      split; [exact Hb | ].
      specialize (Hv (-1074) ltac:(lia) ltac:(lia)).
      replace (e' - -1074) with (e' + 1074) in Hv by lia.
      replace (e - -1074) with (e + 1074) in Hv by lia. exact Hv.
Qed.

(** [binary_normalize] on a value that is the finite binary64 [z]. *)
Lemma binary_normalize_exact (m e : Z) (z : float) :
  -1074 <= e -> valid z = true -> is_finite z = true ->
  m * 2 ^ (e + 1074) = float_units z ->
  (m = 0 /\ is_zero z = true /\ binary_normalize prec emax m e false = fzero)
  \/ (m <> 0 /\ binary_normalize prec emax m e false = z).
Proof.
  intros He Hz Hf Hv.
  pose proof (pow2_pos (e + 1074) ltac:(lia)) as HX.
  destruct z as [sz|sz| |sz mz ez]; try discriminate;
    cbn [float_units valid valid_binary] in *.
  - left. assert (m = 0) by nia. subst m. auto.
  - right.
    destruct (bounded_inv mz ez Hz) as (Hr & _).
    pose proof (pow2_pos (ez + 1074) ltac:(lia)) as HY.
    destruct m as [|p|p]; cbn [binary_normalize].
    + exfalso. destruct sz; cbn [cond_Zopp] in Hv; nia.
    + split; [lia | ].
      assert (sz = false) by (destruct sz; cbn [cond_Zopp] in Hv; [nia | reflexivity]).
      subst sz. cbn [cond_Zopp] in Hv.
      apply (binary_round_exact false p e mz ez (-1074) Hz); try lia.
      replace (e - -1074) with (e + 1074) by lia.
      replace (ez - -1074) with (ez + 1074) by lia. exact Hv.
    + split; [lia | ].
      assert (sz = true) by (destruct sz; cbn [cond_Zopp] in Hv; [reflexivity | nia]).
      subst sz. cbn [cond_Zopp] in Hv.
      apply (binary_round_exact true p e mz ez (-1074) Hz); try lia.
      replace (e - -1074) with (e + 1074) by lia.
      replace (ez - -1074) with (ez + 1074) by lia. lia.
Qed.

(** The aligned mantissas of [SFadd] and [SFsub]. *)
Lemma shl_align_units (s : bool) (m : positive) (e ez : Z) :
  -1074 <= ez -> ez <= e ->
  cond_Zopp s (Zpos (fst (shl_align m e ez))) * 2 ^ (ez + 1074)
  = float_units (S754_finite s m e).
Proof.
  intros Hz Hle. pose proof (shl_align_spec m e ez) as A.
  destruct (shl_align m e ez) as [m2 e2]. destruct A as [E2 M2].
  cbn [fst float_units]. rewrite M2.
  replace (Z.min e ez) with ez in * by lia. subst e2.
  assert (E : 2 ^ (e + 1074) = 2 ^ (e - ez) * 2 ^ (ez + 1074))
    by (rewrite <- pow2_split by lia; f_equal; lia).
  rewrite E. destruct s; cbn [cond_Zopp]; ring.
Qed.

(** The sum and the difference of two finite floats are the exact ones
    brought to the floats by [binary_normalize]. *)
Lemma fadd_normalize (sx sy : bool) (mx my : positive) (ex ey : Z) :
  -1074 <= ex -> -1074 <= ey ->
  exists S ez,
    -1074 <= ez /\
    fadd (S754_finite sx mx ex) (S754_finite sy my ey)
    = binary_normalize prec emax S ez false /\
    S * 2 ^ (ez + 1074)
    = float_units (S754_finite sx mx ex) + float_units (S754_finite sy my ey).
Proof.
  intros Hx Hy. unfold fadd, SFadd. cbv zeta.
  eexists _, (Z.min ex ey). split; [lia | ]. split; [reflexivity | ].
  rewrite Z.mul_add_distr_r, !shl_align_units by lia. reflexivity.
Qed.

Lemma fsub_normalize (sx sy : bool) (mx my : positive) (ex ey : Z) :
  -1074 <= ex -> -1074 <= ey ->
  exists S ez,
    -1074 <= ez /\
    fsub (S754_finite sx mx ex) (S754_finite sy my ey)
    = binary_normalize prec emax S ez false /\
    S * 2 ^ (ez + 1074)
    = float_units (S754_finite sx mx ex) - float_units (S754_finite sy my ey).
Proof.
  intros Hx Hy. unfold fsub, SFsub. cbv zeta.
  eexists _, (Z.min ex ey). split; [lia | ]. split; [reflexivity | ].
  rewrite Z.mul_sub_distr_r, !shl_align_units by lia. reflexivity.
Qed.

Lemma binary_round_inf (s s' : bool) (m : positive) (e : Z) :
  -1074 <= e ->
  binary_round prec emax s m e = S754_infinity s' ->
  (2 ^ 54 - 1) * 2 ^ 2045 <= 2 * (Zpos m * 2 ^ (e + 1074)).
Proof.
  intros He. unfold binary_round.
  set (t := fexp prec emax (Zpos (digits2_pos m) + e)).
  assert (Ht : -1074 <= t) by (unfold t; rewrite fexp_eq; lia).
  pose proof (shl_align_spec m e t) as H.
  destruct (shl_align m e t) as [mz ez]. destruct H as [Hez Hmz].
  assert (Hd : Zdigits2 (Zpos mz) + ez = Zpos (digits2_pos m) + e).
  { rewrite Hmz, Zdigits2_mul_pow2 by lia.
    change (Zdigits2 (Zpos m)) with (Zpos (digits2_pos m)). lia. }
  pose proof (binary_round_aux_spec s ez (Zpos mz) 1 ltac:(lia) ltac:(lia)) as S.
  rewrite Z.div_1_r, loc_of_frac_1 in S.
  rewrite Hd in S. fold t in S. specialize (S ltac:(lia)).
  intros E. rewrite E in S. destruct S as (_ & S).
  specialize (S 1074 ltac:(lia) ltac:(lia)).
  rewrite Z.mul_1_r, Hmz in S. change (971 + 1074) with 2045 in S.
  assert (E1 : 2 ^ (e + 1074) = 2 ^ (e - ez) * 2 ^ (ez + 1074))
    by (rewrite <- pow2_split by lia; f_equal; lia).
  rewrite E1. lia.
Qed.

(** [binary_normalize] rounds once. *)
Lemma binary_normalize_rounded (S ez U : Z) :
  -1074 <= ez -> S * 2 ^ (ez + 1074) = U ->
  rounded (binary_normalize prec emax S ez false) U 1 = true.
Proof.
  intros Hez HU.
  pose proof (pow2_pos (ez + 1074) ltac:(lia)) as HX.
  pose proof (binary_normalize_spec S ez Hez) as N.
  assert (Hsgn : (U <? 0) = (S <? 0)).
  { destruct (Z.ltb_spec S 0); [apply Z.ltb_lt | apply Z.ltb_ge]; nia. }
  assert (Habs : Z.abs U = Z.abs S * 2 ^ (ez + 1074)).
  { rewrite <- HU, Z.abs_mul, (Z.abs_eq (2 ^ _)) by lia. reflexivity. }
  destruct (binary_normalize prec emax S ez false) as [s|s| |s m e] eqn:E;
    cbn [rounded].
  - destruct N as (-> & _). subst U. reflexivity.
  - destruct N as (Hnz & ->).
    rewrite Hsgn, Bool.eqb_reflx. cbn [andb].
    apply Z.leb_le. rewrite Habs, Z.mul_1_r.
    destruct S as [|p|p]; [lia | | ]; cbn [binary_normalize] in E;
      pose proof (binary_round_inf _ _ _ _ Hez E) as B;
      cbn [Z.abs]; lia.
  - contradiction.
  - destruct N as (Hnz & -> & Hb & Hv).
    rewrite Hsgn, Bool.eqb_reflx, Hb. cbn [andb].
    apply Z.leb_le. rewrite Habs, !Z.mul_1_r. exact Hv.
Qed.

(** A float is itself rounded. *)
Lemma rounded_self (x : float) :
  valid x = true -> is_finite x = true -> rounded x (float_units x) 1 = true.
Proof.
  destruct x as [s|s| |s m e]; try discriminate; intros Hx _;
    cbn [rounded float_units]; [reflexivity | ].
  cbn [valid valid_binary] in Hx. rewrite Hx.
  destruct (bounded_inv m e Hx) as (Hr & _).
  pose proof (pow2_pos (e + 1074) ltac:(lia)) as HX.
  assert (Hs : (cond_Zopp s (Zpos m * 2 ^ (e + 1074)) <? 0) = s).
  { destruct s; cbn [cond_Zopp]; [apply Z.ltb_lt | apply Z.ltb_ge]; nia. }
  rewrite Hs, Bool.eqb_reflx. cbn [andb].
  apply Z.leb_le.
  assert (Ha : Z.abs (cond_Zopp s (Zpos m * 2 ^ (e + 1074)))
               = Zpos m * 2 ^ (e + 1074))
    by (destruct s; cbn [cond_Zopp]; nia).
  rewrite Ha, !Z.mul_1_r, Z.sub_diag. cbn [Z.abs]. lia.
Qed.

Lemma float_units_opp (x : float) : float_units (fopp x) = - float_units x.
Proof.
  destruct x as [s|s| |s m e]; cbn [fopp SFopp float_units]; try reflexivity.
  destruct s; cbn [negb cond_Zopp]; lia.
Qed.

Lemma fadd_rounded (x y : float) :
  valid x = true -> valid y = true ->
  is_finite x = true -> is_finite y = true ->
  rounded (fadd x y) (float_units x + float_units y) 1 = true.
Proof.
  intros Hx Hy Fx Fy.
  destruct x as [sx|sx| |sx mx ex]; try discriminate;
    destruct y as [sy|sy| |sy my ey]; try discriminate.
  - destruct sx, sy; reflexivity.
  - change (fadd (S754_zero sx) (S754_finite sy my ey))
      with (S754_finite sy my ey).
    change (float_units (S754_zero sx)) with 0. rewrite Z.add_0_l.
    now apply rounded_self.
  - change (fadd (S754_finite sx mx ex) (S754_zero sy))
      with (S754_finite sx mx ex).
    change (float_units (S754_zero sy)) with 0. rewrite Z.add_0_r.
    now apply rounded_self.
  - destruct (bounded_inv mx ex Hx) as (Hrx & _).
    destruct (bounded_inv my ey Hy) as (Hry & _).
    destruct (fadd_normalize sx sy mx my ex ey ltac:(lia) ltac:(lia))
      as (S & ez & Hez & -> & HU).
    now apply binary_normalize_rounded.
Qed.

Lemma fsub_rounded (x y : float) :
  valid x = true -> valid y = true ->
  is_finite x = true -> is_finite y = true ->
  rounded (fsub x y) (float_units x - float_units y) 1 = true.
Proof.
  intros Hx Hy Fx Fy.
  destruct x as [sx|sx| |sx mx ex]; try discriminate;
    destruct y as [sy|sy| |sy my ey]; try discriminate.
  - destruct sx, sy; reflexivity.
  - change (fsub (S754_zero sx) (S754_finite sy my ey))
      with (fopp (S754_finite sy my ey)).
    change (float_units (S754_zero sx)) with 0. rewrite Z.sub_0_l.
    rewrite <- float_units_opp. apply rounded_self; [exact Hy | reflexivity].
  - change (fsub (S754_finite sx mx ex) (S754_zero sy))
      with (S754_finite sx mx ex).
    change (float_units (S754_zero sy)) with 0. rewrite Z.sub_0_r.
    now apply rounded_self.
  - destruct (bounded_inv mx ex Hx) as (Hrx & _).
    destruct (bounded_inv my ey Hy) as (Hry & _).
    destruct (fsub_normalize sx sy mx my ex ey ltac:(lia) ltac:(lia))
      as (S & ez & Hez & -> & HU).
    now apply binary_normalize_rounded.
Qed.

(** Equality of floats, [==], from the equality of the values. *)
Lemma feqb_units (x y : float) :
  valid x = true -> valid y = true ->
  is_finite x = true -> is_finite y = true ->
  feqb x y = (float_units x =? float_units y).
Proof.
  intros Hx Hy Fx Fy. unfold feqb, SFeqb.
  rewrite SFcompare_units by assumption.
  rewrite Z.eqb_compare. reflexivity.
Qed.

Lemma binary_normalize_exact_units (m e : Z) (z : float) :
  -1074 <= e -> valid z = true -> is_finite z = true ->
  m * 2 ^ (e + 1074) = float_units z ->
  valid (binary_normalize prec emax m e false) = true /\
  is_finite (binary_normalize prec emax m e false) = true /\
  float_units (binary_normalize prec emax m e false) = float_units z.
Proof.
  intros He Hz Fz Hv.
  destruct (binary_normalize_exact m e z He Hz Fz Hv)
    as [(-> & Zz & ->) | (_ & ->)].
  - destruct z; try discriminate. repeat split.
  - auto.
Qed.

(** When the exact sum (difference) of two finite floats is a float,
    it is what [+] ([-]) returns. *)
Lemma fadd_exact (x y z : float) :
  valid x = true -> valid y = true -> valid z = true ->
  is_finite x = true -> is_finite y = true -> is_finite z = true ->
  float_units z = float_units x + float_units y ->
  valid (fadd x y) = true /\ is_finite (fadd x y) = true /\
  float_units (fadd x y) = float_units z.
Proof.
  intros Hx Hy Hz Fx Fy Fz HU.
  destruct x as [sx|sx| |sx mx ex]; try discriminate;
    destruct y as [sy|sy| |sy my ey]; try discriminate.
  - cbn [float_units] in HU. rewrite HU. destruct sx, sy; repeat split.
  - change (fadd (S754_zero sx) (S754_finite sy my ey))
      with (S754_finite sy my ey).
    rewrite HU. auto.
  - change (fadd (S754_finite sx mx ex) (S754_zero sy))
      with (S754_finite sx mx ex).
    rewrite HU. change (float_units (S754_zero sy)) with 0.
    rewrite Z.add_0_r. auto.
  - destruct (bounded_inv mx ex Hx) as (Hrx & _).
    destruct (bounded_inv my ey Hy) as (Hry & _).
    destruct (fadd_normalize sx sy mx my ex ey ltac:(lia) ltac:(lia))
      as (S & ez & Hez & -> & HS).
    apply binary_normalize_exact_units; try assumption. congruence.
Qed.

Lemma fsub_exact (x y z : float) :
  valid x = true -> valid y = true -> valid z = true ->
  is_finite x = true -> is_finite y = true -> is_finite z = true ->
  float_units z = float_units x - float_units y ->
  valid (fsub x y) = true /\ is_finite (fsub x y) = true /\
  float_units (fsub x y) = float_units z.
Proof.
  intros Hx Hy Hz Fx Fy Fz HU.
  destruct x as [sx|sx| |sx mx ex]; try discriminate;
    destruct y as [sy|sy| |sy my ey]; try discriminate.
  - cbn [float_units] in HU. rewrite HU. destruct sx, sy; repeat split.
  - change (fsub (S754_zero sx) (S754_finite sy my ey))
      with (fopp (S754_finite sy my ey)).
    split; [exact Hy | ]. split; [reflexivity | ].
    rewrite HU, float_units_opp. change (float_units (S754_zero sx)) with 0.
    lia.
  - change (fsub (S754_finite sx mx ex) (S754_zero sy))
      with (S754_finite sx mx ex).
    rewrite HU. change (float_units (S754_zero sy)) with 0.
    rewrite Z.sub_0_r. auto.
  - destruct (bounded_inv mx ex Hx) as (Hrx & _).
    destruct (bounded_inv my ey Hy) as (Hry & _).
    destruct (fsub_normalize sx sy mx my ex ey ltac:(lia) ltac:(lia))
      as (S & ez & Hez & -> & HS).
    apply binary_normalize_exact_units; try assumption. congruence.
Qed.

(* ===================================================================== *)
(** ** [*] and [/] on floats: exact when the result is a float            *)
(* ===================================================================== *)

(** The general form of [binary_round_aux_exact]: the value of the
    fraction is given by cross-multiplication. *)
Lemma binary_round_aux_exact_gen (s : bool) (e N D : Z)
      (mz : positive) (ez c : Z) :
  0 <= N -> 0 < D -> bounded prec emax mz ez = true ->
  e <= fexp prec emax (Zdigits2 (N / D) + e) ->
  c <= e -> c <= ez ->
  N * 2 ^ (e - c) = Zpos mz * 2 ^ (ez - c) * D ->
  binary_round_aux prec emax s (N / D) e (loc_of_frac N D) = S754_finite s mz ez.
Proof.
  intros HN HD Hb Ht Hce Hcz Hv.
  destruct (bounded_inv mz ez Hb) as (Hr & _).
  pose proof (bounded_canonical mz ez Hb) as Hc.
  assert (Hle : e <= ez).
  { destruct (Z_le_gt_dec e ez) as [L|G]; [exact L | exfalso].
    set (k := e - ez).
    pose proof (pow2_pos k ltac:(lia)) as Hk.
    pose proof (pow2_pos (ez - c) ltac:(lia)) as HX.
    assert (E1 : 2 ^ (e - c) = 2 ^ k * 2 ^ (ez - c))
      by (unfold k; rewrite <- pow2_split by lia; f_equal; lia).
    rewrite E1 in Hv.
    assert (Hv' : N * 2 ^ k = Zpos mz * D).
    { apply Z.mul_reg_r with (p := 2 ^ (ez - c)); [lia | ].
      rewrite <- Z.mul_assoc, Hv. ring. }
    assert (Hq : N / D = Zpos mz / 2 ^ k).
    { rewrite <- (Z.div_mul_cancel_r N D (2 ^ k)) by lia.
      rewrite Hv', (Z.mul_comm D), Z.div_mul_cancel_r by lia. reflexivity. }
    rewrite Hq, Zdigits2_div_pow2, fexp_eq in Ht by lia.
    rewrite fexp_eq in Hc. unfold k in Ht. lia. }
  apply binary_round_aux_exact; try assumption.
  pose proof (pow2_pos (e - c) ltac:(lia)) as HX.
  assert (E1 : 2 ^ (ez - c) = 2 ^ (ez - e) * 2 ^ (e - c))
    by (rewrite <- pow2_split by lia; f_equal; lia).
  rewrite E1 in Hv.
  apply Z.mul_reg_r with (p := 2 ^ (e - c)); [lia | ].
  rewrite Hv. ring.
Qed.

Lemma cond_Zopp_mul (s1 s2 : bool) (x y : Z) :
  cond_Zopp s1 x * cond_Zopp s2 y = cond_Zopp (xorb s1 s2) (x * y).
Proof. destruct s1, s2; cbn [cond_Zopp xorb]; ring. Qed.

Lemma cond_Zopp_inj (s1 s2 : bool) (x y : Z) :
  0 < x -> 0 < y -> cond_Zopp s1 x = cond_Zopp s2 y -> s1 = s2 /\ x = y.
Proof. destruct s1, s2; cbn [cond_Zopp]; intros; split; try reflexivity; lia. Qed.

(** When the exact product of two finite floats is a float, it is what
    [*] returns. *)
Lemma fmul_exact (x y z : float) :
  valid x = true -> valid y = true -> valid z = true ->
  is_finite x = true -> is_finite y = true -> is_finite z = true ->
  float_units z * 2 ^ 1074 = float_units x * float_units y ->
  valid (fmul x y) = true /\ is_finite (fmul x y) = true /\
  float_units (fmul x y) = float_units z.
Proof.
  intros Hx Hy Hz Fx Fy Fz HU.
  assert (Z0 : float_units x * float_units y = 0 -> float_units z = 0).
  { intros E. rewrite E in HU. pose proof (pow2_pos 1074 ltac:(lia)). nia. }
  destruct x as [sx|sx| |sx mx ex]; try discriminate;
    destruct y as [sy|sy| |sy my ey]; try discriminate;
    try (cbn [fmul SFmul float_units valid valid_binary is_finite] in *;
         rewrite Z0 by ring; now repeat split).
  cbn [valid valid_binary] in Hx, Hy.
  destruct (bounded_inv mx ex Hx) as (Hrx & Hdx & Hnx).
  destruct (bounded_inv my ey Hy) as (Hry & Hdy & Hny).
  pose proof (pow2_pos (ex + 1074) ltac:(lia)) as HX.
  pose proof (pow2_pos (ey + 1074) ltac:(lia)) as HY.
  cbn [float_units] in HU. rewrite cond_Zopp_mul in HU.
  destruct z as [sz|sz| |sz mz ez]; try discriminate.
  { exfalso. cbn [float_units] in HU.
    destruct (xorb sx sy); cbn [cond_Zopp] in HU; nia. }
  cbn [valid valid_binary] in Hz.
  destruct (bounded_inv mz ez Hz) as (Hrz & _).
  pose proof (pow2_pos (ez + 1074) ltac:(lia)) as HZ.
  cbn [float_units] in HU.
  assert (HU' : cond_Zopp sz (Zpos mz * 2 ^ (ez + 1074) * 2 ^ 1074)
                = cond_Zopp (xorb sx sy)
                    (Zpos mx * 2 ^ (ex + 1074) * (Zpos my * 2 ^ (ey + 1074)))).
  { rewrite <- HU. destruct sz; cbn [cond_Zopp]; ring. }
  apply cond_Zopp_inj in HU'; [ | nia | nia]. destruct HU' as [-> Hv].
  assert (R : fmul (S754_finite sx mx ex) (S754_finite sy my ey)
              = S754_finite (xorb sx sy) mz ez).
  { unfold fmul, SFmul. rewrite Pos2Z.inj_mul.
    pose proof (binary_round_aux_exact_gen (xorb sx sy) (ex + ey)
                  (Zpos mx * Zpos my) 1 mz ez (-2148)
                  ltac:(lia) ltac:(lia) Hz) as R.
    rewrite Z.div_1_r, loc_of_frac_1 in R. apply R; try lia.
    - pose proof (Zdigits2_mul_ge (Zpos mx) (Zpos my) ltac:(lia) ltac:(lia)).
      pose proof (Zdigits2_pos (Zpos mx) ltac:(lia)).
      pose proof (Zdigits2_pos (Zpos my) ltac:(lia)).
      rewrite fexp_eq. lia.
    - rewrite Z.mul_1_r.
      replace (ex + ey - -2148) with ((ex + 1074) + (ey + 1074)) by lia.
      replace (ez - -2148) with ((ez + 1074) + 1074) by lia.
      rewrite (pow2_split (ex + 1074) (ey + 1074)) by lia.
      rewrite (pow2_split (ez + 1074) 1074) by lia.
      set (T := 2 ^ 1074) in *. set (X := 2 ^ (ex + 1074)) in *.
      set (Y := 2 ^ (ey + 1074)) in *. set (W := 2 ^ (ez + 1074)) in *.
      clearbody T X Y W. lia. }
  rewrite R. auto.
Qed.

(** [SFdiv] on two finite floats as one rounding of a fraction. *)
Lemma fdiv_as_round (sp sb : bool) (mp mb : positive) (ep eb : Z) :
  -1074 <= ep -> -1074 <= eb ->
  exists N e',
    0 < N /\
    fdiv (S754_finite sp mp ep) (S754_finite sb mb eb)
    = binary_round_aux prec emax (xorb sp sb) (N / Zpos mb) e'
        (loc_of_frac N (Zpos mb)) /\
    e' <= fexp prec emax (Zdigits2 (N / Zpos mb) + e') /\
    0 <= e' + eb + 2148 /\
    N * 2 ^ (e' + eb + 2148) = Zpos mp * 2 ^ (ep + 1074) * 2 ^ 1074.
Proof.
  intros Hep Heb.
  unfold fdiv, SFdiv, SFdiv_core_binary.
  set (d1 := Zdigits2 (Zpos mp)). set (d2 := Zdigits2 (Zpos mb)).
  set (e' := Z.min (fexp prec emax (d1 + ep - (d2 + eb))) (ep - eb)).
  set (s := ep - eb - e').
  assert (Hs : 0 <= s) by (unfold s, e'; lia).
  assert (Hm' : match s with
                | Zpos _ => Z.shiftl (Zpos mp) s
                | Z0 => Zpos mp
                | Zneg _ => 0
                end = Zpos mp * 2 ^ s).
  { destruct s as [|p|p] eqn:Es; [lia | | lia].
    rewrite Z.shiftl_mul_pow2 by lia. reflexivity. }
  rewrite Hm'. clear Hm'.
  pose proof (pow2_pos s Hs) as H2s.
  set (N := Zpos mp * 2 ^ s) in *.
  assert (HN : 0 < N) by (unfold N; nia).
  pose proof (Z.mod_pos_bound N (Zpos mb) ltac:(lia)) as Hr.
  assert (Hqr : Z.div_eucl N (Zpos mb) = (N / Zpos mb, N mod Zpos mb)).
  { unfold Z.div, Z.modulo. destruct (Z.div_eucl N (Zpos mb)); reflexivity. }
  rewrite Hqr, (new_location_spec (Zpos mb) _ ltac:(lia) Hr).
  fold (loc_of_frac N (Zpos mb)).
  exists N, e'. split; [exact HN | ]. split; [reflexivity | ].
  assert (Ee : e' = Z.min (Z.max (d1 + ep - (d2 + eb) - 53) (-1074)) (ep - eb))
    by reflexivity.
  assert (Es : s = ep - eb - e') by reflexivity.
  split; [ | split].
  - pose proof (Zdigits2_div_ge N (Zpos mb) HN ltac:(lia)) as Hd.
    unfold N in Hd at 1. rewrite Zdigits2_mul_pow2 in Hd by lia.
    fold d1 d2 in Hd. rewrite fexp_eq. clearbody e' s. lia.
  - clearbody e'. lia.
  - unfold N. rewrite <- !Z.mul_assoc, <- !pow2_split by (clearbody e'; lia).
    f_equal. f_equal. lia.
Qed.

(** When the exact quotient of two finite floats is the float [z], it is
    what [/] returns.  The operands need not be normalised: this is also
    the division of two ints. *)
Lemma fdiv_exact (sp sb : bool) (mp mb : positive) (ep eb : Z) (z : float) :
  -1074 <= ep -> -1074 <= eb ->
  valid z = true -> is_finite z = true ->
  float_units z * (Zpos mb * 2 ^ (eb + 1074))
  = cond_Zopp (xorb sp sb) (Zpos mp * 2 ^ (ep + 1074) * 2 ^ 1074) ->
  fdiv (S754_finite sp mp ep) (S754_finite sb mb eb) = z.
Proof.
  intros Hep Heb Hz Fz HU.
  pose proof (pow2_pos (ep + 1074) ltac:(lia)) as HP.
  pose proof (pow2_pos (eb + 1074) ltac:(lia)) as HB.
  pose proof (pow2_pos 1074 ltac:(lia)) as HT.
  destruct z as [sz|sz| |sz mz ez]; try discriminate.
  { exfalso. cbn [float_units] in HU.
    destruct (xorb sp sb); cbn [cond_Zopp] in HU; nia. }
  cbn [valid valid_binary] in Hz.
  destruct (bounded_inv mz ez Hz) as (Hrz & _).
  pose proof (pow2_pos (ez + 1074) ltac:(lia)) as HZ.
  cbn [float_units] in HU.
  assert (HU' : cond_Zopp sz (Zpos mz * 2 ^ (ez + 1074)
                              * (Zpos mb * 2 ^ (eb + 1074)))
                = cond_Zopp (xorb sp sb)
                    (Zpos mp * 2 ^ (ep + 1074) * 2 ^ 1074)).
  { rewrite <- HU. destruct sz; cbn [cond_Zopp]; ring. }
  apply cond_Zopp_inj in HU'; [ | nia | nia]. destruct HU' as [-> Hv].
  destruct (fdiv_as_round sp sb mp mb ep eb Hep Heb)
    as (N & e' & HN & -> & Ht & Hlo & EN).
  apply (binary_round_aux_exact_gen (xorb sp sb) e' N (Zpos mb) mz ez
           (- (eb + 2148))); try lia; try assumption.
  replace (e' - - (eb + 2148)) with (e' + eb + 2148) by lia.
  replace (ez - - (eb + 2148)) with ((ez + 1074) + (eb + 1074)) by lia.
  rewrite EN, (pow2_split (ez + 1074) (eb + 1074)) by lia.
  set (T := 2 ^ 1074) in *. set (X := 2 ^ (ep + 1074)) in *.
  set (Y := 2 ^ (eb + 1074)) in *. set (W := 2 ^ (ez + 1074)) in *.
  clearbody T X Y W. lia.
Qed.

(* ===================================================================== *)
(** ** Ints that are floats                                               *)
(* ===================================================================== *)

(** An int whose value is a float converts to it. *)
Lemma int_to_float_exact (n : Z) (z : float) :
  valid z = true -> is_finite z = true -> float_units z = n * 2 ^ 1074 ->
  exists r, int_to_float n = Return r /\ valid r = true /\
            is_finite r = true /\ float_units r = n * 2 ^ 1074.
Proof.
  intros Hz Fz HU.
  destruct (binary_normalize_exact_units n 0 z ltac:(lia) Hz Fz)
    as (Hv & Hf & Hu).
  { rewrite HU. reflexivity. }
  exists (flt n 0). unfold int_to_float, flt.
  destruct (binary_normalize prec emax n 0 false); try discriminate;
    cbn [is_inf]; repeat split; try assumption; congruence.
Qed.

(** Every int up to [2^53] in magnitude is a float. *)
Lemma small_int_representable (n : Z) :
  Z.abs n <= 2 ^ 53 ->
  exists z, valid z = true /\ is_finite z = true /\
            float_units z = n * 2 ^ 1074 /\ float_is_integer z = true.
Proof.
  intros Hn.
  destruct (Z.eq_dec n 0) as [-> | Hnz].
  { exists fzero. repeat split. }
  destruct (Z.eq_dec (Z.abs n) (2 ^ 53)) as [E | NE].
  { exists (S754_finite (n <? 0) 4503599627370496 1).
    split; [reflexivity | ]. split; [reflexivity | ].
    split; [ | reflexivity].
    cbn [float_units]. change (1 + 1074) with (1 + 1074).
    replace (Zpos 4503599627370496 * 2 ^ (1 + 1074)) with (2 ^ 53 * 2 ^ 1074)
      by reflexivity.
    rewrite <- E. symmetry. apply int_units. }
  set (a := Z.abs n) in *.
  assert (Ha : 0 < a) by (unfold a; lia).
  pose proof (Zdigits2_spec a Ha) as [Hlo Hhi].
  pose proof (Zdigits2_pos a Ha) as Hd.
  set (d := Zdigits2 a) in *.
  assert (Hd53 : d <= 53).
  { destruct (Z_le_gt_dec d 53) as [L|G]; [exact L | exfalso].
    assert (2 ^ 53 <= 2 ^ (d - 1)) by (apply Z.pow_le_mono_r; lia). lia. }
  pose proof (pow2_pos (53 - d) ltac:(lia)) as Hk.
  set (m := a * 2 ^ (53 - d)).
  assert (Hm : 0 < m) by (unfold m; nia).
  assert (Hdm : Zdigits2 m = 53).
  { unfold m. rewrite Zdigits2_mul_pow2 by lia. fold d. lia. }
  exists (S754_finite (n <? 0) (Z.to_pos m) (d - 53)).
  assert (Epos : Zpos (Z.to_pos m) = m) by (apply Z2Pos.id; exact Hm).
  split; [ | split; [reflexivity | split]].
  - cbn [valid valid_binary]. unfold bounded, canonical_mantissa.
    change (Zpos (digits2_pos (Z.to_pos m))) with (Zdigits2 (Zpos (Z.to_pos m))).
    rewrite Epos, Hdm, fexp_eq.
    apply andb_true_intro. split; [apply Z.eqb_eq | apply Z.leb_le];
      unfold emax, prec; lia.
  - cbn [float_units]. rewrite Epos. unfold m.
    rewrite <- Z.mul_assoc, <- pow2_split by lia.
    replace (53 - d + (d - 53 + 1074)) with 1074 by lia.
    symmetry. apply int_units.
  - cbn [float_is_integer]. rewrite Epos.
    destruct (0 <=? d - 53) eqn:E0; [reflexivity | ].
    apply Z.leb_gt in E0. apply Z.eqb_eq.
    rewrite Z.land_ones by lia.
    replace (- (d - 53)) with (53 - d) by lia.
    unfold m. apply Z.mod_mul. lia.
Qed.

(** A converted int is an integer-valued float. *)
Lemma int_to_float_integer (n : Z) (x : float) :
  int_to_float n = Return x -> float_is_integer x = true.
Proof.
  intros E.
  destruct (Z_le_gt_dec (Z.abs n) (2 ^ 53)) as [Hs | Hl].
  - destruct (small_int_representable n Hs) as (z & Hz & Fz & Uz & Iz).
    destruct (binary_normalize_exact n 0 z ltac:(lia) Hz Fz)
      as [(-> & _ & _) | (_ & R)].
    { rewrite Uz. reflexivity. }
    + injection E as <-. reflexivity.
    + unfold int_to_float, flt in E. rewrite R in E.
      destruct (is_inf z); [discriminate | ]. injection E as <-. exact Iz.
  - assert (Hnz : n <> 0) by (change (2 ^ 53) with 9007199254740992 in Hl; lia).
    pose proof (int_to_float_spec n Hnz) as S. rewrite E in S.
    destruct S as (m & e & -> & Hb & Hv).
    cbn [float_is_integer].
    destruct (0 <=? e) eqn:E0; [reflexivity | exfalso].
    apply Z.leb_gt in E0.
    destruct (bounded_inv m e Hb) as (Hr & _).
    pose proof (bounded_lt m e Hb) as Hm.
    pose proof (pow2_pos (e + 1074) ltac:(lia)) as HX.
    assert (ET : 2 ^ 1074 = 2 ^ (- e) * 2 ^ (e + 1074))
      by (rewrite <- pow2_split by lia; f_equal; lia).
    assert (H2 : 2 ^ 1 <= 2 ^ (- e)) by (apply Z.pow_le_mono_r; lia).
    rewrite ET in Hv.
    change (2 ^ 53) with 9007199254740992 in *. change (2 ^ 1) with 2 in H2.
    set (X := 2 ^ (e + 1074)) in *. set (Y := 2 ^ (- e)) in *.
    clearbody X Y. nia.
Qed.

(** [long_true_divide] is exact when the quotient of the two ints,
    whatever their size, is a float. *)
Lemma int_true_divide_exact (x y : Z) (z : float) :
  y <> 0 -> valid z = true -> is_finite z = true ->
  float_units z * y = x * 2 ^ 1074 ->
  exists q, int_true_divide x y = Return q /\ valid q = true /\
            is_finite q = true /\ float_units q = float_units z.
Proof.
  intros Hy Hz Fz HU.
  pose proof (pow2_pos 1074 ltac:(lia)) as HT.
  unfold int_true_divide. rewrite (proj2 (Z.eqb_neq y 0) Hy).
  rewrite (int_raw_nonzero y Hy).
  destruct (Z.eq_dec x 0) as [-> | Hx].
  - assert (float_units z = 0) by nia.
    change (fdiv (int_raw 0) (S754_finite (y <? 0) (Z.to_pos (Z.abs y)) 0))
      with (S754_zero (xorb false (y <? 0))).
    cbn [is_inf]. eexists. split; [reflexivity | ].
    repeat split. cbn [float_units]. lia.
  - rewrite (int_raw_nonzero x Hx).
    rewrite (fdiv_exact _ _ _ _ 0 0 z ltac:(lia) ltac:(lia) Hz Fz).
    + destruct z; try discriminate; cbn [is_inf]; eauto.
    + rewrite !Z2Pos.id by lia. change (0 + 1074) with 1074.
      rewrite <- cond_Zopp_mul.
      set (T := 2 ^ 1074) in *. clearbody T.
      assert (Ey : Z.abs y = cond_Zopp (y <? 0) y).
      { destruct (Z.ltb_spec y 0); cbn [cond_Zopp]; lia. }
      assert (Ex : cond_Zopp (x <? 0) (Z.abs x * T) = x * T).
      { symmetry. apply int_units. }
      rewrite Ex, Ey.
      destruct (y <? 0); cbn [cond_Zopp]; nia.
Qed.

(* ===================================================================== *)
(** ** Products, and the shape of the results                             *)
(* ===================================================================== *)

Lemma rounded_valid (r : float) (N D : Z) :
  rounded r N D = true -> valid r = true /\ is_nan r = false.
Proof.
  destruct r as [s|s| |s m e]; cbn [rounded valid valid_binary is_nan];
    try discriminate; auto.
  intros H. apply andb_prop in H. destruct H as [H _].
  apply andb_prop in H. destruct H as [_ H]. auto.
Qed.

Lemma fmul_rounded (x y : float) :
  valid x = true -> valid y = true ->
  is_finite x = true -> is_finite y = true ->
  rounded (fmul x y) (float_units x * float_units y) (2 ^ 1074) = true.
Proof.
  intros Hx Hy Fx Fy.
  destruct x as [sx|sx| |sx mx ex]; try discriminate;
    destruct y as [sy|sy| |sy my ey]; try discriminate;
    try (cbn [fmul SFmul float_units rounded];
         rewrite ?Z.mul_0_l, ?Z.mul_0_r; reflexivity).
  cbn [valid valid_binary] in Hx, Hy.
  destruct (bounded_inv mx ex Hx) as (Hrx & Hdx & Hnx).
  destruct (bounded_inv my ey Hy) as (Hry & Hdy & Hny).
  pose proof (pow2_pos (ex + 1074) ltac:(lia)) as HX.
  pose proof (pow2_pos (ey + 1074) ltac:(lia)) as HY.
  pose proof (pow2_pos 1074 ltac:(lia)) as HT.
  cbn [float_units]. rewrite cond_Zopp_mul.
  set (A := Zpos mx * 2 ^ (ex + 1074)) in *.
  set (B := Zpos my * 2 ^ (ey + 1074)) in *.
  assert (HAB : 0 < A * B) by (unfold A, B; nia).
  assert (Hs : (cond_Zopp (xorb sx sy) (A * B) <? 0) = xorb sx sy).
  { destruct (xorb sx sy); cbn [cond_Zopp];
      [apply Z.ltb_lt | apply Z.ltb_ge]; lia. }
  assert (Ha : Z.abs (cond_Zopp (xorb sx sy) (A * B)) = A * B)
    by (destruct (xorb sx sy); cbn [cond_Zopp]; lia).
  pose proof (fmul_spec sx sy mx my ex ey Hx Hy) as S. cbv zeta in S.
  fold A B in S.
  destruct (fmul (S754_finite sx mx ex) (S754_finite sy my ey))
    as [s|s| |s mp ep] eqn:E; cbn [rounded]; try contradiction.
  - destruct S as (_ & S). apply Z.leb_le. rewrite Ha. exact S.
  - rewrite Hs, Ha, S, Bool.eqb_reflx. cbn [andb]. apply Z.leb_le.
    unfold fmul, SFmul in E. rewrite Pos2Z.inj_mul in E.
    pose proof (binary_round_aux_spec (xorb sx sy) (ex + ey)
                  (Zpos mx * Zpos my) 1 ltac:(lia) ltac:(lia)) as R.
    rewrite Z.div_1_r, loc_of_frac_1, fexp_eq in R.
    pose proof (Zdigits2_mul_ge (Zpos mx) (Zpos my) ltac:(lia) ltac:(lia)).
    pose proof (Zdigits2_pos (Zpos mx) ltac:(lia)).
    pose proof (Zdigits2_pos (Zpos my) ltac:(lia)).
    specialize (R ltac:(lia)). rewrite E in R. destruct R as (_ & R).
    specialize (R 2148 ltac:(lia) ltac:(lia)).
    rewrite Z.mul_1_r in R. change (971 + 2148) with (2045 + 1074) in R.
    rewrite (pow2_split 2045 1074) in R by lia.
    replace (ex + ey + 2148) with ((ex + 1074) + (ey + 1074)) in R by lia.
    rewrite (pow2_split (ex + 1074) (ey + 1074)) in R by lia.
    unfold A, B.
    set (U := 2 ^ (ex + 1074)) in *. set (V := 2 ^ (ey + 1074)) in *.
    set (T := 2 ^ 1074) in *. set (W := 2 ^ 2045) in *.
    clearbody U V T W. lia.
  - destruct S as (-> & Hb & Hv).
    rewrite Hs, Ha, Hb, Bool.eqb_reflx. cbn [andb]. apply Z.leb_le.
    destruct (bounded_inv mp ep Hb) as (Hrp & _).
    replace (ep + 2148) with ((ep + 1074) + 1074) in Hv by lia.
    rewrite (pow2_split (ep + 1074) 1074) in Hv by lia.
    rewrite Z.mul_assoc in Hv. exact Hv.
Qed.

(** The results of the four IEEE operations are binary64 numbers. *)
Lemma fadd_valid (x y : float) :
  valid x = true -> valid y = true -> valid (fadd x y) = true.
Proof.
  intros Hx Hy.
  destruct (is_finite x) eqn:Fx; [destruct (is_finite y) eqn:Fy | ].
  - exact (proj1 (rounded_valid _ _ _ (fadd_rounded x y Hx Hy Fx Fy))).
  - destruct x as [sx|sx| |sx mx ex], y as [sy|sy| |sy my ey];
      try discriminate; reflexivity.
  - destruct x as [sx|sx| |sx mx ex]; try discriminate;
      destruct y as [sy|sy| |sy my ey]; try reflexivity;
      destruct sx, sy; reflexivity.
Qed.

Lemma fsub_valid (x y : float) :
  valid x = true -> valid y = true -> valid (fsub x y) = true.
Proof.
  intros Hx Hy.
  destruct (is_finite x) eqn:Fx; [destruct (is_finite y) eqn:Fy | ].
  - exact (proj1 (rounded_valid _ _ _ (fsub_rounded x y Hx Hy Fx Fy))).
  - destruct x as [sx|sx| |sx mx ex], y as [sy|sy| |sy my ey];
      try discriminate; reflexivity.
  - destruct x as [sx|sx| |sx mx ex]; try discriminate;
      destruct y as [sy|sy| |sy my ey]; try reflexivity;
      destruct sx, sy; reflexivity.
Qed.

Lemma fmul_valid (x y : float) :
  valid x = true -> valid y = true -> valid (fmul x y) = true.
Proof.
  intros Hx Hy.
  destruct (is_finite x) eqn:Fx; [destruct (is_finite y) eqn:Fy | ].
  - exact (proj1 (rounded_valid _ _ _ (fmul_rounded x y Hx Hy Fx Fy))).
  - destruct x as [sx|sx| |sx mx ex], y as [sy|sy| |sy my ey];
      try discriminate; reflexivity.
  - destruct x as [sx|sx| |sx mx ex]; try discriminate;
      destruct y as [sy|sy| |sy my ey]; reflexivity.
Qed.

Lemma fdiv_valid (x y : float) :
  match x with S754_finite _ _ e => -1074 <= e | _ => True end ->
  match y with S754_finite _ _ e => -1074 <= e | _ => True end ->
  valid (fdiv x y) = true.
Proof.
  intros Hx Hy.
  destruct x as [sx|sx| |sx mx ex], y as [sy|sy| |sy my ey];
    try reflexivity.
  pose proof (fdiv_spec sx sy mx my ex ey Hx Hy) as S. cbv zeta in S.
  destruct (fdiv (S754_finite sx mx ex) (S754_finite sy my ey));
    try reflexivity; try contradiction.
  destruct S as (_ & Hb & _). exact Hb.
Qed.

Lemma valid_exponent (x : float) :
  valid x = true ->
  match x with S754_finite _ _ e => -1074 <= e | _ => True end.
Proof.
  destruct x as [s|s| |s m e]; auto. intros H.
  destruct (bounded_inv m e H) as (Hr & _). lia.
Qed.

Lemma flt_valid (m e : Z) : -1074 <= e -> valid (flt m e) = true.
Proof.
  intros He. unfold flt.
  exact (proj1 (rounded_valid _ _ _
                  (binary_normalize_rounded m e _ He eq_refl))).
Qed.

Lemma to_double_valid (v : num) (x : float) :
  valid_num v = true -> to_double v = Return x -> valid x = true.
Proof.
  destruct v as [n|y]; cbn [valid_num to_double].
  - intros _. unfold int_to_float.
    destruct (is_inf (flt n 0)); [discriminate | ].
    intros E. injection E as <-. apply flt_valid. lia.
  - intros H E. injection E as <-. exact H.
Qed.

Lemma arith_valid (iop : Z -> Z -> Z) (fop : float -> float -> float) :
  (forall x y, valid x = true -> valid y = true -> valid (fop x y) = true) ->
  forall a b r, valid_num a = true -> valid_num b = true ->
  arith iop fop a b = Return r -> valid_num r = true.
Proof.
  intros Hop a b r Ha Hb.
  assert (G : (x <- to_double a ;; y <- to_double b ;;
               Return (PyFloat (fop x y))) = Return r -> valid_num r = true).
  { destruct (to_double a) as [x|e] eqn:Ea; cbn [bind]; [ | discriminate].
    destruct (to_double b) as [y|e] eqn:Eb; cbn [bind]; [ | discriminate].
    intros E. injection E as <-. cbn [valid_num].
    apply Hop; [apply (to_double_valid a) | apply (to_double_valid b)];
      assumption. }
  destruct a as [x|x], b as [y|y]; try exact G.
  cbn [arith]. intros E. injection E as <-. reflexivity.
Qed.

Lemma int_raw_exponent (n : Z) :
  match int_raw n with S754_finite _ _ e => -1074 <= e | _ => True end.
Proof. destruct n; cbn [int_raw]; auto; lia. Qed.

Lemma py_truediv_valid (a b r : num) :
  valid_num a = true -> valid_num b = true ->
  py_truediv a b = Return r -> valid_num r = true.
Proof.
  intros Ha Hb.
  assert (G : (x <- to_double a ;; y <- to_double b ;;
               q <- float_div x y ;; Return (PyFloat q)) = Return r ->
              valid_num r = true).
  { destruct (to_double a) as [x|e] eqn:Ea; cbn [bind]; [ | discriminate].
    destruct (to_double b) as [y|e] eqn:Eb; cbn [bind]; [ | discriminate].
    unfold float_div. destruct (feqb y fzero); cbn [bind]; [discriminate | ].
    intros E. injection E as <-. cbn [valid_num].
    apply fdiv_valid; apply valid_exponent;
      [apply (to_double_valid a) | apply (to_double_valid b)]; assumption. }
  destruct a as [x|x], b as [y|y]; try exact G.
  cbn [py_truediv]. unfold int_true_divide.
  destruct (y =? 0); cbn [bind]; [discriminate | ].
  destruct (is_inf _); cbn [bind]; [discriminate | ].
  intros E. injection E as <-. cbn [valid_num].
  apply fdiv_valid; apply int_raw_exponent.
Qed.

(* ===================================================================== *)
(** ** From the floats to the numbers of the calculator                   *)
(* ===================================================================== *)

Lemma py_eq_floats (x y : float) : py_eq (PyFloat x) (PyFloat y) = feqb x y.
Proof. reflexivity. Qed.

(** Two finite floats of the same value compare equal. *)
Lemma py_eq_same_units (r z : float) :
  valid r = true -> valid z = true ->
  is_finite r = true -> is_finite z = true ->
  float_units r = float_units z ->
  py_eq (PyFloat r) (PyFloat z) = true.
Proof.
  intros Hr Hz Fr Fz E.
  rewrite py_eq_floats, feqb_units, E by assumption. apply Z.eqb_refl.
Qed.

(** A finite float of the value of an int compares equal to it. *)
Lemma py_eq_int_units (r : float) (n : Z) :
  valid r = true -> is_finite r = true -> float_units r = n * 2 ^ 1074 ->
  py_eq (PyFloat r) (PyInt n) = true.
Proof.
  intros Hr Fr E. unfold py_eq, py_cmp.
  rewrite float_cmp_int_units, E, Z.compare_refl by assumption. reflexivity.
Qed.

(** The comparison with 0 of a rounded number is that of the number. *)
Lemma rounded_cmp_zero (r : float) (U : Z) :
  rounded r U 1 = true -> float_cmp_int r 0 = Some (U ?= 0).
Proof.
  destruct r as [s|s| |s m e]; cbn [rounded float_cmp_int]; try discriminate.
  - intros H. apply Z.leb_le in H. assert (U = 0) by lia. now subst U.
  - intros H. apply andb_prop in H. destruct H as [Hs H].
    apply Bool.eqb_prop in Hs. apply Z.leb_le in H.
    change ((2 ^ 54 - 1) * 2 ^ 2045 * 1) with ((2 ^ 54 - 1) * 2 ^ 2045) in H.
    pose proof (pow2_pos 2045 ltac:(lia)) as HW.
    set (W := 2 ^ 2045) in *. change (2 ^ 54) with 18014398509481984 in H.
    f_equal. symmetry. subst s.
    destruct (Z.ltb_spec U 0);
      [apply Z.compare_lt_iff | apply Z.compare_gt_iff]; nia.
  - intros H. apply andb_prop in H. destruct H as [H Hv].
    apply andb_prop in H. destruct H as [Hs Hb].
    apply Bool.eqb_prop in Hs. apply Z.leb_le in Hv.
    destruct (bounded_inv m e Hb) as (Hr & _).
    pose proof (pow2_pos (e + 1074) ltac:(lia)) as HX.
    rewrite !Z.mul_1_r in Hv.
    assert (HU : U <> 0) by (intros ->; cbn [Z.abs] in Hv; nia).
    assert (C : (U ?= 0) = if s then Lt else Gt).
    { subst s. destruct (Z.ltb_spec U 0);
        [apply Z.compare_lt_iff | apply Z.compare_gt_iff]; lia. }
    rewrite C. rewrite Z.mul_0_l.
    destruct (0 <=? e) eqn:E0; f_equal.
    + apply Z.leb_le in E0. pose proof (pow2_pos e E0).
      destruct s; cbn [cond_Zopp];
        [apply Z.compare_lt_iff | apply Z.compare_gt_iff]; nia.
    + destruct s; cbn [cond_Zopp];
        [apply Z.compare_lt_iff | apply Z.compare_gt_iff]; lia.
Qed.

(** The quotient of two finite floats, when it is the float [z]. *)
Lemma float_div_exact (x y z : float) :
  valid x = true -> valid y = true -> valid z = true ->
  is_finite x = true -> is_finite y = true -> is_finite z = true ->
  feqb y fzero = false ->
  float_units z * float_units y = float_units x * 2 ^ 1074 ->
  valid (fdiv x y) = true /\ is_finite (fdiv x y) = true /\
  float_units (fdiv x y) = float_units z /\
  (is_zero x = false -> fdiv x y = z).
Proof.
  intros Hx Hy Hz Fx Fy Fz Hy0 HU.
  pose proof (pow2_pos 1074 ltac:(lia)) as HT.
  destruct y as [sy|sy| |sy my ey]; try discriminate.
  cbn [valid valid_binary] in Hy.
  destruct (bounded_inv my ey Hy) as (Hry & _).
  pose proof (pow2_pos (ey + 1074) ltac:(lia)) as HY.
  destruct x as [sx|sx| |sx mx ex]; try discriminate.
  - cbn [float_units] in HU.
    assert (float_units z = 0) by (destruct sy; cbn [cond_Zopp] in HU; nia).
    change (fdiv (S754_zero sx) (S754_finite sy my ey))
      with (S754_zero (xorb sx sy)).
    repeat split; try discriminate. cbn [float_units]. lia.
  - cbn [valid valid_binary] in Hx.
    destruct (bounded_inv mx ex Hx) as (Hrx & _).
    pose proof (pow2_pos (ex + 1074) ltac:(lia)) as HX.
    assert (R : fdiv (S754_finite sx mx ex) (S754_finite sy my ey) = z).
    { apply fdiv_exact; try assumption; try lia.
      cbn [float_units] in HU.
      set (T := 2 ^ 1074) in *. set (P := Zpos mx * 2 ^ (ex + 1074)) in *.
      set (B := Zpos my * 2 ^ (ey + 1074)) in *. clearbody T P B.
      destruct sx, sy; cbn [cond_Zopp xorb] in *; lia. }
    rewrite R. auto.
Qed.

(** [long_true_divide] returns the quotient itself when it is a float. *)
Lemma int_true_divide_exact_eq (x y : Z) (z : float) :
  x <> 0 -> y <> 0 -> valid z = true -> is_finite z = true ->
  float_units z * y = x * 2 ^ 1074 ->
  int_true_divide x y = Return z.
Proof.
  intros Hx Hy Hz Fz HU.
  pose proof (pow2_pos 1074 ltac:(lia)) as HT.
  unfold int_true_divide. rewrite (proj2 (Z.eqb_neq y 0) Hy).
  rewrite (int_raw_nonzero y Hy), (int_raw_nonzero x Hx).
  rewrite (fdiv_exact _ _ _ _ 0 0 z ltac:(lia) ltac:(lia) Hz Fz).
  - destruct z; try discriminate; reflexivity.
  - rewrite !Z2Pos.id by lia. change (0 + 1074) with 1074.
    rewrite <- cond_Zopp_mul.
    set (T := 2 ^ 1074) in *. clearbody T.
    assert (Ey : Z.abs y = cond_Zopp (y <? 0) y).
    { destruct (Z.ltb_spec y 0); cbn [cond_Zopp]; lia. }
    assert (Ex : cond_Zopp (x <? 0) (Z.abs x * T) = x * T).
    { symmetry. apply int_units. }
    rewrite Ex, Ey.
    destruct (y <? 0); cbn [cond_Zopp]; nia.
Qed.

(** A number that compares equal to a small int converts to the float of
    that value. *)
Lemma to_double_of_small_int (a : num) (n : Z) :
  valid_num a = true -> py_eq a (PyInt n) = true -> Z.abs n <= 2 ^ 53 ->
  exists x, to_double a = Return x /\ valid x = true /\
            is_finite x = true /\ float_units x = n * 2 ^ 1074.
Proof.
  intros Ha He Hn. destruct a as [k|f].
  - assert (k = n).
    { unfold py_eq, py_cmp in He. apply Z.compare_eq.
      destruct (k ?= n); [reflexivity | discriminate | discriminate]. }
    subst k.
    destruct (small_int_representable n Hn) as (z & Hz & Fz & Uz & _).
    exact (int_to_float_exact n z Hz Fz Uz).
  - cbn [valid_num] in Ha. exists f. split; [reflexivity | ].
    split; [exact Ha | ].
    assert (Ff : is_finite f = true).
    { destruct f as [s|s| |s m e]; try reflexivity;
        unfold py_eq, py_cmp, float_cmp_int in He;
        [destruct s | ]; discriminate He. }
    split; [exact Ff | ].
    unfold py_eq, py_cmp in He.
    rewrite float_cmp_int_units in He by assumption.
    apply Z.compare_eq.
    destruct (float_units f ?= n * 2 ^ 1074);
      [reflexivity | discriminate | discriminate].
Qed.

(* ===================================================================== *)
(** ** Signs and NaN                                                      *)
(* ===================================================================== *)

Lemma fsub_finite_not_nan (x y : float) :
  is_finite x = true -> is_finite y = true -> is_nan (fsub x y) = false.
Proof.
  destruct x as [sx|sx| |sx mx ex], y as [sy|sy| |sy my ey];
    try discriminate; intros _ _; try reflexivity.
  - destruct sx, sy; reflexivity.
  - unfold fsub, SFsub. apply flt_not_nan.
Qed.

(** Rounding keeps the sign it is given. *)
Lemma binary_round_aux_sign (s : bool) (m e : Z) (l : location) :
  is_nan (binary_round_aux prec emax s m e l) = true
  \/ sign_of (binary_round_aux prec emax s m e l) = s.
Proof.
  unfold binary_round_aux.
  destruct (shr_fexp prec emax m e l) as [mrs1 e1].
  destruct (shr_fexp prec emax _ e1 loc_Exact) as [mrs2 e2].
  destruct (shr_m mrs2) as [|p|p]; [now right | | now left].
  destruct (e2 <=? emax - prec); now right.
Qed.

(** A square is not negative. *)
Lemma fmul_square_sign (x : float) : fltb (fmul x x) fzero = false.
Proof.
  destruct x as [s|s| |s m e]; try reflexivity.
  - destruct s; reflexivity.
  - unfold fmul, SFmul. rewrite xorb_nilpotent.
    destruct (binary_round_aux_sign false (Zpos (m * m)) (e + e) loc_Exact)
      as [H | H];
      destruct (binary_round_aux prec emax false (Zpos (m * m)) (e + e) loc_Exact)
        as [s'|s'| |s' m' e']; try discriminate H; try reflexivity;
      cbn [sign_of] in H; subst s'; reflexivity.
Qed.

Lemma rounded_quotient_not_nan (q : float) (P B : Z) :
  rounded_quotient q P B = true -> is_nan q = false.
Proof. destruct q; try reflexivity. discriminate. Qed.

(** The quotient of two real numbers by [/] is not NaN. *)
Lemma py_truediv_not_nan (a b r : num) :
  valid_num a = true -> valid_num b = true ->
  is_real a = true -> is_real b = true ->
  py_eq b (PyInt 0) = false ->
  py_truediv a b = Return r -> is_nan_num r = false.
Proof.
  intros Va Vb Ra Rb Hb.
  assert (G : (x <- to_double a ;; y <- to_double b ;;
               q <- float_div x y ;; Return (PyFloat q)) = Return r ->
              is_nan_num r = false).
  { destruct (to_double a) as [x|e] eqn:Ea; cbn [bind]; [ | discriminate].
    destruct (to_double b) as [y|e] eqn:Eb; cbn [bind]; [ | discriminate].
    destruct (to_double_close a x Va Ra Ea) as (Hx & Fx & _).
    destruct (to_double_close b y Vb Rb Eb) as (Hy & Fy & _).
    pose proof (to_double_zero b y Eb) as Hz. rewrite Hb in Hz.
    unfold float_div. rewrite Hz. cbn [bind].
    intros E. injection E as <-. cbn [is_nan_num].
    apply (rounded_quotient_not_nan _ _ _
             (float_quotient_rounded x y Hx Hy Fx Fy
                ltac:(now rewrite py_eq_zero_float))). }
  destruct a as [x|x], b as [y|y]; try exact G.
  cbn [py_truediv]. unfold int_true_divide.
  assert (Hy : y <> 0) by (intros ->; discriminate Hb).
  rewrite (proj2 (Z.eqb_neq y 0) Hy).
  destruct (is_inf _) eqn:Ei; cbn [bind]; [discriminate | ].
  intros E. injection E as <-. cbn [is_nan_num].
  apply (rounded_quotient_not_nan _ _ _ (int_quotient_rounded x y Hy)).
Qed.

Lemma arith_not_nan (iop : Z -> Z -> Z) (fop : float -> float -> float) :
  (forall x y, is_finite x = true -> is_finite y = true ->
               is_nan (fop x y) = false) ->
  forall a b r, is_real a = true -> is_real b = true ->
  arith iop fop a b = Return r -> is_nan_num r = false.
Proof.
  intros Hop a b r Ra Rb E.
  destruct (arith_real_outcome iop fop Hop a b Ra Rb)
    as [(n & H) | [(x & H & Hx) | H]]; rewrite H in E;
    try discriminate; injection E as <-; [reflexivity | exact Hx].
Qed.

(** NaN in, NaN out. *)
Lemma arith_nan (iop : Z -> Z -> Z) (fop : float -> float -> float) :
  (forall x, fop S754_nan x = S754_nan) ->
  (forall x, fop x S754_nan = S754_nan) ->
  forall a b, is_nan_num a = true \/ is_nan_num b = true ->
  returns (to_double a) = true -> returns (to_double b) = true ->
  arith iop fop a b = Return (PyFloat S754_nan).
Proof.
  intros Hl Hr a b Hn Ta Tb.
  destruct a as [n|x], b as [k|y]; cbn [is_nan_num] in Hn;
    try (destruct Hn; discriminate); cbn [arith to_double bind] in *.
  - destruct Hn as [Hn | Hn]; [discriminate | ].
    destruct (int_to_float n); [ | discriminate]. cbn [bind].
    destruct y; try discriminate. now rewrite Hr.
  - destruct Hn as [Hn | Hn]; [ | discriminate].
    destruct (int_to_float k); [ | discriminate]. cbn [bind].
    destruct x; try discriminate. now rewrite Hl.
  - destruct Hn as [Hn | Hn]; [destruct x | destruct y]; try discriminate;
      now rewrite ?Hl, ?Hr.
Qed.

(* ===================================================================== *)
(** ** Rounding returns a nearest float                                   *)
(* ===================================================================== *)

Lemma nearest_multiple (N D M K : Z) :
  0 < D -> 2 * Z.abs (M * D - N) <= D ->
  Z.abs (M * D - N) <= Z.abs (K * D - N).
Proof.
  intros HD HM.
  destruct (Z.eq_dec K M) as [-> | Hne]; [lia | ].
  assert (H : 1 <= K - M \/ K - M <= -1) by lia.
  destruct H as [H | H]; nia.
Qed.

(** No binary64 [mz * 2^ez] is nearer to the fraction than the float
    [binary_round_aux] returns; and none is nearer than zero when it
    returns a zero. *)
Lemma binary_round_aux_nearest (s : bool) (e N D : Z)
      (mz : positive) (ez c : Z) :
  0 <= N -> 0 < D ->
  e <= fexp prec emax (Zdigits2 (N / D) + e) ->
  bounded prec emax mz ez = true -> c <= e -> c <= ez ->
  match binary_round_aux prec emax s (N / D) e (loc_of_frac N D) with
  | S754_zero _ =>
      N * 2 ^ (e - c) <= Z.abs (Zpos mz * 2 ^ (ez - c) * D - N * 2 ^ (e - c))
  | S754_finite _ m' e' =>
      Z.abs (Zpos m' * 2 ^ (e' - c) * D - N * 2 ^ (e - c))
      <= Z.abs (Zpos mz * 2 ^ (ez - c) * D - N * 2 ^ (e - c))
      /\ Z.abs (Zpos m' * 2 ^ (e' - c) * D - N * 2 ^ (e - c))
         <= N * 2 ^ (e - c)
  | _ => True
  end.
Proof.
  intros HN HD Ht Hb Hce Hcz.
  pose proof (binary_round_aux_detail s e N D HN HD Ht) as S.
  cbv zeta in S.
  set (d := Zdigits2 (N / D)) in *.
  set (t := fexp prec emax (d + e)) in *.
  assert (Et : t = Z.max (d + e - 53) (-1074)) by (unfold t; apply fexp_eq).
  pose proof (pow2_pos (t - e) ltac:(lia)) as Hpk.
  set (D1 := D * 2 ^ (t - e)) in *.
  assert (HD1 : 0 < D1) by (unfold D1; nia).
  pose proof (round_nearest_even_spec N D1 HN HD1) as [HMb Hnear].
  cbv zeta in HMb, Hnear.
  set (M1 := round_nearest_even (N / D1) (loc_of_frac N D1)) in *.
  destruct (bounded_inv mz ez Hb) as (Hrz & _).
  pose proof (bounded_lt mz ez Hb) as Hmz.
  pose proof (pow2_pos (e - c) ltac:(lia)) as HX.
  set (X := 2 ^ (e - c)) in *.
  (* the competitor, against the multiples of the rounding step *)
  assert (Hz : Z.abs (M1 * D1 - N) * X
               <= Z.abs (Zpos mz * 2 ^ (ez - c) * D - N * X)).
  { destruct (Z_le_gt_dec t ez) as [Hge | Hlt].
    - pose proof (pow2_pos (ez - t) ltac:(lia)) as HK.
      assert (E : Zpos mz * 2 ^ (ez - c) * D
                  = Zpos mz * 2 ^ (ez - t) * D1 * X).
      { unfold D1, X.
        replace (ez - c) with ((ez - t) + ((t - e) + (e - c))) by lia.
        rewrite (pow2_split (ez - t)), (pow2_split (t - e)) by lia. ring. }
      rewrite E.
      replace (Zpos mz * 2 ^ (ez - t) * D1 * X - N * X)
        with ((Zpos mz * 2 ^ (ez - t) * D1 - N) * X) by ring.
      rewrite Z.abs_mul, (Z.abs_eq X) by lia.
      apply Z.mul_le_mono_nonneg_r; [lia | ].
      apply nearest_multiple; assumption.
    - (* a float of a smaller exponent lies below the binade of N/D *)
      assert (Ht' : t = d + e - 53) by lia.
      assert (Hm0 : 0 <= N / D) by (apply Z.div_pos; lia).
      assert (Em1 : N / D1 = N / D / 2 ^ (t - e))
        by (unfold D1; rewrite Z.div_div by lia; reflexivity).
      pose proof (Zdigits2_div_pow2 (N / D) (t - e) Hm0 ltac:(lia)) as Hd1.
      rewrite <- Em1 in Hd1. fold d in Hd1.
      assert (Hd53 : Zdigits2 (N / D1) = 53) by lia.
      assert (Hpos : 0 < N / D1).
      { destruct (Z.eq_dec (N / D1) 0) as [E0|].
        - rewrite E0 in Hd53. discriminate.
        - pose proof (Z.div_pos N D1 HN HD1). lia. }
      pose proof (Zdigits2_spec _ Hpos) as [Hlo _]. rewrite Hd53 in Hlo.
      change (2 ^ (53 - 1)) with 4503599627370496 in Hlo.
      pose proof (Z.mul_div_le N D1 HD1) as Hfl.
      assert (H52 : 4503599627370496 * D1 <= N) by nia.
      pose proof (nearest_multiple N D1 M1 4503599627370496 HD1 Hnear) as Hk.
      pose proof (pow2_pos (ez - c) ltac:(lia)) as HY.
      assert (E : 2 ^ (t - e) * X = 2 ^ (t - ez) * 2 ^ (ez - c)).
      { unfold X. rewrite <- !pow2_split by lia. f_equal. lia. }
      assert (H2 : 2 ^ 1 <= 2 ^ (t - ez)) by (apply Z.pow_le_mono_r; lia).
      change (2 ^ 1) with 2 in H2. change (2 ^ 53) with 9007199254740992 in Hmz.
      assert (EW : D1 * X = D * (2 ^ (t - ez) * 2 ^ (ez - c)))
        by (unfold D1; rewrite <- E; ring).
      set (Y := 2 ^ (ez - c)) in *. set (W := 2 ^ (t - ez)) in *.
      assert (HP : 0 < Y * D) by (apply Z.mul_pos_pos; lia).
      assert (Ha : Zpos mz * (Y * D) <= 9007199254740992 * (Y * D))
        by (apply Z.mul_le_mono_nonneg_r; lia).
      assert (Hb2 : 2 * (Y * D) <= W * (Y * D))
        by (apply Z.mul_le_mono_nonneg_r; lia).
      assert (Hlow : Zpos mz * Y * D <= 4503599627370496 * (D1 * X)).
      { rewrite EW. lia. }
      assert (HNX : 4503599627370496 * (D1 * X) <= N * X).
      { rewrite Z.mul_assoc. apply Z.mul_le_mono_nonneg_r; lia. }
      rewrite (Z.abs_neq (Zpos mz * Y * D - N * X)) by lia.
      rewrite (Z.abs_neq (4503599627370496 * D1 - N)) in Hk by lia.
      assert (Z.abs (M1 * D1 - N) * X <= (N - 4503599627370496 * D1) * X)
        by (apply Z.mul_le_mono_nonneg_r; lia).
      lia. }
  destruct (binary_round_aux prec emax s (N / D) e (loc_of_frac N D))
    as [s'|s'| |s' m' e']; try exact I.
  - destruct S as (_ & _ & E0). rewrite E0 in Hz.
    rewrite Z.mul_0_l, Z.sub_0_l, Z.abs_opp, (Z.abs_eq N) in Hz by lia.
    exact Hz.
  - destruct S as (_ & Hle & Hb' & EM).
    assert (E : Zpos m' * 2 ^ (e' - c) * D = M1 * D1 * X).
    { rewrite <- EM. unfold D1, X.
      replace (e' - c) with ((e' - t) + ((t - e) + (e - c))) by lia.
      rewrite (pow2_split (e' - t)), (pow2_split (t - e)) by lia. ring. }
    rewrite E.
    replace (M1 * D1 * X - N * X) with ((M1 * D1 - N) * X) by ring.
    rewrite Z.abs_mul, (Z.abs_eq X) by lia.
    split; [exact Hz | ].
    apply Z.mul_le_mono_nonneg_r; [lia | ].
    pose proof (nearest_multiple N D1 M1 0 HD1 Hnear) as H0.
    rewrite Z.mul_0_l, Z.sub_0_l, Z.abs_opp, (Z.abs_eq N) in H0 by lia.
    exact H0.
Qed.

(** From the magnitudes to the signed numbers. *)
Lemma nearest_of_magnitude (r : float) (N D : Z) :
  0 < D -> is_finite r = true ->
  (is_zero r = false -> sign_of r = (N <? 0)) ->
  (forall mz ez, bounded prec emax mz ez = true ->
     Z.abs (Z.abs (float_units r) * D - Z.abs N)
     <= Z.abs (Zpos mz * 2 ^ (ez + 1074) * D - Z.abs N)) ->
  Z.abs (Z.abs (float_units r) * D - Z.abs N) <= Z.abs N ->
  nearest r N D.
Proof.
  intros HD Fr Hs Hmag Hzero z Hz Fz.
  assert (Hr : Z.abs (float_units r * D - N)
               = Z.abs (Z.abs (float_units r) * D - Z.abs N)).
  { destruct r as [s|s| |s m e]; try discriminate Fr.
    - cbn [float_units]. lia.
    - specialize (Hs eq_refl). cbn [sign_of] in Hs. cbn [float_units].
      destruct (Z.ltb_spec N 0); subst s; cbn [cond_Zopp]; nia. }
  rewrite Hr.
  destruct z as [sz|sz| |sz mz ez]; try discriminate Fz.
  - cbn [float_units]. rewrite Z.mul_0_l, Z.sub_0_l, Z.abs_opp. exact Hzero.
  - cbn [valid valid_binary] in Hz. specialize (Hmag mz ez Hz).
    destruct (bounded_inv mz ez Hz) as (Hrz & _).
    pose proof (pow2_pos (ez + 1074) ltac:(lia)) as HZ.
    cbn [float_units].
    set (V := Zpos mz * 2 ^ (ez + 1074)) in *.
    assert (HV : 0 < V) by (unfold V; nia).
    assert (HVD : 0 < V * D) by nia.
    destruct sz; cbn [cond_Zopp]; lia.
Qed.

Lemma binary_round_nearest (s : bool) (m : positive) (e : Z)
      (mz : positive) (ez : Z) :
  -1074 <= e -> bounded prec emax mz ez = true ->
  match binary_round prec emax s m e with
  | S754_finite _ m' e' =>
      Z.abs (Zpos m' * 2 ^ (e' + 1074) - Zpos m * 2 ^ (e + 1074))
      <= Z.abs (Zpos mz * 2 ^ (ez + 1074) - Zpos m * 2 ^ (e + 1074))
      /\ Z.abs (Zpos m' * 2 ^ (e' + 1074) - Zpos m * 2 ^ (e + 1074))
         <= Zpos m * 2 ^ (e + 1074)
  | _ => True
  end.
Proof.
  intros He Hb. unfold binary_round.
  set (t := fexp prec emax (Zpos (digits2_pos m) + e)).
  assert (Ht : -1074 <= t) by (unfold t; rewrite fexp_eq; lia).
  pose proof (shl_align_spec m e t) as H.
  destruct (shl_align m e t) as [m2 e2]. destruct H as [He2 Hm2].
  assert (Hd : Zdigits2 (Zpos m2) + e2 = Zpos (digits2_pos m) + e).
  { rewrite Hm2, Zdigits2_mul_pow2 by lia.
    change (Zdigits2 (Zpos m)) with (Zpos (digits2_pos m)). lia. }
  destruct (bounded_inv mz ez Hb) as (Hrz & _).
  pose proof (binary_round_aux_nearest s e2 (Zpos m2) 1 mz ez (-1074)
                ltac:(lia) ltac:(lia)) as S.
  rewrite Z.div_1_r, loc_of_frac_1 in S. rewrite Hd in S. fold t in S.
  specialize (S ltac:(lia) Hb ltac:(lia) ltac:(lia)).
  assert (E : Zpos m2 * 2 ^ (e2 - -1074) = Zpos m * 2 ^ (e + 1074)).
  { rewrite Hm2, <- Z.mul_assoc, <- pow2_split by lia. f_equal. f_equal. lia. }
  destruct (binary_round_aux prec emax s (Zpos m2) e2 loc_Exact)
    as [s'|s'| |s' m' e']; try exact I.
  rewrite E, !Z.mul_1_r in S.
  replace (e' - -1074) with (e' + 1074) in S by lia.
  replace (ez - -1074) with (ez + 1074) in S by lia.
  exact S.
Qed.

Lemma binary_normalize_nearest (S ez : Z) :
  -1074 <= ez ->
  is_finite (binary_normalize prec emax S ez false) = true ->
  nearest (binary_normalize prec emax S ez false) (S * 2 ^ (ez + 1074)) 1.
Proof.
  intros Hez Fr.
  pose proof (pow2_pos (ez + 1074) ltac:(lia)) as HX.
  pose proof (binary_normalize_spec S ez Hez) as N.
  assert (Habs : Z.abs (S * 2 ^ (ez + 1074)) = Z.abs S * 2 ^ (ez + 1074)).
  { rewrite Z.abs_mul, (Z.abs_eq (2 ^ _)) by lia. reflexivity. }
  assert (Hsgn : (S * 2 ^ (ez + 1074) <? 0) = (S <? 0)).
  { destruct (Z.ltb_spec S 0); [apply Z.ltb_lt | apply Z.ltb_ge]; nia. }
  apply nearest_of_magnitude; try assumption; try lia.
  - destruct (binary_normalize prec emax S ez false) as [s|s| |s m e];
      try discriminate; intros _.
    destruct N as (_ & -> & _). cbn [sign_of]. now rewrite Hsgn.
  - intros mz ez' Hb. rewrite Habs, !Z.mul_1_r.
    destruct S as [|p|p]; cbn [binary_normalize] in *.
    + cbn [float_units Z.abs]. lia.
    + pose proof (binary_round_nearest false p ez mz ez' Hez Hb) as R.
      destruct (binary_round prec emax false p ez) as [s|s| |s m e];
        try discriminate Fr.
      * destruct N as [N _]. discriminate N.
      * destruct N as (_ & _ & Hbm & _).
        destruct (bounded_inv m e Hbm) as (Hrm & _).
        rewrite (proj1 (float_units_finite s m e ltac:(lia))).
        cbn [Z.abs]. exact (proj1 R).
    + pose proof (binary_round_nearest true p ez mz ez' Hez Hb) as R.
      destruct (binary_round prec emax true p ez) as [s|s| |s m e];
        try discriminate Fr.
      * destruct N as [N _]. discriminate N.
      * destruct N as (_ & _ & Hbm & _).
        destruct (bounded_inv m e Hbm) as (Hrm & _).
        rewrite (proj1 (float_units_finite s m e ltac:(lia))).
        cbn [Z.abs]. exact (proj1 R).
  - rewrite Habs, !Z.mul_1_r.
    destruct S as [|p|p]; cbn [binary_normalize] in *.
    + cbn [float_units Z.abs]. lia.
    + pose proof (binary_round_nearest false p ez 1 (-1074) Hez eq_refl) as R.
      destruct (binary_round prec emax false p ez) as [s|s| |s m e];
        try discriminate Fr.
      * destruct N as [N _]. discriminate N.
      * destruct N as (_ & _ & Hbm & _).
        destruct (bounded_inv m e Hbm) as (Hrm & _).
        rewrite (proj1 (float_units_finite s m e ltac:(lia))).
        cbn [Z.abs]. exact (proj2 R).
    + pose proof (binary_round_nearest true p ez 1 (-1074) Hez eq_refl) as R.
      destruct (binary_round prec emax true p ez) as [s|s| |s m e];
        try discriminate Fr.
      * destruct N as [N _]. discriminate N.
      * destruct N as (_ & _ & Hbm & _).
        destruct (bounded_inv m e Hbm) as (Hrm & _).
        rewrite (proj1 (float_units_finite s m e ltac:(lia))).
        cbn [Z.abs]. exact (proj2 R).
Qed.

Lemma nearest_self (x : float) (U : Z) :
  U = float_units x -> nearest x U 1.
Proof.
  intros -> z _ _. rewrite Z.mul_1_r, Z.sub_diag. cbn [Z.abs]. lia.
Qed.

Lemma fadd_nearest (x y : float) :
  valid x = true -> valid y = true ->
  is_finite x = true -> is_finite y = true ->
  is_finite (fadd x y) = true ->
  nearest (fadd x y) (float_units x + float_units y) 1.
Proof.
  intros Hx Hy Fx Fy Fr.
  destruct x as [sx|sx| |sx mx ex]; try discriminate;
    destruct y as [sy|sy| |sy my ey]; try discriminate.
  - apply nearest_self. destruct sx, sy; reflexivity.
  - apply nearest_self. reflexivity.
  - apply nearest_self. cbn [float_units]. change (fadd _ _) with (S754_finite sx mx ex).
    cbn [float_units]. lia.
  - destruct (bounded_inv mx ex Hx) as (Hrx & _).
    destruct (bounded_inv my ey Hy) as (Hry & _).
    destruct (fadd_normalize sx sy mx my ex ey ltac:(lia) ltac:(lia))
      as (S & ez & Hez & E & HU).
    rewrite E in *. rewrite <- HU. now apply binary_normalize_nearest.
Qed.

Lemma fsub_nearest (x y : float) :
  valid x = true -> valid y = true ->
  is_finite x = true -> is_finite y = true ->
  is_finite (fsub x y) = true ->
  nearest (fsub x y) (float_units x - float_units y) 1.
Proof.
  intros Hx Hy Fx Fy Fr.
  destruct x as [sx|sx| |sx mx ex]; try discriminate;
    destruct y as [sy|sy| |sy my ey]; try discriminate.
  - apply nearest_self. destruct sx, sy; reflexivity.
  - apply nearest_self.
    change (fsub (S754_zero sx) (S754_finite sy my ey))
      with (fopp (S754_finite sy my ey)).
    rewrite float_units_opp. cbn [float_units]. lia.
  - apply nearest_self. cbn [float_units]. change (fsub _ _) with (S754_finite sx mx ex).
    cbn [float_units]. lia.
  - destruct (bounded_inv mx ex Hx) as (Hrx & _).
    destruct (bounded_inv my ey Hy) as (Hry & _).
    destruct (fsub_normalize sx sy mx my ex ey ltac:(lia) ltac:(lia))
      as (S & ez & Hez & E & HU).
    rewrite E in *. rewrite <- HU. now apply binary_normalize_nearest.
Qed.

Lemma fmul_nearest (x y : float) :
  valid x = true -> valid y = true ->
  is_finite x = true -> is_finite y = true ->
  is_finite (fmul x y) = true ->
  nearest (fmul x y) (float_units x * float_units y) (2 ^ 1074).
Proof.
  intros Hx Hy Fx Fy Fr.
  pose proof (pow2_pos 1074 ltac:(lia)) as HT.
  assert (Z0 : forall r, float_units r = 0 -> nearest r 0 (2 ^ 1074)).
  { intros r E z _ _. rewrite E, Z.mul_0_l. cbn [Z.sub Z.abs Z.opp]. lia. }
  destruct x as [sx|sx| |sx mx ex]; try discriminate;
    destruct y as [sy|sy| |sy my ey]; try discriminate;
    try (cbn [float_units]; rewrite ?Z.mul_0_l, ?Z.mul_0_r;
         apply Z0; reflexivity).
  cbn [valid valid_binary] in Hx, Hy.
  destruct (bounded_inv mx ex Hx) as (Hrx & Hdx & Hnx).
  destruct (bounded_inv my ey Hy) as (Hry & Hdy & Hny).
  pose proof (pow2_pos (ex + 1074) ltac:(lia)) as HX.
  pose proof (pow2_pos (ey + 1074) ltac:(lia)) as HY.
  cbn [float_units]. rewrite cond_Zopp_mul.
  set (A := Zpos mx * 2 ^ (ex + 1074)) in *.
  set (B := Zpos my * 2 ^ (ey + 1074)) in *.
  assert (HAB : 0 < A * B) by (unfold A, B; nia).
  assert (Hs : (cond_Zopp (xorb sx sy) (A * B) <? 0) = xorb sx sy).
  { destruct (xorb sx sy); cbn [cond_Zopp];
      [apply Z.ltb_lt | apply Z.ltb_ge]; lia. }
  assert (Ha : Z.abs (cond_Zopp (xorb sx sy) (A * B)) = A * B)
    by (destruct (xorb sx sy); cbn [cond_Zopp]; lia).
  assert (EAB : A * B = Zpos mx * Zpos my * 2 ^ (ex + ey - -2148)).
  { unfold A, B. replace (ex + ey - -2148) with ((ex + 1074) + (ey + 1074)) by lia.
    rewrite (pow2_split (ex + 1074) (ey + 1074)) by lia. ring. }
  pose proof (fmul_spec sx sy mx my ex ey Hx Hy) as S. cbv zeta in S.
  assert (R : forall mz ez, bounded prec emax mz ez = true ->
            match fmul (S754_finite sx mx ex) (S754_finite sy my ey) with
            | S754_zero _ =>
                A * B <= Z.abs (Zpos mz * 2 ^ (ez + 1074) * 2 ^ 1074 - A * B)
            | S754_finite _ m' e' =>
                Z.abs (Zpos m' * 2 ^ (e' + 1074) * 2 ^ 1074 - A * B)
                <= Z.abs (Zpos mz * 2 ^ (ez + 1074) * 2 ^ 1074 - A * B)
                /\ Z.abs (Zpos m' * 2 ^ (e' + 1074) * 2 ^ 1074 - A * B)
                   <= A * B
            | _ => True
            end).
  { intros mz ez Hb. destruct (bounded_inv mz ez Hb) as (Hrz & _).
    unfold fmul, SFmul. rewrite Pos2Z.inj_mul.
    pose proof (binary_round_aux_nearest (xorb sx sy) (ex + ey)
                  (Zpos mx * Zpos my) 1 mz ez (-2148)
                  ltac:(lia) ltac:(lia)) as Q.
    rewrite Z.div_1_r, loc_of_frac_1, fexp_eq in Q.
    pose proof (Zdigits2_mul_ge (Zpos mx) (Zpos my) ltac:(lia) ltac:(lia)).
    pose proof (Zdigits2_pos (Zpos mx) ltac:(lia)).
    pose proof (Zdigits2_pos (Zpos my) ltac:(lia)).
    specialize (Q ltac:(lia) Hb ltac:(lia) ltac:(lia)).
    rewrite <- EAB, !Z.mul_1_r in Q.
    replace (ez - -2148) with ((ez + 1074) + 1074) in Q by lia.
    rewrite (pow2_split (ez + 1074) 1074), Z.mul_assoc in Q by lia.
    destruct (binary_round_aux prec emax (xorb sx sy) (Zpos mx * Zpos my)
                (ex + ey) loc_Exact) as [s'|s'| |s' m' e'] eqn:E; try exact I.
    - exact Q.
    - pose proof (binary_round_aux_spec (xorb sx sy) (ex + ey)
                    (Zpos mx * Zpos my) 1 ltac:(lia) ltac:(lia)) as P.
      rewrite Z.div_1_r, loc_of_frac_1, fexp_eq in P.
      specialize (P ltac:(lia)). rewrite E in P.
      destruct P as (_ & _ & Hb' & _).
      destruct (bounded_inv m' e' Hb') as (Hr' & _).
      replace (e' - -2148) with ((e' + 1074) + 1074) in Q by lia.
      rewrite (pow2_split (e' + 1074) 1074), Z.mul_assoc in Q by lia.
      rewrite ?Z.mul_1_r in Q. exact Q. }
  apply nearest_of_magnitude; try assumption.
  - destruct (fmul (S754_finite sx mx ex) (S754_finite sy my ey))
      as [s'|s'| |s' m' e']; try discriminate; intros _.
    destruct S as (-> & _). cbn [sign_of]. now rewrite Hs.
  - intros mz ez Hb. specialize (R mz ez Hb). rewrite Ha.
    destruct (fmul (S754_finite sx mx ex) (S754_finite sy my ey))
      as [s'|s'| |s' m' e']; try discriminate Fr.
    + cbn [float_units Z.abs]. rewrite Z.mul_0_l, Z.sub_0_l, Z.abs_opp.
      rewrite (Z.abs_eq (A * B)) by lia. exact R.
    + destruct S as (_ & Hb' & _).
      destruct (bounded_inv m' e' Hb') as (Hr' & _).
      rewrite (proj1 (float_units_finite s' m' e' ltac:(lia))).
      exact (proj1 R).
  - specialize (R 1%positive (-1074) eq_refl). rewrite Ha.
    destruct (fmul (S754_finite sx mx ex) (S754_finite sy my ey))
      as [s'|s'| |s' m' e']; try discriminate Fr.
    + cbn [float_units Z.abs]. rewrite Z.mul_0_l, Z.sub_0_l, Z.abs_opp.
      rewrite (Z.abs_eq (A * B)) by lia. lia.
    + destruct S as (_ & Hb' & _).
      destruct (bounded_inv m' e' Hb') as (Hr' & _).
      rewrite (proj1 (float_units_finite s' m' e' ltac:(lia))).
      exact (proj2 R).
Qed.

(** The quotient of two finite floats as a fraction of integers: rounded
    once, to a nearest float. *)
Lemma fdiv_rounded_nearest (x : float) (sy : bool) (my : positive) (ey : Z) :
  valid x = true -> is_finite x = true ->
  bounded prec emax my ey = true ->
  let y := S754_finite sy my ey in
  let N := cond_Zopp sy (float_units x * 2 ^ 1074) in
  let D := Zpos my * 2 ^ (ey + 1074) in
  rounded (fdiv x y) N D = true /\
  (is_finite (fdiv x y) = true -> nearest (fdiv x y) N D).
Proof.
  intros Hx Fx Hy y. cbv zeta.
  pose proof (pow2_pos 1074 ltac:(lia)) as HT.
  destruct (bounded_inv my ey Hy) as (Hry & _).
  pose proof (pow2_pos (ey + 1074) ltac:(lia)) as HY.
  unfold y.
  set (B := Zpos my * 2 ^ (ey + 1074)) in *.
  assert (HB : 0 < B) by (unfold B; nia).
  destruct x as [sx|sx| |sx mx ex]; try discriminate.
  - change (fdiv (S754_zero sx) (S754_finite sy my ey))
      with (S754_zero (xorb sx sy)).
    cbn [float_units rounded]. rewrite Z.mul_0_l.
    assert (E0 : cond_Zopp sy 0 = 0) by (destruct sy; reflexivity).
    rewrite E0. split.
    + apply Z.leb_le. cbn [Z.abs]. lia.
    + intros _ z _ _. rewrite Z.mul_0_l. cbn [Z.sub Z.abs Z.opp]. lia.
  - cbn [valid valid_binary] in Hx.
    destruct (bounded_inv mx ex Hx) as (Hrx & _).
    pose proof (pow2_pos (ex + 1074) ltac:(lia)) as HX.
    cbn [float_units].
    set (P := Zpos mx * 2 ^ (ex + 1074)) in *.
    assert (HP : 0 < P * 2 ^ 1074) by (unfold P; nia).
    assert (EN : cond_Zopp sy (cond_Zopp sx P * 2 ^ 1074)
                 = cond_Zopp (xorb sx sy) (P * 2 ^ 1074))
      by (destruct sx, sy; cbn [cond_Zopp xorb]; ring).
    rewrite EN.
    assert (Hs : (cond_Zopp (xorb sx sy) (P * 2 ^ 1074) <? 0) = xorb sx sy).
    { destruct (xorb sx sy); cbn [cond_Zopp];
        [apply Z.ltb_lt | apply Z.ltb_ge]; lia. }
    assert (Ha : Z.abs (cond_Zopp (xorb sx sy) (P * 2 ^ 1074)) = P * 2 ^ 1074)
      by (destruct (xorb sx sy); cbn [cond_Zopp]; lia).
    pose proof (fdiv_spec sx sy mx my ex ey ltac:(lia) ltac:(lia)) as S.
    cbv zeta in S. fold P B in S.
    destruct (fdiv_as_round sx sy mx my ex ey ltac:(lia) ltac:(lia))
      as (N & e' & HN & E & Ht & Hlo & ENX).
    fold P in ENX.
    assert (R : forall mz ez, bounded prec emax mz ez = true ->
              match fdiv (S754_finite sx mx ex) (S754_finite sy my ey) with
              | S754_zero _ =>
                  P * 2 ^ 1074
                  <= Z.abs (Zpos mz * 2 ^ (ez + 1074) * B - P * 2 ^ 1074)
              | S754_finite _ m' e' =>
                  Z.abs (Zpos m' * 2 ^ (e' + 1074) * B - P * 2 ^ 1074)
                  <= Z.abs (Zpos mz * 2 ^ (ez + 1074) * B - P * 2 ^ 1074)
                  /\ Z.abs (Zpos m' * 2 ^ (e' + 1074) * B - P * 2 ^ 1074)
                     <= P * 2 ^ 1074
              | _ => True
              end).
    { intros mz ez Hb. destruct (bounded_inv mz ez Hb) as (Hrz & _).
      pose proof (binary_round_aux_nearest (xorb sx sy) e' N (Zpos my)
                    mz ez (- (ey + 2148)) ltac:(lia) ltac:(lia) Ht Hb
                    ltac:(lia) ltac:(lia)) as Q.
      rewrite <- E in Q.
      replace (e' - - (ey + 2148)) with (e' + ey + 2148) in Q by lia.
      rewrite ENX in Q.
      assert (EZ : forall m (k : Z), -1074 <= k ->
                Zpos m * 2 ^ (k - - (ey + 2148)) * Zpos my
                = Zpos m * 2 ^ (k + 1074) * B).
      { intros m k Hk. unfold B.
        replace (k - - (ey + 2148)) with ((k + 1074) + (ey + 1074)) by lia.
        rewrite (pow2_split (k + 1074) (ey + 1074)) by lia. ring. }
      rewrite (EZ mz ez) in Q by lia.
      destruct (fdiv (S754_finite sx mx ex) (S754_finite sy my ey))
        as [s'|s'| |s' m' e''] eqn:Ed; try exact I.
      - exact Q.
      - destruct S as (_ & Hb' & _).
        destruct (bounded_inv m' e'' Hb') as (Hr' & _).
        rewrite (EZ m' e'') in Q by lia. exact Q. }
    split.
    + destruct (fdiv (S754_finite sx mx ex) (S754_finite sy my ey))
        as [s'|s'| |s' m' e'']; cbn [rounded]; try contradiction.
      * destruct S as (_ & S). apply Z.leb_le. rewrite Ha. exact S.
      * destruct S as (-> & S). rewrite Hs, Ha, Bool.eqb_reflx. cbn [andb].
        apply Z.leb_le. exact S.
      * destruct S as (-> & Hb' & S).
        rewrite Hs, Ha, Hb', Bool.eqb_reflx. cbn [andb].
        apply Z.leb_le. exact S.
    + intros Fr. apply nearest_of_magnitude; try assumption.
      * destruct (fdiv (S754_finite sx mx ex) (S754_finite sy my ey))
          as [s'|s'| |s' m' e'']; try discriminate; intros _.
        destruct S as (-> & _). cbn [sign_of]. now rewrite Hs.
      * intros mz ez Hb. specialize (R mz ez Hb). rewrite Ha.
        destruct (fdiv (S754_finite sx mx ex) (S754_finite sy my ey))
          as [s'|s'| |s' m' e'']; try discriminate Fr.
        -- cbn [float_units Z.abs]. rewrite Z.mul_0_l, Z.sub_0_l, Z.abs_opp.
           rewrite (Z.abs_eq (P * 2 ^ 1074)) by lia. exact R.
        -- destruct S as (_ & Hb' & _).
           destruct (bounded_inv m' e'' Hb') as (Hr' & _).
           rewrite (proj1 (float_units_finite s' m' e'' ltac:(lia))).
           exact (proj1 R).
      * specialize (R 1%positive (-1074) eq_refl). rewrite Ha.
        destruct (fdiv (S754_finite sx mx ex) (S754_finite sy my ey))
          as [s'|s'| |s' m' e'']; try discriminate Fr.
        -- cbn [float_units Z.abs]. rewrite Z.mul_0_l, Z.sub_0_l, Z.abs_opp.
           rewrite (Z.abs_eq (P * 2 ^ 1074)) by lia. lia.
        -- destruct S as (_ & Hb' & _).
           destruct (bounded_inv m' e'' Hb') as (Hr' & _).
           rewrite (proj1 (float_units_finite s' m' e'' ltac:(lia))).
           exact (proj2 R).
Qed.

(* ===================================================================== *)
(** ** Rounding keeps the order                                           *)
(* ===================================================================== *)

Lemma float_units_bound (x : float) :
  valid x = true -> - 2 ^ 2100 < float_units x < 2 ^ 2100.
Proof.
  intros Hx.
  assert (H0 : 0 < 2 ^ 2100) by (apply pow2_pos; lia).
  destruct x as [s|s| |s m e]; cbn [float_units]; try lia.
  cbn [valid valid_binary] in Hx.
  destruct (bounded_inv m e Hx) as (Hr & _).
  pose proof (bounded_lt m e Hx) as Hm.
  pose proof (pow2_pos (e + 1074) ltac:(lia)) as HX.
  assert (HX2 : 2 ^ (e + 1074) <= 2 ^ 2045) by (apply Z.pow_le_mono_r; lia).
  assert (E : 2 ^ 2100 = 2 ^ 53 * (2 ^ 2045 * 4)) by reflexivity.
  rewrite E. change (2 ^ 53) with 9007199254740992 in *.
  pose proof (pow2_pos 2045 ltac:(lia)).
  set (X := 2 ^ (e + 1074)) in *. set (W := 2 ^ 2045) in *.
  clearbody X W. destruct s; cbn [cond_Zopp]; nia.
Qed.

Lemma SFcompare_ext (x y : float) :
  valid x = true -> valid y = true ->
  is_nan x = false -> is_nan y = false ->
  SFcompare x y = Some (ext_units x ?= ext_units y).
Proof.
  intros Hx Hy Nx Ny.
  pose proof (float_units_bound x Hx) as Bx.
  pose proof (float_units_bound y Hy) as By.
  assert (H0 : 0 < 2 ^ 2100) by (apply pow2_pos; lia).
  destruct (is_finite x) eqn:Fx; [destruct (is_finite y) eqn:Fy | ].
  - rewrite SFcompare_units by assumption.
    destruct x, y; try discriminate; reflexivity.
  - destruct y as [sy|sy| |sy my ey]; try discriminate.
    destruct x as [sx|sx| |sx mx ex]; try discriminate;
      cbn [SFcompare ext_units] in *; f_equal; symmetry;
      destruct sy; cbn [cond_Zopp];
      try (apply Z.compare_gt_iff; lia); apply Z.compare_lt_iff; lia.
  - destruct x as [sx|sx| |sx mx ex]; try discriminate.
    destruct y as [sy|sy| |sy my ey]; try discriminate;
      cbn [SFcompare ext_units] in *; f_equal; symmetry.
    + destruct sx; cbn [cond_Zopp];
        [apply Z.compare_lt_iff | apply Z.compare_gt_iff]; lia.
    + destruct sx, sy; cbn [cond_Zopp];
        try apply Z.compare_refl;
        [apply Z.compare_lt_iff | apply Z.compare_gt_iff]; lia.
    + destruct sx; cbn [cond_Zopp];
        [apply Z.compare_lt_iff | apply Z.compare_gt_iff]; lia.
Qed.

Lemma py_le_floats (x y : float) :
  valid x = true -> valid y = true ->
  is_nan x = false -> is_nan y = false ->
  py_le (PyFloat x) (PyFloat y) = (ext_units x <=? ext_units y).
Proof.
  intros Hx Hy Nx Ny. unfold py_le, py_cmp.
  rewrite SFcompare_ext by assumption.
  unfold Z.leb. destruct (ext_units x ?= ext_units y); reflexivity.
Qed.

Lemma rounded_finite_bound (r : float) (N D : Z) :
  0 < D -> rounded r N D = true -> is_finite r = true ->
  2 * Z.abs N <= (2 ^ 54 - 1) * 2 ^ 2045 * D.
Proof.
  intros HD R Fr.
  pose proof (pow2_pos 2045 ltac:(lia)) as HW.
  destruct r as [s|s| |s m e]; try discriminate; cbn [rounded] in R.
  - apply Z.leb_le in R. change (2 ^ 54) with 18014398509481984.
    set (W := 2 ^ 2045) in *. clearbody W. nia.
  - apply andb_prop in R. destruct R as [R Hv].
    apply andb_prop in R. destruct R as [_ Hb]. apply Z.leb_le in Hv.
    destruct (bounded_inv m e Hb) as (Hr & _).
    pose proof (bounded_lt m e Hb) as Hm.
    pose proof (pow2_pos (e + 1074) ltac:(lia)) as HX.
    assert (HX2 : 2 ^ (e + 1074) <= 2 ^ 2045) by (apply Z.pow_le_mono_r; lia).
    change (2 ^ 54) with 18014398509481984.
    change (2 ^ 53) with 9007199254740992 in Hm.
    set (X := 2 ^ (e + 1074)) in *. set (W := 2 ^ 2045) in *.
    clearbody X W.
    assert (H1 : Zpos m * X * D <= 9007199254740991 * (W * D)).
    { assert (Zpos m * (X * D) <= 9007199254740991 * (X * D))
        by (apply Z.mul_le_mono_nonneg_r; nia).
      assert (X * D <= W * D) by (apply Z.mul_le_mono_nonneg_r; lia).
      lia. }
    assert (H2 : X * D <= W * D) by (apply Z.mul_le_mono_nonneg_r; lia).
    lia.
Qed.

(** Two roundings to nearest are in the order of the numbers rounded. *)
Lemma round_mono (r1 r2 : float) (N1 N2 D : Z) :
  0 < D ->
  rounded r1 N1 D = true -> rounded r2 N2 D = true ->
  (is_finite r1 = true -> nearest r1 N1 D) ->
  (is_finite r2 = true -> nearest r2 N2 D) ->
  N1 <= N2 ->
  (N1 = N2 -> ext_units r1 = ext_units r2) ->
  ext_units r1 <= ext_units r2.
Proof.
  intros HD R1 R2 Q1 Q2 HN Hdet.
  destruct (rounded_valid r1 N1 D R1) as [V1 Nn1].
  destruct (rounded_valid r2 N2 D R2) as [V2 Nn2].
  pose proof (float_units_bound r1 V1) as B1.
  pose proof (float_units_bound r2 V2) as B2.
  assert (H0 : 0 < 2 ^ 2100) by (apply pow2_pos; lia).
  pose proof (pow2_pos 2045 ltac:(lia)) as HW.
  destruct (is_finite r1) eqn:F1; [destruct (is_finite r2) eqn:F2 | ].
  - (* two finite results *)
    assert (E1 : ext_units r1 = float_units r1) by (destruct r1; try discriminate; reflexivity).
    assert (E2 : ext_units r2 = float_units r2) by (destruct r2; try discriminate; reflexivity).
    rewrite E1, E2 in *.
    destruct (Z_le_gt_dec (float_units r1) (float_units r2)) as [L | G];
      [exact L | exfalso].
    specialize (Q1 eq_refl r2 V2 F2). specialize (Q2 eq_refl r1 V1 F1).
    assert (HG : float_units r2 * D < float_units r1 * D)
      by (apply Z.mul_lt_mono_pos_r; lia).
    assert (N1 = N2) by lia.
    specialize (Hdet H). lia.
  - (* the second result is an infinity *)
    destruct r2 as [s2|s2| |s2 m2 e2]; try discriminate.
    cbn [rounded] in R2. apply andb_prop in R2. destruct R2 as [Hs2 Hv2].
    apply Bool.eqb_prop in Hs2. apply Z.leb_le in Hv2.
    assert (E1 : ext_units r1 = float_units r1) by (destruct r1; try discriminate; reflexivity).
    rewrite E1 in *. cbn [ext_units] in *.
    destruct s2; cbn [cond_Zopp] in *; [exfalso | lia].
    symmetry in Hs2. apply Z.ltb_lt in Hs2.
    pose proof (rounded_finite_bound r1 N1 D HD R1 F1) as Hb1.
    assert (N1 = N2) by lia.
    specialize (Hdet H). lia.
  - (* the first result is an infinity *)
    destruct r1 as [s1|s1| |s1 m1 e1]; try discriminate.
    cbn [rounded] in R1. apply andb_prop in R1. destruct R1 as [Hs1 Hv1].
    apply Bool.eqb_prop in Hs1. apply Z.leb_le in Hv1.
    cbn [ext_units] in *.
    destruct s1; cbn [cond_Zopp] in *.
    + destruct r2 as [s2|s2| |s2 m2 e2]; try discriminate;
        cbn [ext_units float_units] in *; try lia.
      destruct s2; cbn [cond_Zopp]; lia.
    + symmetry in Hs1. apply Z.ltb_ge in Hs1.
      assert (HN1 : 0 < N1).
      { change (2 ^ 54) with 18014398509481984 in Hv1.
        set (W := 2 ^ 2045) in *. clearbody W. nia. }
      destruct (is_finite r2) eqn:F2.
      * exfalso.
        pose proof (rounded_finite_bound r2 N2 D HD R2 F2) as Hb2.
        assert (N1 = N2) by lia.
        specialize (Hdet H).
        assert (E2 : ext_units r2 = float_units r2)
          by (destruct r2; try discriminate; reflexivity).
        lia.
      * destruct r2 as [s2|s2| |s2 m2 e2]; try discriminate.
        cbn [rounded] in R2. apply andb_prop in R2. destruct R2 as [Hs2 _].
        apply Bool.eqb_prop in Hs2. cbn [ext_units].
        destruct s2; cbn [cond_Zopp]; [ | lia].
        symmetry in Hs2. apply Z.ltb_lt in Hs2. lia.
Qed.

(* ===================================================================== *)
(** ** The other round trip: divide, then multiply                        *)
(* ===================================================================== *)

(** Two roundings, the quotient first: [Qv ~ A * T / B] within half of
    [Uq], then [Pv ~ Qv * B / T] within half of [Up]. *)
Lemma two_roundings_quotient_first (A B T Qv Uq Pv Up : Z) :
  0 < B -> 0 < T -> 0 <= A ->
  2 * Z.abs (Qv * B - A * T) <= Uq * B ->
  2 ^ 52 * Uq <= Qv ->
  2 * Z.abs (Pv * T - Qv * B) <= Up * T ->
  2 * (2 ^ 53 - 1) * Z.abs (Pv - A) <= 2 * A + (2 ^ 53 - 1) * Up.
Proof.
  intros HB HT HA H1 H2 H3.
  change (2 ^ 52) with 4503599627370496 in *.
  change (2 ^ 53) with 9007199254740992 in *.
  assert (H2' : 4503599627370496 * (Uq * B) <= Qv * B).
  { rewrite Z.mul_assoc. apply Z.mul_le_mono_nonneg_r; lia. }
  assert (Hd : Z.abs (Pv * T - A * T) = Z.abs (Pv - A) * T).
  { rewrite <- Z.mul_sub_distr_r, Z.abs_mul, (Z.abs_eq T) by lia. reflexivity. }
  set (QB := Qv * B) in *. set (UB := Uq * B) in *. set (AT := A * T) in *.
  set (PT := Pv * T) in *. set (UT := Up * T) in *.
  assert (Hc : 2 * (9007199254740992 - 1) * (Z.abs (Pv - A) * T)
               <= 2 * AT + (9007199254740992 - 1) * UT) by lia.
  apply (Z.mul_le_mono_pos_r _ _ T HT).
  unfold AT, UT in Hc.
  replace (2 * (9007199254740992 - 1) * Z.abs (Pv - A) * T)
    with (2 * (9007199254740992 - 1) * (Z.abs (Pv - A) * T)) by ring.
  replace ((2 * A + (9007199254740992 - 1) * Up) * T)
    with (2 * (A * T) + (9007199254740992 - 1) * (Up * T)) by ring.
  exact Hc.
Qed.

Lemma fdiv_fmul_close (x : float) (sb : bool) (mb : positive) (eb : Z) :
  valid x = true -> is_finite x = true ->
  bounded prec emax mb eb = true ->
  let y := S754_finite sb mb eb in
  is_normal (fdiv x y) || is_zero x = true ->
  is_finite (fmul (fdiv x y) y) = true ->
  3 * 2 ^ 50 * Z.abs (float_units (fmul (fdiv x y) y) - float_units x)
  <= Z.abs (float_units x) + 3 * 2 ^ 50.
Proof.
  intros Hv Hf Hb y Hn Hp. unfold y in *. clear y.
  destruct x as [sx|sx| |sx mx ex]; try discriminate Hf.
  - cbn. lia.
  - rewrite orb_false_r in Hn.
    cbn [valid valid_binary] in Hv.
    destruct (bounded_inv mx ex Hv) as (Hex & _).
    destruct (bounded_inv mb eb Hb) as (Heb & _).
    pose proof (fdiv_spec sx sb mx mb ex eb ltac:(lia) ltac:(lia)) as Sd.
    cbv zeta in Sd.
    destruct (is_normal_inv _ Hn) as (sq & mq & eq & Eq & Hmq).
    rewrite Eq in *. destruct Sd as (-> & Hbq & Hv1).
    destruct (bounded_inv mq eq Hbq) as (Heq & _).
    pose proof (fmul_spec (xorb sx sb) sb mq mb eq eb Hbq Hb) as Sm.
    cbv zeta in Sm.
    assert (Hs : xorb (xorb sx sb) sb = sx) by (destruct sx, sb; reflexivity).
    rewrite Hs in Sm.
    pose proof (pow2_pos (ex + 1074) ltac:(lia)) as HXa.
    pose proof (pow2_pos (eb + 1074) ltac:(lia)) as HXb.
    pose proof (pow2_pos (eq + 1074) ltac:(lia)) as HXq.
    pose proof (pow2_pos 1074 ltac:(lia)) as HT.
    set (A := Zpos mx * 2 ^ (ex + 1074)) in *.
    set (B := Zpos mb * 2 ^ (eb + 1074)) in *.
    set (Uq := 2 ^ (eq + 1074)) in *.
    set (T := 2 ^ 1074) in *.
    assert (HA : 0 < A) by (unfold A; nia).
    assert (HB : 0 < B) by (unfold B; nia).
    assert (HUq : 2 ^ 52 * Uq <= Zpos mq * Uq)
      by (apply Z.mul_le_mono_nonneg_r; lia).
    assert (HUB : 2 ^ 52 * (Uq * B) <= Zpos mq * Uq * B).
    { rewrite Z.mul_assoc. apply Z.mul_le_mono_nonneg_r; lia. }
    assert (HAT : 1 * T <= A * T) by (apply Z.mul_le_mono_nonneg_r; lia).
    destruct (fmul (S754_finite (xorb sx sb) mq eq) (S754_finite sb mb eb))
      as [sp|sp| |sp mp ep]; try discriminate Hp.
    + (* the product of a normal quotient does not underflow *)
      exfalso. destruct Sm as [_ Hz].
      change (2 ^ 52) with 4503599627370496 in HUB.
      set (QB := Zpos mq * Uq * B) in *. set (UB := Uq * B) in *.
      set (AT := A * T) in *. lia.
    + destruct Sm as (-> & Hbp & Hv2).
      destruct (bounded_inv mp ep Hbp) as (Hep & _).
      pose proof (ulp_units_bound sx mp ep Hbp) as Hu. cbn [ulp_units] in Hu.
      pose proof (pow2_pos (ep + 1074) ltac:(lia)) as HXp.
      assert (EP : 2 ^ (ep + 2148) = 2 ^ (ep + 1074) * T)
        by (unfold T; rewrite <- pow2_split by lia; f_equal; lia).
      rewrite EP, Z.mul_assoc in Hv2.
      pose proof (two_roundings_quotient_first A B T (Zpos mq * Uq) Uq
                    (Zpos mp * 2 ^ (ep + 1074)) (2 ^ (ep + 1074))
                    HB HT ltac:(lia) Hv1 HUq Hv2) as Hs2.
      cbn [float_units]. fold A. rewrite cond_Zopp_sub_abs.
      assert (Habs : Z.abs (cond_Zopp sx A) = A)
        by (destruct sx; cbn [cond_Zopp]; lia).
      rewrite Habs.
      assert (HP : 0 < Zpos mp * 2 ^ (ep + 1074))
        by (apply Z.mul_pos_pos; [apply Pos2Z.is_pos | exact HXp]).
      set (Pv := Zpos mp * 2 ^ (ep + 1074)) in *.
      set (Up := 2 ^ (ep + 1074)) in *.
      change (2 ^ 50) with 1125899906842624.
      change (2 ^ 52) with 4503599627370496 in Hu.
      change (2 ^ 53) with 9007199254740992 in Hs2.
      lia.
Qed.

(* ===================================================================== *)
(** ** Numbers that are floats                                            *)
(* ===================================================================== *)

(** An integer of at most 53 bits, scaled by a power of two, is a float
    as long as it is in range. *)
Lemma representable (s : bool) (k j : Z) :
  0 < k -> Zdigits2 k <= 53 -> 0 <= j -> Zdigits2 k + j <= 2098 ->
  exists z, valid z = true /\ is_finite z = true /\
            float_units z = cond_Zopp s (k * 2 ^ j).
Proof.
  intros Hk Hd Hj Hr.
  pose proof (Zdigits2_pos k Hk) as Hd0.
  set (d := Zdigits2 k) in *.
  set (eu := Z.max (d + j - 53) 0).
  assert (Heu : 0 <= eu <= j) by (unfold eu; lia).
  pose proof (pow2_pos (j - eu) ltac:(lia)) as Hp.
  set (m := k * 2 ^ (j - eu)).
  assert (Hm : 0 < m) by (unfold m; nia).
  assert (Hdm : Zdigits2 m = d + (j - eu)).
  { unfold m. rewrite Zdigits2_mul_pow2 by lia. reflexivity. }
  exists (S754_finite s (Z.to_pos m) (eu - 1074)).
  assert (Epos : Zpos (Z.to_pos m) = m) by (apply Z2Pos.id; exact Hm).
  split; [ | split; [reflexivity | ]].
  - cbn [valid valid_binary]. unfold bounded, canonical_mantissa.
    change (Zpos (digits2_pos (Z.to_pos m))) with (Zdigits2 (Zpos (Z.to_pos m))).
    rewrite Epos, Hdm, fexp_eq.
    apply andb_true_intro. split; [apply Z.eqb_eq | apply Z.leb_le];
      unfold emax, prec, eu; lia.
  - cbn [float_units]. rewrite Epos. unfold m.
    rewrite <- Z.mul_assoc, <- pow2_split by lia.
    replace (j - eu + (eu - 1074 + 1074)) with j by lia. reflexivity.
Qed.

Lemma Zdigits2_le_of_le (k m : Z) :
  0 < k -> k <= m -> Zdigits2 m <= 53 -> Zdigits2 k <= 53.
Proof.
  intros Hk Hkm Hm.
  pose proof (Zdigits2_le_mono k m ltac:(lia)). lia.
Qed.

(** Sterbenz: the difference of two positive floats within a factor of
    two of each other is a float. *)
Lemma sterbenz_representable (ma mb : positive) (ea eb : Z) :
  bounded prec emax ma ea = true -> bounded prec emax mb eb = true ->
  let A := Zpos ma * 2 ^ (ea + 1074) in
  let B := Zpos mb * 2 ^ (eb + 1074) in
  B <= 2 * A -> A <= 2 * B ->
  exists z, valid z = true /\ is_finite z = true /\ float_units z = A - B.
Proof.
  intros Ha Hb A B H1 H2.
  destruct (bounded_inv ma ea Ha) as (Hea & Hda & _).
  destruct (bounded_inv mb eb Hb) as (Heb & Hdb & _).
  pose proof (pow2_pos (ea + 1074) ltac:(lia)) as HXa.
  pose proof (pow2_pos (eb + 1074) ltac:(lia)) as HXb.
  destruct (Z.eq_dec A B) as [E | Hne].
  { exists fzero. repeat split. change (float_units fzero) with 0. lia. }
  set (ez := Z.min ea eb).
  pose proof (pow2_pos (ez + 1074) ltac:(unfold ez; lia)) as HXz.
  pose proof (pow2_pos (ea - ez) ltac:(unfold ez; lia)) as HYa.
  pose proof (pow2_pos (eb - ez) ltac:(unfold ez; lia)) as HYb.
  assert (EA : A = Zpos ma * 2 ^ (ea - ez) * 2 ^ (ez + 1074)).
  { unfold A. rewrite <- Z.mul_assoc, <- pow2_split by (unfold ez; lia).
    f_equal. f_equal. lia. }
  assert (EB : B = Zpos mb * 2 ^ (eb - ez) * 2 ^ (ez + 1074)).
  { unfold B. rewrite <- Z.mul_assoc, <- pow2_split by (unfold ez; lia).
    f_equal. f_equal. lia. }
  set (Sa := Zpos ma * 2 ^ (ea - ez)) in *.
  set (Sb := Zpos mb * 2 ^ (eb - ez)) in *.
  set (X := 2 ^ (ez + 1074)) in *.
  set (k := Z.abs (Sa - Sb)).
  assert (Hk : 0 < k) by (unfold k; nia).
  assert (EU : A - B = cond_Zopp (Sa - Sb <? 0) (k * X)).
  { rewrite EA, EB. unfold k.
    destruct (Z.ltb_spec (Sa - Sb) 0); cbn [cond_Zopp]; nia. }
  (* the difference is at most the operand of the smaller exponent *)
  assert (Hkm : k <= Zpos ma /\ ea <= eb \/ k <= Zpos mb /\ eb <= ea).
  { destruct (Z_le_gt_dec ea eb) as [L | G].
    - left. split; [ | exact L].
      assert (Ez : ez = ea) by (unfold ez; lia).
      assert (ESa : Sa = Zpos ma).
      { unfold Sa. rewrite Ez, Z.sub_diag. lia. }
      assert (k * X <= A) by (unfold k; rewrite EA; rewrite EA, EB in H1, H2; nia).
      rewrite EA, ESa in H. nia.
    - right. split; [ | lia].
      assert (Ez : ez = eb) by (unfold ez; lia).
      assert (ESb : Sb = Zpos mb).
      { unfold Sb. rewrite Ez, Z.sub_diag. lia. }
      assert (k * X <= B) by (unfold k; rewrite EB; rewrite EA, EB in H1, H2; nia).
      rewrite EB, ESb in H. nia. }
  assert (Hdk : Zdigits2 k <= 53).
  { destruct Hkm as [[Hkm _] | [Hkm _]];
      [apply (Zdigits2_le_of_le k (Zpos ma)) | apply (Zdigits2_le_of_le k (Zpos mb))];
      assumption. }
  destruct (representable (Sa - Sb <? 0) k (ez + 1074) Hk Hdk
              ltac:(unfold ez; lia) ltac:(unfold ez; lia))
    as (z & Hz & Fz & Uz).
  exists z. repeat split; try assumption. fold X in Uz. congruence.
Qed.

(* ===================================================================== *)
(** ** Ints beyond the floats, and the square root of 16                 *)
(* ===================================================================== *)

(** [PyLong_AsDouble] overflows from [2^1024 - 2^970] on, the midpoint
    between the largest float and [2^1024]. *)
Lemma int_to_float_overflow (n : Z) :
  int_to_float n
  = if 2 ^ 1024 - 2 ^ 970 <=? Z.abs n then Raise OverflowError
    else Return (flt n 0).
Proof.
  unfold int_to_float.
  pose proof (binary_normalize_rounded n 0 (n * 2 ^ 1074) ltac:(lia) eq_refl)
    as R.
  fold (flt n 0) in R.
  pose proof (pow2_pos 1074 ltac:(lia)) as HT.
  assert (E1 : 2 ^ 2045 = 2 ^ 971 * 2 ^ 1074) by (rewrite <- pow2_split; [reflexivity | lia | lia]).
  assert (E2 : 2 ^ 1024 - 2 ^ 970 = (2 ^ 54 - 1) * 2 ^ 970) by reflexivity.
  assert (E3 : 2 ^ 971 = 2 * 2 ^ 970) by reflexivity.
  assert (Habs : Z.abs (n * 2 ^ 1074) = Z.abs n * 2 ^ 1074)
    by (rewrite Z.abs_mul, (Z.abs_eq (2 ^ 1074)); lia).
  destruct (Z.leb_spec (2 ^ 1024 - 2 ^ 970) (Z.abs n)) as [Hbig | Hsmall].
  - destruct (Z.eq_dec (Z.abs n) (2 ^ 1024 - 2 ^ 970)) as [Heq | Hne].
    + assert (Hn : n = 2 ^ 1024 - 2 ^ 970 \/ n = - (2 ^ 1024 - 2 ^ 970)) by lia.
      destruct Hn as [-> | ->]; vm_compute; reflexivity.
    + destruct (flt n 0) as [s|s| |s m e]; cbn [rounded is_inf] in *;
        try reflexivity; try discriminate R; exfalso.
      * apply Z.leb_le in R. rewrite Habs in R.
        rewrite E2 in Hbig. change (2 ^ 54) with 18014398509481984 in Hbig.
        pose proof (pow2_pos 970 ltac:(lia)).
        set (T := 2 ^ 1074) in *. set (V := 2 ^ 970) in *. clearbody T V. nia.
      * apply andb_prop in R. destruct R as [R Hv].
        apply andb_prop in R. destruct R as [_ Hb].
        apply Z.leb_le in Hv. rewrite Habs, !Z.mul_1_r in Hv.
        destruct (bounded_inv m e Hb) as (Hr & _).
        pose proof (bounded_lt m e Hb) as Hm.
        assert (HX : 2 ^ (e + 1074) <= 2 ^ 2045)
          by (apply Z.pow_le_mono_r; lia).
        pose proof (pow2_pos (e + 1074) ltac:(lia)) as HXp.
        rewrite E1, E3 in HX. rewrite E2 in Hbig, Hne.
        change (2 ^ 54) with 18014398509481984 in Hbig, Hne.
        change (2 ^ 53) with 9007199254740992 in Hm.
        pose proof (pow2_pos 970 ltac:(lia)).
        set (X := 2 ^ (e + 1074)) in *.
        set (T := 2 ^ 1074) in *. set (V := 2 ^ 970) in *.
        clearbody X T V. nia.
  - destruct (flt n 0) as [s|s| |s m e]; cbn [rounded is_inf] in *;
      try reflexivity. exfalso.
    apply andb_prop in R. destruct R as [_ R]. apply Z.leb_le in R.
    rewrite Habs, Z.mul_1_r, E1, E3 in R. rewrite E2 in Hsmall.
    pose proof (pow2_pos 970 ltac:(lia)).
    set (T := 2 ^ 1074) in *. set (V := 2 ^ 970) in *. clearbody T V. nia.
Qed.

Lemma to_double_overflows (v : num) :
  returns (to_double v) = negb (int_overflows v).
Proof.
  destruct v as [n|x]; cbn [to_double int_overflows]; [ | reflexivity].
  rewrite int_to_float_overflow.
  destruct (2 ^ 1024 - 2 ^ 970 <=? Z.abs n); reflexivity.
Qed.

(** [+], [-], [*] on two real numbers: an [OverflowError] exactly when an
    int too large for a float meets a float; otherwise a value that
    compares equal to itself. *)
Lemma arith_mixed (iop : Z -> Z -> Z) (fop : float -> float -> float)
      (a b : num) :
  (forall x y, is_finite x = true -> is_finite y = true ->
               is_nan (fop x y) = false) ->
  is_real a = true -> is_real b = true ->
  (mixed_overflow a b = false ->
   exists v, arith iop fop a b = Return v /\ py_eq v v = true) /\
  (mixed_overflow a b = true -> arith iop fop a b = Raise OverflowError).
Proof.
  intros Hf Ha Hb.
  destruct a as [n|x], b as [k|y]; unfold mixed_overflow;
    cbn [same_type negb andb int_overflows orb].
  - split; [ | discriminate]. intros _. exists (PyInt (iop n k)).
    split; [reflexivity | apply py_eq_int_refl].
  - rewrite Bool.orb_false_r. split; intros M.
    + apply (arith_returns iop fop Hf _ _ Ha Hb); [ | reflexivity].
      rewrite to_double_overflows. cbn [int_overflows]. now rewrite M.
    + cbn [arith to_double]. rewrite int_to_float_overflow, M. reflexivity.
  - split; intros M.
    + apply (arith_returns iop fop Hf _ _ Ha Hb); [reflexivity | ].
      rewrite to_double_overflows. cbn [int_overflows]. now rewrite M.
    + cbn [arith to_double bind]. rewrite int_to_float_overflow, M.
      reflexivity.
  - split; [ | discriminate]. intros _.
    now apply (arith_returns iop fop Hf _ _ Ha Hb).
Qed.



(* ===================================================================== *)
(** ** The claims: errors                                                 *)
(* ===================================================================== *)




(** C2, as stated, fails on the code: [square_root(2**1024)] raises
    [OverflowError] although the argument is not negative. *)
Lemma square_root_overflow_on_int :
  py_lt (PyInt (2 ^ 1024)) (PyInt 0) = false /\
  Calculator.square_root sample_libm (PyInt (2 ^ 1024)) = Raise OverflowError.
Proof. split; vm_compute; reflexivity. Qed.

(** C2 (amended). [square_root(n)] raises [ValueError("Cannot calculate
    square root of negative number")] if and only if [n < 0].  Otherwise
    it returns [n ** 0.5]: NaN, +0.0, 1.0 and +inf at NaN, zero, 1.0 and
    +inf, and the C library's [pow(n, 0.5)] elsewhere; the only other
    exception is [OverflowError], when an int [n] is too large for a
    float or the C library's result is infinite. *)
Theorem square_root_raises (L : Libm) (n : num) :
  (Calculator.square_root L n
   = Raise (ValueError "Cannot calculate square root of negative number")
   <-> py_lt n (PyInt 0) = true) /\
  (forall e, Calculator.square_root L n = Raise e ->
     e = ValueError "Cannot calculate square root of negative number"
     \/ (e = OverflowError /\ py_lt n (PyInt 0) = false)) /\
  (py_lt n (PyInt 0) = false ->
   Calculator.square_root L n = x <- to_double n ;; pow_half L x).
Proof.
  unfold Calculator.square_root.
  destruct (py_lt n (PyInt 0)) eqn:Hn.
  - split; [split; auto | ]. split; [ | discriminate].
    intros e H. injection H as <-. now left.
  - assert (E : py_pow L n (PyFloat fhalf) = x <- to_double n ;; pow_half L x).
    { destruct n as [k|x]; cbn [py_pow to_double bind].
      - destruct (int_to_float k) as [x|e] eqn:Ek; cbn [bind]; [ | reflexivity].
        apply float_pow_half.
        rewrite (to_double_neg (PyInt k) x Ek). exact Hn.
      - apply float_pow_half. rewrite <- py_lt_zero_float. exact Hn. }
    assert (R : forall e, py_pow L n (PyFloat fhalf) = Raise e -> e = OverflowError).
    { intros e. rewrite E. destruct (to_double n) as [x|e'] eqn:Ex; cbn [bind].
      - apply pow_half_raise.
      - intros H. injection H as <-. now apply to_double_raise in Ex. }
    split; [ | split].
    + split; [ | discriminate]. intros H. apply R in H. discriminate.
    + intros e H. right. split; [now apply R | reflexivity].
    + intros _. exact E.
Qed.

Lemma square_root_raises_witness :
  Calculator.square_root sample_libm (PyInt (-4))
  = Raise (ValueError "Cannot calculate square root of negative number") /\
  Calculator.square_root sample_libm (PyFloat (flt 9 (-2)))
  = Return (Real (PyFloat (flt 3 (-1)))).
Proof.
  split.
  - apply (proj1 (square_root_raises sample_libm (PyInt (-4)))). reflexivity.
  - rewrite (proj2 (proj2 (square_root_raises sample_libm (PyFloat (flt 9 (-2)))))
               eq_refl).
    reflexivity.
Defined.


Lemma py_pow_raise (L : Libm) (a b : num) (e : exn) :
  py_pow L a b = Raise e ->
  e = OverflowError
  \/ (e = ZeroDivisionError
      /\ py_eq a (PyInt 0) = true /\ py_lt b (PyInt 0) = true).
Proof.
  assert (G : forall a b,
             (iv <- to_double a ;; iw <- to_double b ;; float_pow L iv iw)
             = Raise e ->
             e = OverflowError
             \/ (e = ZeroDivisionError
                 /\ py_eq a (PyInt 0) = true /\ py_lt b (PyInt 0) = true)).
  { clear a b. intros a b.
    destruct (to_double a) as [iv|e1] eqn:Ea; cbn [bind].
    - destruct (to_double b) as [iw|e2] eqn:Eb; cbn [bind].
      + intros H. apply float_pow_raise in H.
        destruct H as [H | (H & Hz & Hneg)]; [now left | right].
        rewrite (to_double_zero a iv Ea) in Hz.
        rewrite (to_double_neg b iw Eb) in Hneg. auto.
      + intros H. injection H as <-. left. now apply to_double_raise in Eb.
    - intros H. injection H as <-. left. now apply to_double_raise in Ea. }
  destruct a as [x|x], b as [y|y]; try apply G.
  cbn [py_pow]. destruct (0 <=? y); [discriminate | ]. apply (G (PyInt x) (PyInt y)).
Qed.



(* ===================================================================== *)
(** ** The claims: round trip                                             *)
(* ===================================================================== *)




(** Underflow breaks the round trip too: with [a = 1.5] and
    [b = 3 * 2^-1074] the product, 4.5 units of [2^-1074], is rounded to
    4 units, and the quotient is [4/3] in place of [1.5]. *)
Lemma round_trip_underflow :
  Calculator.multiply (PyFloat (flt 3 (-1))) (PyFloat (flt 3 (-1074)))
  = Return (PyFloat (flt 4 (-1074))) /\
  product_in_range (PyFloat (flt 3 (-1))) (PyFloat (flt 4 (-1074))) = false /\
  round_trip_ok (PyFloat (flt 3 (-1))) (PyFloat (flt 3 (-1074))) = false.
Proof. repeat split; vm_compute; reflexivity. Qed.

(* ===================================================================== *)
(** ** The claims: the square of the square root                          *)
(* ===================================================================== *)

Lemma feqb_fone_eq (x : float) : feqb x fone = true -> x = fone.
Proof.
  destruct x as [s|s| |s m e]; try discriminate;
    try (destruct s; discriminate).
  unfold feqb, SFeqb, fone, SFcompare. destruct s; [discriminate | ].
  destruct (Z.compare_spec e (-52)) as [->|_|_]; try discriminate.
  destruct (Pos.compare_cont Eq m 4503599627370496) eqn:E; try discriminate.
  apply Pos.compare_eq in E. now subst m.
Qed.

(** C8, as stated, fails on the code: [2**2000] is a real number that is
    not negative, and [square_root(2**2000)] raises [OverflowError], so
    there is no result to square. *)
Lemma square_root_raises_on_large_int :
  is_real (PyInt (2 ^ 2000)) = true /\
  py_lt (PyInt (2 ^ 2000)) (PyInt 0) = false /\
  Calculator.square_root sample_libm (PyInt (2 ^ 2000)) = Raise OverflowError.
Proof. repeat split; vm_compute; reflexivity. Qed.

(** C8 (amended). For a real [x >= 0] that fits a float, [square_root(x)]
    returns a float [r]: exactly 0.0 at zero and 1.0 at one, and the C
    library's [pow(x, 0.5)] elsewhere.  Where that value is a binary64
    within one unit in its last place of the square root of [x], the
    square [multiply(r, r)], when finite, is within
    [2^-50 * x + 2^-1074] of [x]. *)
Theorem square_of_square_root (L : Libm) (x : num) (x' : float) :
  valid_num x = true -> is_real x = true ->
  py_lt x (PyInt 0) = false ->
  to_double x = Return x' ->
  (feqb x' fzero = false -> feqb x' fone = false ->
   valid (libm_pow L x' fhalf) = true
   /\ sqrt_within_ulp (libm_pow L x' fhalf) x' = true) ->
  exists r,
    Calculator.square_root L x = Return (Real (PyFloat r)) /\
    match Calculator.multiply (PyFloat r) (PyFloat r) with
    | Return (PyFloat p) =>
        is_finite p = true -> within 50 (PyFloat p) x = true
    | _ => False
    end.
Proof.
  intros Hv Hr Hlt Hx Hlib.
  destruct (to_double_close x x' Hv Hr Hx) as (Hvx & Hfx & _ & Hcx & Hux).
  assert (G : forall r, valid r = true -> sqrt_within_ulp r x' = true ->
              match Calculator.multiply (PyFloat r) (PyFloat r) with
              | Return (PyFloat p) =>
                  is_finite p = true -> within 50 (PyFloat p) x = true
              | _ => False
              end).
  { intros r Hvr Hsr. cbn. intros Hp.
    pose proof (fmul_square_close r x' Hvr Hsr Hp) as Hc.
    unfold within. cbn [is_real]. rewrite Hp, Hr. cbn [andb].
    apply Z.leb_le. cbn [num_units].
    set (P := float_units (fmul r r)) in *.
    set (X := float_units x') in *. set (A := num_units x) in *.
    set (U := ulp_units x') in *.
    change (2 ^ 49) with 562949953421312 in Hc.
    change (2 ^ 52) with 4503599627370496 in Hux.
    change (2 ^ 50) with 1125899906842624.
    lia. }
  rewrite (proj2 (proj2 (square_root_raises L x)) Hlt), Hx. cbn [bind].
  unfold pow_half.
  replace (is_nan x' || is_inf x') with false
    by (destruct x'; try discriminate Hfx; reflexivity).
  destruct (feqb x' fzero) eqn:Ez.
  - exists fzero. split; [reflexivity | ]. apply G; [reflexivity | ].
    destruct x' as [s|s| |s m e]; try discriminate Hfx.
    + destruct s; reflexivity.
    + destruct s; discriminate Ez.
  - destruct (feqb x' fone) eqn:E1.
    + exists fone. split; [reflexivity | ]. apply G; [reflexivity | ].
      rewrite (feqb_fone_eq x' E1). vm_compute. reflexivity.
    + destruct (Hlib eq_refl eq_refl) as [Hvr Hsr].
      exists (libm_pow L x' fhalf).
      assert (Hi : is_inf (libm_pow L x' fhalf) = false).
      { unfold sqrt_within_ulp in Hsr. cbv zeta in Hsr.
        destruct (libm_pow L x' fhalf); try reflexivity; discriminate Hsr. }
      rewrite Hi. split; [reflexivity | ]. now apply G.
Qed.

Lemma square_of_square_root_witness :
  (valid_num (PyInt 16) = true /\ is_real (PyInt 16) = true /\
   py_lt (PyInt 16) (PyInt 0) = false /\
   to_double (PyInt 16) = Return (flt 16 0) /\
   (feqb (flt 16 0) fzero = false -> feqb (flt 16 0) fone = false ->
    valid (libm_pow sample_libm (flt 16 0) fhalf) = true
    /\ sqrt_within_ulp (libm_pow sample_libm (flt 16 0) fhalf) (flt 16 0)
       = true)) /\
  exists r,
    Calculator.square_root sample_libm (PyInt 16) = Return (Real (PyFloat r)) /\
    match Calculator.multiply (PyFloat r) (PyFloat r) with
    | Return (PyFloat p) =>
        is_finite p = true -> within 50 (PyFloat p) (PyInt 16) = true
    | _ => False
    end.
Proof.
  assert (H : valid (libm_pow sample_libm (flt 16 0) fhalf) = true
              /\ sqrt_within_ulp (libm_pow sample_libm (flt 16 0) fhalf)
                   (flt 16 0) = true)
    by (split; vm_compute; reflexivity).
  split.
  - repeat split; try reflexivity; apply H.
  - apply (square_of_square_root sample_libm (PyInt 16) (flt 16 0));
      try reflexivity.
    intros _ _. exact H.
Defined.
(* ===================================================================== *)
(** ** The claims: algebra and concrete cases                             *)
(* ===================================================================== *)

(** C4, as stated, fails on the code: [2**1024] and [0.5] are real
    numbers, and [add] raises [OverflowError] on them in both orders, so
    [add(a,b) == add(b,a)] has no value. *)
Lemma add_overflow_on_mixed :
  is_real (PyInt (2 ^ 1024)) = true /\ is_real (PyFloat fhalf) = true /\
  Calculator.add (PyInt (2 ^ 1024)) (PyFloat fhalf) = Raise OverflowError /\
  Calculator.add (PyFloat fhalf) (PyInt (2 ^ 1024)) = Raise OverflowError.
Proof. repeat split; vm_compute; reflexivity. Qed.

(** C4 (amended). For every pair of real numbers [a] and [b],
    [add(a,b)] and [add(b,a)] have the same outcome.  Both return, and
    the results compare equal under Python's [==], unless one operand is
    a float and the other an int of magnitude [2^1024 - 2^970] or more
    (too large for a float); then both calls raise [OverflowError]. *)
Theorem add_commutative (a b : num) :
  is_real a = true -> is_real b = true ->
  Calculator.add a b = Calculator.add b a /\
  result_eqb (Calculator.add a b) (Calculator.add b a) = true /\
  (mixed_overflow a b = false ->
   exists v w, Calculator.add a b = Return v /\ Calculator.add b a = Return w
               /\ py_eq v w = true) /\
  (mixed_overflow a b = true ->
   Calculator.add a b = Raise OverflowError /\
   Calculator.add b a = Raise OverflowError).
Proof.
  intros Ha Hb. unfold Calculator.add, py_add.
  rewrite (arith_comm Z.add fadd Z.add_comm fadd_comm b a).
  split; [reflexivity | ]. split.
  - now apply arith_real_eq_self; [exact fadd_finite_not_nan | | ].
  - destruct (arith_mixed Z.add fadd a b fadd_finite_not_nan Ha Hb)
      as [Hret Hraise].
    split.
    + intros M. destruct (Hret M) as (v & E & Hv). exists v, v. auto.
    + intros M. split; exact (Hraise M).
Qed.

Lemma add_commutative_witness :
  (is_real (PyFloat (flt 1 (-3))) = true /\ is_real (PyInt 7) = true /\
   mixed_overflow (PyFloat (flt 1 (-3))) (PyInt 7) = false) /\
  Calculator.add (PyFloat (flt 1 (-3))) (PyInt 7)
  = Calculator.add (PyInt 7) (PyFloat (flt 1 (-3))) /\
  result_eqb (Calculator.add (PyFloat (flt 1 (-3))) (PyInt 7))
             (Calculator.add (PyInt 7) (PyFloat (flt 1 (-3)))) = true /\
  exists v w,
    Calculator.add (PyFloat (flt 1 (-3))) (PyInt 7) = Return v /\
    Calculator.add (PyInt 7) (PyFloat (flt 1 (-3))) = Return w /\
    py_eq v w = true.
Proof.
  split; [repeat split | ].
  destruct (add_commutative (PyFloat (flt 1 (-3))) (PyInt 7) eq_refl eq_refl)
    as (H1 & H2 & H3 & _).
  split; [exact H1 | ]. split; [exact H2 | ].
  exact (H3 eq_refl).
Defined.

(** C5, as stated, fails on the code: [multiply] raises [OverflowError]
    on the real numbers [2**1024] and [0.5] in both orders, so
    [multiply(a,b) == multiply(b,a)] has no value. *)
Lemma multiply_overflow_on_mixed :
  is_real (PyInt (2 ^ 1024)) = true /\ is_real (PyFloat fhalf) = true /\
  Calculator.multiply (PyInt (2 ^ 1024)) (PyFloat fhalf)
  = Raise OverflowError /\
  Calculator.multiply (PyFloat fhalf) (PyInt (2 ^ 1024))
  = Raise OverflowError.
Proof. repeat split; vm_compute; reflexivity. Qed.

(** C5 (amended). For every pair of real numbers [a] and [b],
    [multiply(a,b)] and [multiply(b,a)] have the same outcome.  Both
    return, and the results compare equal under Python's [==], unless one
    operand is a float and the other an int of magnitude
    [2^1024 - 2^970] or more (too large for a float); then both calls
    raise [OverflowError]. *)
Theorem multiply_commutative (a b : num) :
  is_real a = true -> is_real b = true ->
  Calculator.multiply a b = Calculator.multiply b a /\
  result_eqb (Calculator.multiply a b) (Calculator.multiply b a) = true /\
  (mixed_overflow a b = false ->
   exists v w, Calculator.multiply a b = Return v /\
               Calculator.multiply b a = Return w /\ py_eq v w = true) /\
  (mixed_overflow a b = true ->
   Calculator.multiply a b = Raise OverflowError /\
   Calculator.multiply b a = Raise OverflowError).
Proof.
  intros Ha Hb. unfold Calculator.multiply, py_mul.
  rewrite (arith_comm Z.mul fmul Z.mul_comm fmul_comm b a).
  split; [reflexivity | ]. split.
  - now apply arith_real_eq_self; [exact fmul_finite_not_nan | | ].
  - destruct (arith_mixed Z.mul fmul a b fmul_finite_not_nan Ha Hb)
      as [Hret Hraise].
    split.
    + intros M. destruct (Hret M) as (v & E & Hv). exists v, v. auto.
    + intros M. split; exact (Hraise M).
Qed.

Lemma multiply_commutative_witness :
  (is_real (PyInt (3 ^ 700)) = true /\ is_real (PyInt (5 ^ 400)) = true /\
   mixed_overflow (PyInt (3 ^ 700)) (PyInt (5 ^ 400)) = false) /\
  Calculator.multiply (PyInt (3 ^ 700)) (PyInt (5 ^ 400))
  = Calculator.multiply (PyInt (5 ^ 400)) (PyInt (3 ^ 700)) /\
  result_eqb (Calculator.multiply (PyInt (3 ^ 700)) (PyInt (5 ^ 400)))
             (Calculator.multiply (PyInt (5 ^ 400)) (PyInt (3 ^ 700))) = true /\
  exists v w,
    Calculator.multiply (PyInt (3 ^ 700)) (PyInt (5 ^ 400)) = Return v /\
    Calculator.multiply (PyInt (5 ^ 400)) (PyInt (3 ^ 700)) = Return w /\
    py_eq v w = true.
Proof.
  split; [repeat split | ].
  destruct (multiply_commutative (PyInt (3 ^ 700)) (PyInt (5 ^ 400))
              eq_refl eq_refl) as (H1 & H2 & H3 & _).
  split; [exact H1 | ]. split; [exact H2 | ].
  exact (H3 eq_refl).
Defined.

(** The difference of a finite float with itself is [+0.0]. *)
Lemma fsub_diag (x : float) : is_finite x = true -> fsub x x = fzero.
Proof.
  destruct x as [s|s| |s m e]; try discriminate; intros _.
  - destruct s; reflexivity.
  - unfold fsub, SFsub, shl_align.
    rewrite Z.min_id, Z.sub_diag. reflexivity.
Qed.

(** C6. For every real number [a], [subtract(a,a) == 0]: the call returns
    (the int 0, or the float +0.0) and the result compares equal to 0. *)
Theorem subtract_self (a : num) :
  is_real a = true ->
  exists v, Calculator.subtract a a = Return v /\ py_eq v (PyInt 0) = true.
Proof.
  destruct a as [n|x]; simpl; intros Hr.
  - exists (PyInt (n - n)). split; [reflexivity | ].
    rewrite Z.sub_diag. reflexivity.
  - exists (PyFloat fzero). split; [ | reflexivity].
    unfold Calculator.subtract, py_sub, arith; simpl.
    now rewrite fsub_diag.
Qed.

Lemma subtract_self_witness :
  is_real (PyFloat (flt 7 (-1))) = true /\
  exists v, Calculator.subtract (PyFloat (flt 7 (-1))) (PyFloat (flt 7 (-1)))
            = Return v /\ py_eq v (PyInt 0) = true.
Proof.
  split; [reflexivity | ].
  apply (subtract_self (PyFloat (flt 7 (-1)))). reflexivity.
Defined.

(** C10. For every number [x], [power(x, 0) == 1], the base 0 included:
    an int base gives the int 1, a float base (finite or not) the float
    1.0. *)
Theorem power_zero_exponent (L : Libm) (x : num) :
  exists v, Calculator.power L x (PyInt 0) = Return (Real v)
            /\ py_eq v (PyInt 1) = true.
Proof.
  destruct x as [n|f].
  - exists (PyInt 1). split; reflexivity.
  - exists (PyFloat fone). split; reflexivity.
Qed.





(* ===================================================================== *)
(** ** Further properties: one rounding, and no rounding                  *)
(* ===================================================================== *)

(** X1. [add] on two finite floats returns their exact sum rounded once
    (within half a unit in the last place, of the sign of the exact sum,
    zero only if the exact sum is zero, infinite only from
    [2^1024 - 2^970] on); whenever the exact sum is itself a float, [add]
    returns it. *)
Theorem add_rounds_once (x y : float) :
  valid x = true -> valid y = true ->
  is_finite x = true -> is_finite y = true ->
  exists r,
    Calculator.add (PyFloat x) (PyFloat y) = Return (PyFloat r) /\
    rounded r (float_units x + float_units y) 1 = true /\
    (forall z, valid z = true -> is_finite z = true ->
       float_units z = float_units x + float_units y ->
       py_eq (PyFloat r) (PyFloat z) = true).
Proof.
  intros Hx Hy Fx Fy. exists (fadd x y).
  split; [reflexivity | ]. split; [now apply fadd_rounded | ].
  intros z Hz Fz HU.
  destruct (fadd_exact x y z Hx Hy Hz Fx Fy Fz HU) as (Hv & Hf & Hu).
  now apply py_eq_same_units.
Qed.

Lemma add_rounds_once_witness :
  (valid (flt 1 (-1)) = true /\ valid (flt 1 (-2)) = true /\
   is_finite (flt 1 (-1)) = true /\ is_finite (flt 1 (-2)) = true) /\
  exists r,
    Calculator.add (PyFloat (flt 1 (-1))) (PyFloat (flt 1 (-2)))
    = Return (PyFloat r) /\
    rounded r (float_units (flt 1 (-1)) + float_units (flt 1 (-2))) 1 = true /\
    py_eq (PyFloat r) (PyFloat (flt 3 (-2))) = true.
Proof.
  split; [repeat split | ].
  destruct (add_rounds_once (flt 1 (-1)) (flt 1 (-2))
              eq_refl eq_refl eq_refl eq_refl) as (r & H1 & H2 & H3).
  exists r. split; [exact H1 | ]. split; [exact H2 | ].
  apply H3; vm_compute; reflexivity.
Defined.

(** X2. [subtract] on two finite floats returns their exact difference
    rounded once; whenever the exact difference is itself a float,
    [subtract] returns it. *)
Theorem subtract_rounds_once (x y : float) :
  valid x = true -> valid y = true ->
  is_finite x = true -> is_finite y = true ->
  exists r,
    Calculator.subtract (PyFloat x) (PyFloat y) = Return (PyFloat r) /\
    rounded r (float_units x - float_units y) 1 = true /\
    (forall z, valid z = true -> is_finite z = true ->
       float_units z = float_units x - float_units y ->
       py_eq (PyFloat r) (PyFloat z) = true).
Proof.
  intros Hx Hy Fx Fy. exists (fsub x y).
  split; [reflexivity | ]. split; [now apply fsub_rounded | ].
  intros z Hz Fz HU.
  destruct (fsub_exact x y z Hx Hy Hz Fx Fy Fz HU) as (Hv & Hf & Hu).
  now apply py_eq_same_units.
Qed.

Lemma subtract_rounds_once_witness :
  (valid (flt 1 (-1)) = true /\ valid (flt 3 (-2)) = true /\
   is_finite (flt 1 (-1)) = true /\ is_finite (flt 3 (-2)) = true) /\
  exists r,
    Calculator.subtract (PyFloat (flt 1 (-1))) (PyFloat (flt 3 (-2)))
    = Return (PyFloat r) /\
    rounded r (float_units (flt 1 (-1)) - float_units (flt 3 (-2))) 1 = true /\
    py_eq (PyFloat r) (PyFloat (flt (-1) (-2))) = true.
Proof.
  split; [repeat split | ].
  destruct (subtract_rounds_once (flt 1 (-1)) (flt 3 (-2))
              eq_refl eq_refl eq_refl eq_refl) as (r & H1 & H2 & H3).
  exists r. split; [exact H1 | ]. split; [exact H2 | ].
  apply H3; vm_compute; reflexivity.
Defined.



(** The division of the calculator on two numbers of the same type whose
    exact quotient is the float [z]. *)
Lemma py_truediv_exact (a b : num) (z : float) :
  valid_num a = true -> valid_num b = true ->
  is_real a = true -> is_real b = true ->
  same_type a b = true -> py_eq b (PyInt 0) = false ->
  valid z = true -> is_finite z = true ->
  float_units z * num_units b = num_units a * 2 ^ 1074 ->
  exists q, py_truediv a b = Return (PyFloat q) /\
            valid q = true /\ is_finite q = true /\
            float_units q = float_units z /\
            (py_eq a (PyInt 0) = false -> q = z).
Proof.
  intros Va Vb Ra Rb St Hb Hz Fz HU.
  pose proof (pow2_pos 1074 ltac:(lia)) as HT.
  destruct a as [x|x], b as [y|y]; try discriminate St;
    cbn [valid_num is_real num_units] in *.
  - assert (Hy : y <> 0) by (intros ->; discriminate Hb).
    assert (HU' : float_units z * y = x * 2 ^ 1074).
    { set (T := 2 ^ 1074) in *. clearbody T. nia. }
    destruct (int_true_divide_exact x y z Hy Hz Fz HU')
      as (q & E & Hv & Hf & Hu).
    exists q. cbn [py_truediv]. rewrite E. cbn [bind].
    repeat split; try assumption.
    intros Hx. assert (Hx' : x <> 0) by (intros ->; discriminate Hx).
    rewrite (int_true_divide_exact_eq x y z Hx' Hy Hz Fz HU') in E.
    now injection E.
  - rewrite py_eq_zero_float in Hb.
    destruct (float_div_exact x y z Va Vb Hz Ra Rb Fz Hb HU)
      as (Hv & Hf & Hu & He).
    exists (fdiv x y). cbn [py_truediv to_double bind]. unfold float_div.
    rewrite Hb. cbn [bind]. repeat split; try assumption.
    intros Hx. apply He. rewrite py_eq_zero_float in Hx.
    destruct x as [sx|sx| |sx mx ex]; try reflexivity.
    destruct sx; discriminate Hx.
Qed.

(** X4. [divide] on two ints of any size, or on two finite floats, with
    a divisor that is not zero, is exact whenever the exact quotient is a
    float [z]: it returns [z]. *)
Theorem divide_exact_quotient (a b : num) (z : float) :
  valid_num a = true -> valid_num b = true ->
  is_real a = true -> is_real b = true ->
  same_type a b = true -> py_eq b (PyInt 0) = false ->
  valid z = true -> is_finite z = true ->
  float_units z * num_units b = num_units a * 2 ^ 1074 ->
  exists q, Calculator.divide a b = Return (PyFloat q) /\
            py_eq (PyFloat q) (PyFloat z) = true.
Proof.
  intros Va Vb Ra Rb St Hb Hz Fz HU.
  destruct (py_truediv_exact a b z Va Vb Ra Rb St Hb Hz Fz HU)
    as (q & E & Hv & Hf & Hu & _).
  exists q. unfold Calculator.divide. rewrite Hb.
  split; [exact E | ]. now apply py_eq_same_units.
Qed.

Lemma divide_exact_quotient_witness :
  (valid_num (PyInt (7 * 10 ^ 400)) = true /\
   valid_num (PyInt (2 * 10 ^ 400)) = true /\
   is_real (PyInt (7 * 10 ^ 400)) = true /\
   is_real (PyInt (2 * 10 ^ 400)) = true /\
   same_type (PyInt (7 * 10 ^ 400)) (PyInt (2 * 10 ^ 400)) = true /\
   py_eq (PyInt (2 * 10 ^ 400)) (PyInt 0) = false /\
   valid (flt 7 (-1)) = true /\ is_finite (flt 7 (-1)) = true) /\
  exists q,
    Calculator.divide (PyInt (7 * 10 ^ 400)) (PyInt (2 * 10 ^ 400))
    = Return (PyFloat q) /\
    py_eq (PyFloat q) (PyFloat (flt 7 (-1))) = true.
Proof.
  split; [repeat split | ].
  apply (divide_exact_quotient (PyInt (7 * 10 ^ 400)) (PyInt (2 * 10 ^ 400))
           (flt 7 (-1))); vm_compute; reflexivity.
Defined.

(** X5. [divide(a, a)] is exactly [1.0] for every int other than 0,
    however large, and every finite float other than zero. *)
Theorem divide_self (a : num) :
  valid_num a = true -> is_real a = true -> py_eq a (PyInt 0) = false ->
  Calculator.divide a a = Return (PyFloat fone).
Proof.
  intros Va Ra Ha.
  assert (St : same_type a a = true) by (destruct a; reflexivity).
  destruct (py_truediv_exact a a fone Va Va Ra Ra St Ha eq_refl eq_refl)
    as (q & E & _ & _ & _ & Hq).
  { change (float_units fone) with (2 ^ 1074). apply Z.mul_comm. }
  unfold Calculator.divide. rewrite Ha, E, (Hq Ha). reflexivity.
Qed.

Lemma divide_self_witness :
  (valid_num (PyInt (3 ^ 1000)) = true /\ is_real (PyInt (3 ^ 1000)) = true /\
   py_eq (PyInt (3 ^ 1000)) (PyInt 0) = false) /\
  Calculator.divide (PyInt (3 ^ 1000)) (PyInt (3 ^ 1000))
  = Return (PyFloat fone).
Proof.
  split; [repeat split | ].
  apply (divide_self (PyInt (3 ^ 1000))); reflexivity.
Defined.

(** X6. The sign of a difference is never wrong: on two ints, or on two
    finite floats, [subtract(a, b)] compares with 0 as [a] compares with
    [b]; in particular [subtract(a, b) == 0] exactly when [a == b]. *)
Theorem subtract_compares (a b : num) :
  valid_num a = true -> valid_num b = true ->
  is_real a = true -> is_real b = true -> same_type a b = true ->
  exists v, Calculator.subtract a b = Return v /\
            py_cmp v (PyInt 0) = py_cmp a b /\
            py_eq v (PyInt 0) = py_eq a b /\
            py_lt v (PyInt 0) = py_lt a b.
Proof.
  intros Va Vb Ra Rb St.
  assert (G : exists v, Calculator.subtract a b = Return v /\
                        py_cmp v (PyInt 0) = py_cmp a b).
  { destruct a as [x|x], b as [y|y]; try discriminate St;
      cbn [valid_num is_real] in *.
    - exists (PyInt (x - y)). split; [reflexivity | ].
      cbn [py_cmp]. f_equal. symmetry. apply Z.compare_sub.
    - exists (PyFloat (fsub x y)). split; [reflexivity | ].
      cbn [py_cmp].
      rewrite (rounded_cmp_zero _ _ (fsub_rounded x y Va Vb Ra Rb)).
      rewrite SFcompare_units by assumption.
      f_equal. symmetry. apply Z.compare_sub. }
  destruct G as (v & E & C). exists v. split; [exact E | ].
  split; [exact C | ]. unfold py_eq, py_lt. rewrite C. split; reflexivity.
Qed.

Lemma subtract_compares_witness :
  (valid_num (PyFloat (flt 1 (-1074))) = true /\
   valid_num (PyFloat (flt 3 (-1074))) = true /\
   is_real (PyFloat (flt 1 (-1074))) = true /\
   is_real (PyFloat (flt 3 (-1074))) = true /\
   same_type (PyFloat (flt 1 (-1074))) (PyFloat (flt 3 (-1074))) = true) /\
  exists v,
    Calculator.subtract (PyFloat (flt 1 (-1074))) (PyFloat (flt 3 (-1074)))
    = Return v /\
    py_cmp v (PyInt 0)
    = py_cmp (PyFloat (flt 1 (-1074))) (PyFloat (flt 3 (-1074))) /\
    py_eq v (PyInt 0)
    = py_eq (PyFloat (flt 1 (-1074))) (PyFloat (flt 3 (-1074))) /\
    py_lt v (PyInt 0)
    = py_lt (PyFloat (flt 1 (-1074))) (PyFloat (flt 3 (-1074))).
Proof.
  split; [repeat split | ].
  apply (subtract_compares (PyFloat (flt 1 (-1074))) (PyFloat (flt 3 (-1074))));
    reflexivity.
Defined.

(* ===================================================================== *)
(** ** Further properties: neutral elements and small integers            *)
(* ===================================================================== *)

Lemma to_double_zero_int : to_double (PyInt 0) = Return fzero.
Proof. reflexivity. Qed.

Lemma to_double_one_int : to_double (PyInt 1) = Return fone.
Proof. reflexivity. Qed.

Lemma float_units_fone : float_units fone = 2 ^ 1074.
Proof. reflexivity. Qed.

(** X7. 0 is neutral for [add] and [subtract] and 1 for [multiply] and
    [divide]: on every int and every float other than NaN (the
    infinities included) the result compares equal to the operand, with
    one exception: [divide(n, 1)] converts the int [n] to a float, which
    is exact up to [2^53] in magnitude.  [multiply(a, 0)] is zero for
    every real [a]. *)
Theorem neutral_elements (a : num) :
  valid_num a = true -> is_nan_num a = false ->
  (exists v, Calculator.add a (PyInt 0) = Return v /\ py_eq v a = true) /\
  (exists v, Calculator.subtract a (PyInt 0) = Return v /\ py_eq v a = true) /\
  (exists v, Calculator.multiply a (PyInt 1) = Return v /\ py_eq v a = true) /\
  ((forall n, a = PyInt n -> Z.abs n <= 2 ^ 53) ->
   exists v, Calculator.divide a (PyInt 1) = Return v /\ py_eq v a = true) /\
  (is_real a = true ->
   exists v, Calculator.multiply a (PyInt 0) = Return v
             /\ py_eq v (PyInt 0) = true).
Proof.
  intros Va Na. destruct a as [n|x].
  - split; [ | split; [ | split; [ | split]]].
    + exists (PyInt (n + 0)). split; [reflexivity | ].
      rewrite Z.add_0_r. apply py_eq_int_refl.
    + exists (PyInt (n - 0)). split; [reflexivity | ].
      rewrite Z.sub_0_r. apply py_eq_int_refl.
    + exists (PyInt (n * 1)). split; [reflexivity | ].
      rewrite Z.mul_1_r. apply py_eq_int_refl.
    + intros Hn. specialize (Hn n eq_refl).
      destruct (small_int_representable n Hn) as (z & Hz & Fz & Uz & _).
      destruct (int_true_divide_exact n 1 z ltac:(lia) Hz Fz)
        as (q & E & Hq & Fq & Uq).
      { rewrite Uz. ring. }
      exists (PyFloat q). unfold Calculator.divide.
      change (py_eq (PyInt 1) (PyInt 0)) with false. cbn [py_truediv].
      rewrite E. cbn [bind]. split; [reflexivity | ].
      apply py_eq_int_units; [assumption | assumption | congruence].
    + intros _. exists (PyInt (n * 0)). split; [reflexivity | ].
      rewrite Z.mul_0_r. reflexivity.
  - cbn [valid_num is_nan_num] in Va, Na.
    unfold Calculator.add, Calculator.subtract, Calculator.multiply,
      Calculator.divide, py_add, py_sub, py_mul.
    change (py_eq (PyInt 1) (PyInt 0)) with false.
    cbn [arith py_truediv to_double bind].
    change (int_to_float 0) with (Return fzero).
    change (int_to_float 1) with (Return fone).
    cbn [bind]. unfold float_div.
    change (feqb fone fzero) with false. cbn [bind].
    split; [ | split; [ | split; [ | split]]].
    + eexists. split; [reflexivity | ]. rewrite py_eq_floats.
      destruct x as [s|s| |s m e]; try discriminate.
      * destruct s; reflexivity.
      * destruct s; reflexivity.
      * change (fadd (S754_finite s m e) fzero) with (S754_finite s m e).
        unfold feqb, SFeqb. now rewrite SFcompare_refl.
    + eexists. split; [reflexivity | ]. rewrite py_eq_floats.
      destruct x as [s|s| |s m e]; try discriminate.
      * destruct s; reflexivity.
      * destruct s; reflexivity.
      * change (fsub (S754_finite s m e) fzero) with (S754_finite s m e).
        unfold feqb, SFeqb. now rewrite SFcompare_refl.
    + eexists. split; [reflexivity | ].
      destruct x as [s|s| |s m e]; try discriminate.
      * destruct s; reflexivity.
      * destruct s; reflexivity.
      * destruct (fmul_exact (S754_finite s m e) fone (S754_finite s m e)
                    Va eq_refl Va eq_refl eq_refl eq_refl)
          as (Hv & Hf & Hu).
        { now rewrite float_units_fone. }
        now apply py_eq_same_units.
    + intros _. eexists. split; [reflexivity | ].
      destruct x as [s|s| |s m e]; try discriminate.
      * destruct s; reflexivity.
      * destruct s; reflexivity.
      * destruct (float_div_exact (S754_finite s m e) fone (S754_finite s m e)
                    Va eq_refl Va eq_refl eq_refl eq_refl eq_refl)
          as (Hv & Hf & Hu & _).
        { now rewrite float_units_fone. }
        now apply py_eq_same_units.
    + intros Rx. eexists. split; [reflexivity | ].
      destruct x as [s|s| |s m e]; try discriminate; destruct s; reflexivity.
Qed.

Lemma neutral_elements_witness :
  (valid_num (PyFloat (flt 7 (-1))) = true /\
   is_nan_num (PyFloat (flt 7 (-1))) = false) /\
  (exists v, Calculator.add (PyFloat (flt 7 (-1))) (PyInt 0) = Return v
             /\ py_eq v (PyFloat (flt 7 (-1))) = true) /\
  (exists v, Calculator.subtract (PyFloat (flt 7 (-1))) (PyInt 0) = Return v
             /\ py_eq v (PyFloat (flt 7 (-1))) = true) /\
  (exists v, Calculator.multiply (PyFloat (flt 7 (-1))) (PyInt 1) = Return v
             /\ py_eq v (PyFloat (flt 7 (-1))) = true) /\
  (exists v, Calculator.divide (PyFloat (flt 7 (-1))) (PyInt 1) = Return v
             /\ py_eq v (PyFloat (flt 7 (-1))) = true) /\
  (exists v, Calculator.multiply (PyFloat (flt 7 (-1))) (PyInt 0) = Return v
             /\ py_eq v (PyInt 0) = true).
Proof.
  split; [repeat split | ].
  destruct (neutral_elements (PyFloat (flt 7 (-1))) eq_refl eq_refl)
    as (H1 & H2 & H3 & H4 & H5).
  split; [exact H1 | ]. split; [exact H2 | ]. split; [exact H3 | ].
  split; [apply H4; intros n E; discriminate E | exact (H5 eq_refl)].
Defined.

(** The sum, difference or product [k] of two small integers given as
    floats [x] and [y] (of the values [n] and [m]). *)
Lemma small_result (fop : float -> float -> float) (x y : float) (k : Z) :
  (forall z, valid z = true -> is_finite z = true ->
     float_units z = k * 2 ^ 1074 ->
     valid (fop x y) = true /\ is_finite (fop x y) = true /\
     float_units (fop x y) = float_units z) ->
  Z.abs k <= 2 ^ 53 ->
  py_eq (PyFloat (fop x y)) (PyInt k) = true.
Proof.
  intros H Hk.
  destruct (small_int_representable k Hk) as (z & Hz & Fz & Uz & _).
  destruct (H z Hz Fz Uz) as (Hv & Hf & Hu).
  apply py_eq_int_units; [assumption | assumption | congruence].
Qed.

Lemma arith_small (iop : Z -> Z -> Z) (fop : float -> float -> float)
      (a b : num) (n m : Z) :
  valid_num a = true -> valid_num b = true ->
  py_eq a (PyInt n) = true -> py_eq b (PyInt m) = true ->
  Z.abs n <= 2 ^ 53 -> Z.abs m <= 2 ^ 53 -> Z.abs (iop n m) <= 2 ^ 53 ->
  (forall x y z, valid x = true -> valid y = true -> valid z = true ->
     is_finite x = true -> is_finite y = true -> is_finite z = true ->
     float_units x = n * 2 ^ 1074 -> float_units y = m * 2 ^ 1074 ->
     float_units z = iop n m * 2 ^ 1074 ->
     valid (fop x y) = true /\ is_finite (fop x y) = true /\
     float_units (fop x y) = float_units z) ->
  exists v, arith iop fop a b = Return v /\ py_eq v (PyInt (iop n m)) = true.
Proof.
  intros Va Vb Ea Eb Hn Hm Hk Hop.
  destruct (to_double_of_small_int a n Va Ea Hn) as (x & Tx & Hx & Fx & Ux).
  destruct (to_double_of_small_int b m Vb Eb Hm) as (y & Ty & Hy & Fy & Uy).
  assert (G : exists v,
             (x <- to_double a ;; y <- to_double b ;;
              Return (PyFloat (fop x y))) = Return v
             /\ py_eq v (PyInt (iop n m)) = true).
  { rewrite Tx, Ty. cbn [bind]. eexists. split; [reflexivity | ].
    apply small_result; [ | exact Hk].
    intros z Hz Fz Uz. now apply Hop. }
  destruct a as [i|f], b as [j|g]; try exact G.
  exists (PyInt (iop i j)). split; [reflexivity | ].
  assert (i = n).
  { unfold py_eq, py_cmp in Ea. apply Z.compare_eq.
    destruct (i ?= n); [reflexivity | discriminate | discriminate]. }
  assert (j = m).
  { unfold py_eq, py_cmp in Eb. apply Z.compare_eq.
    destruct (j ?= m); [reflexivity | discriminate | discriminate]. }
  subst i j. apply py_eq_int_refl.
Qed.

(** X8. Small integers are handled exactly whatever their type: when
    [a == n] and [b == m] for integers [n], [m] up to [2^53] in magnitude
    (each given as an int or as a float), [add], [subtract] and
    [multiply] return a number equal to [n + m], [n - m], [n * m] as long
    as that is up to [2^53] too, and [divide] returns [n / m] when [m]
    divides [n]. *)
Theorem small_integers_exact (a b : num) (n m : Z) :
  valid_num a = true -> valid_num b = true ->
  py_eq a (PyInt n) = true -> py_eq b (PyInt m) = true ->
  Z.abs n <= 2 ^ 53 -> Z.abs m <= 2 ^ 53 ->
  (Z.abs (n + m) <= 2 ^ 53 ->
   exists v, Calculator.add a b = Return v
             /\ py_eq v (PyInt (n + m)) = true) /\
  (Z.abs (n - m) <= 2 ^ 53 ->
   exists v, Calculator.subtract a b = Return v
             /\ py_eq v (PyInt (n - m)) = true) /\
  (Z.abs (n * m) <= 2 ^ 53 ->
   exists v, Calculator.multiply a b = Return v
             /\ py_eq v (PyInt (n * m)) = true) /\
  (forall k, m <> 0 -> n = k * m ->
   exists v, Calculator.divide a b = Return v /\ py_eq v (PyInt k) = true).
Proof.
  intros Va Vb Ea Eb Hn Hm.
  pose proof (pow2_pos 1074 ltac:(lia)) as HT.
  split; [ | split; [ | split]].
  - intros Hk. apply (arith_small Z.add fadd a b n m); try assumption.
    intros x y z Hx Hy Hz Fx Fy Fz Ux Uy Uz.
    apply fadd_exact; try assumption. rewrite Ux, Uy, Uz. ring.
  - intros Hk. apply (arith_small Z.sub fsub a b n m); try assumption.
    intros x y z Hx Hy Hz Fx Fy Fz Ux Uy Uz.
    apply fsub_exact; try assumption. rewrite Ux, Uy, Uz. ring.
  - intros Hk. apply (arith_small Z.mul fmul a b n m); try assumption.
    intros x y z Hx Hy Hz Fx Fy Fz Ux Uy Uz.
    apply fmul_exact; try assumption. rewrite Ux, Uy, Uz. ring.
  - intros k Hm0 Hnk.
    assert (Hk : Z.abs k <= 2 ^ 53).
    { subst n. rewrite Z.abs_mul in Hn.
      change (2 ^ 53) with 9007199254740992 in *. nia. }
    assert (Hb0 : py_eq b (PyInt 0) = false).
    { destruct (to_double_of_small_int b m Vb Eb Hm) as (y & Ty & Hy & Fy & Uy).
      rewrite <- (to_double_zero b y Ty), feqb_units by (try assumption; reflexivity).
      rewrite Uy. change (float_units fzero) with 0. apply Z.eqb_neq.
      set (T := 2 ^ 1074) in *. clearbody T. nia. }
    unfold Calculator.divide. rewrite Hb0.
    destruct (small_int_representable k Hk) as (z & Hz & Fz & Uz & _).
    destruct (to_double_of_small_int a n Va Ea Hn) as (x & Tx & Hx & Fx & Ux).
    destruct (to_double_of_small_int b m Vb Eb Hm) as (y & Ty & Hy & Fy & Uy).
    assert (G : exists v,
               (x <- to_double a ;; y <- to_double b ;;
                q <- float_div x y ;; Return (PyFloat q)) = Return v
               /\ py_eq v (PyInt k) = true).
    { rewrite Tx, Ty. cbn [bind]. unfold float_div.
      rewrite (to_double_zero b y Ty), Hb0. cbn [bind].
      eexists. split; [reflexivity | ].
      destruct (float_div_exact x y z Hx Hy Hz Fx Fy Fz) as (Hv & Hf & Hu & _).
      { now rewrite (to_double_zero b y Ty). }
      { rewrite Ux, Uy, Uz, Hnk. ring. }
      apply py_eq_int_units; [assumption | assumption | congruence]. }
    destruct a as [i|f], b as [j|g]; try exact G.
    assert (i = n).
    { unfold py_eq, py_cmp in Ea. apply Z.compare_eq.
      destruct (i ?= n); [reflexivity | discriminate | discriminate]. }
    assert (j = m).
    { unfold py_eq, py_cmp in Eb. apply Z.compare_eq.
      destruct (j ?= m); [reflexivity | discriminate | discriminate]. }
    subst i j. cbn [py_truediv].
    destruct (int_true_divide_exact n m z Hm0 Hz Fz) as (q & E & Hq & Fq & Uq).
    { rewrite Uz, Hnk. ring. }
    rewrite E. cbn [bind]. eexists. split; [reflexivity | ].
    apply py_eq_int_units; [assumption | assumption | congruence].
Qed.

Lemma small_integers_exact_witness :
  (valid_num (PyInt 4) = true /\ valid_num (PyFloat (flt 5 (-1))) = true) /\
  (valid_num (PyFloat (flt 10 0)) = true /\ valid_num (PyInt 2) = true /\
   py_eq (PyFloat (flt 10 0)) (PyInt 10) = true /\
   py_eq (PyInt 2) (PyInt 2) = true /\
   Z.abs 10 <= 2 ^ 53 /\ Z.abs 2 <= 2 ^ 53) /\
  (exists v, Calculator.add (PyFloat (flt 10 0)) (PyInt 2) = Return v
             /\ py_eq v (PyInt (10 + 2)) = true) /\
  (exists v, Calculator.subtract (PyFloat (flt 10 0)) (PyInt 2) = Return v
             /\ py_eq v (PyInt (10 - 2)) = true) /\
  (exists v, Calculator.multiply (PyFloat (flt 10 0)) (PyInt 2) = Return v
             /\ py_eq v (PyInt (10 * 2)) = true) /\
  (exists v, Calculator.divide (PyFloat (flt 10 0)) (PyInt 2) = Return v
             /\ py_eq v (PyInt 5) = true).
Proof.
  split; [repeat split | ].
  assert (B : Z.abs 10 <= 2 ^ 53 /\ Z.abs 2 <= 2 ^ 53)
    by (split; vm_compute; discriminate).
  split; [repeat split; try apply B | ].
  destruct (small_integers_exact (PyFloat (flt 10 0)) (PyInt 2) 10 2
              eq_refl eq_refl eq_refl eq_refl (proj1 B) (proj2 B))
    as (H1 & H2 & H3 & H4).
  split; [apply H1; vm_compute; discriminate | ].
  split; [apply H2; vm_compute; discriminate | ].
  split; [apply H3; vm_compute; discriminate | ].
  apply H4; [discriminate | reflexivity].
Defined.

(* ===================================================================== *)
(** ** Further properties: what the results can be                        *)
(* ===================================================================== *)

(** X9. [multiply(a, a)] returns for every number [a], NaN and the
    infinities included, and its result is never negative; so
    [square_root(multiply(a, a))] never raises the [ValueError] of a
    negative argument (it can only raise [OverflowError]). *)
Theorem square_not_negative (L : Libm) (a : num) :
  exists p, Calculator.multiply a a = Return p /\
            py_lt p (PyInt 0) = false /\
            forall e, Calculator.square_root L p = Raise e ->
                      e = OverflowError.
Proof.
  assert (G : exists p, Calculator.multiply a a = Return p
                        /\ py_lt p (PyInt 0) = false).
  { destruct a as [n|x].
    - exists (PyInt (n * n)). split; [reflexivity | ].
      unfold py_lt, py_cmp.
      pose proof (Z.square_nonneg n) as Hsq.
      destruct (Z.compare_spec (n * n) 0); try reflexivity. lia.
    - exists (PyFloat (fmul x x)). split; [reflexivity | ].
      rewrite py_lt_zero_float. apply fmul_square_sign. }
  destruct G as (p & E & Hp). exists p. split; [exact E | ].
  split; [exact Hp | ].
  intros e. unfold Calculator.square_root. rewrite Hp. intros H.
  apply py_pow_raise in H. destruct H as [H | (_ & _ & H)]; [exact H | ].
  discriminate H.
Qed.

(** X10. On real operands (ints and finite floats) [add], [subtract],
    [multiply] and [divide] never return NaN: a result is an int, a
    finite float or an infinity. *)
Theorem real_results_not_nan (a b r : num) :
  valid_num a = true -> valid_num b = true ->
  is_real a = true -> is_real b = true ->
  Calculator.add a b = Return r \/ Calculator.subtract a b = Return r
  \/ Calculator.multiply a b = Return r \/ Calculator.divide a b = Return r ->
  is_nan_num r = false.
Proof.
  intros Va Vb Ra Rb [H | [H | [H | H]]].
  - exact (arith_not_nan Z.add fadd fadd_finite_not_nan a b r Ra Rb H).
  - exact (arith_not_nan Z.sub fsub fsub_finite_not_nan a b r Ra Rb H).
  - exact (arith_not_nan Z.mul fmul fmul_finite_not_nan a b r Ra Rb H).
  - unfold Calculator.divide in H.
    destruct (py_eq b (PyInt 0)) eqn:Hb; [discriminate | ].
    exact (py_truediv_not_nan a b r Va Vb Ra Rb Hb H).
Qed.

Lemma real_results_not_nan_witness :
  (valid_num (PyFloat (flt 1 1023)) = true /\
   valid_num (PyFloat (flt 1 1023)) = true /\
   is_real (PyFloat (flt 1 1023)) = true /\
   is_real (PyFloat (flt 1 1023)) = true) /\
  Calculator.add (PyFloat (flt 1 1023)) (PyFloat (flt 1 1023))
  = Return (PyFloat (S754_infinity false)) /\
  is_nan_num (PyFloat (S754_infinity false)) = false.
Proof.
  split; [repeat split | ]. split; [reflexivity | ].
  apply (real_results_not_nan (PyFloat (flt 1 1023)) (PyFloat (flt 1 1023))
           (PyFloat (S754_infinity false)) eq_refl eq_refl eq_refl eq_refl).
  left. reflexivity.
Defined.

(** X11. NaN propagates: when an operand is NaN (and the other one
    converts to a float), [add], [subtract] and [multiply] return NaN,
    and so does [divide] unless the divisor is zero, in which case the
    [ValueError] comes first. *)
Theorem nan_propagates (a b : num) :
  is_nan_num a = true \/ is_nan_num b = true ->
  returns (to_double a) = true -> returns (to_double b) = true ->
  Calculator.add a b = Return (PyFloat S754_nan) /\
  Calculator.subtract a b = Return (PyFloat S754_nan) /\
  Calculator.multiply a b = Return (PyFloat S754_nan) /\
  Calculator.divide a b
  = if py_eq b (PyInt 0) then Raise (ValueError "Cannot divide by zero")
    else Return (PyFloat S754_nan).
Proof.
  intros Hn Ta Tb.
  split; [ | split; [ | split]].
  - apply arith_nan; try assumption; intros x; [reflexivity | now destruct x].
  - apply arith_nan; try assumption; intros x; [reflexivity | now destruct x].
  - apply arith_nan; try assumption; intros x; [reflexivity | now destruct x].
  - unfold Calculator.divide.
    destruct (py_eq b (PyInt 0)) eqn:Hb; [reflexivity | ].
    destruct a as [n|x], b as [k|y]; cbn [is_nan_num] in Hn;
      try (destruct Hn; discriminate);
      cbn [py_truediv to_double bind] in *.
    + destruct Hn as [Hn | Hn]; [discriminate | ].
      destruct (int_to_float n); [ | discriminate]. cbn [bind].
      destruct y; try discriminate. unfold float_div.
      change (feqb S754_nan fzero) with false. cbn [bind].
      now destruct v.
    + destruct Hn as [Hn | Hn]; [ | discriminate].
      destruct (int_to_float k) as [y|] eqn:Ek; [ | discriminate]. cbn [bind].
      destruct x; try discriminate. unfold float_div.
      rewrite (proj1 (int_to_float_sign k y Ek)).
      assert (Hk : (k =? 0) = false).
      { unfold py_eq, py_cmp in Hb. rewrite Z.eqb_compare.
        destruct (k ?= 0); congruence. }
      rewrite Hk. reflexivity.
    + rewrite py_eq_zero_float in Hb. unfold float_div. rewrite Hb.
      cbn [bind].
      destruct Hn as [Hn | Hn]; [destruct x | destruct y]; try discriminate;
        [reflexivity | now destruct x].
Qed.

Lemma nan_propagates_witness :
  (is_nan_num (PyFloat S754_nan) = true /\
   returns (to_double (PyFloat S754_nan)) = true /\
   returns (to_double (PyInt 3)) = true) /\
  Calculator.add (PyFloat S754_nan) (PyInt 3) = Return (PyFloat S754_nan) /\
  Calculator.subtract (PyFloat S754_nan) (PyInt 3)
  = Return (PyFloat S754_nan) /\
  Calculator.multiply (PyFloat S754_nan) (PyInt 3)
  = Return (PyFloat S754_nan) /\
  Calculator.divide (PyFloat S754_nan) (PyInt 3) = Return (PyFloat S754_nan).
Proof.
  split; [repeat split | ].
  exact (nan_propagates (PyFloat S754_nan) (PyInt 3)
           (or_introl eq_refl) eq_refl eq_refl).
Defined.

(** X12. The results are binary64 numbers: on well-formed operands
    (infinities and NaN included) every float returned by [add],
    [subtract], [multiply] or [divide] has a mantissa of at most 53 bits
    and an exponent in range. *)
Theorem results_are_binary64 (a b r : num) :
  valid_num a = true -> valid_num b = true ->
  Calculator.add a b = Return r \/ Calculator.subtract a b = Return r
  \/ Calculator.multiply a b = Return r \/ Calculator.divide a b = Return r ->
  valid_num r = true.
Proof.
  intros Va Vb [H | [H | [H | H]]].
  - exact (arith_valid Z.add fadd fadd_valid a b r Va Vb H).
  - exact (arith_valid Z.sub fsub fsub_valid a b r Va Vb H).
  - exact (arith_valid Z.mul fmul fmul_valid a b r Va Vb H).
  - unfold Calculator.divide in H.
    destruct (py_eq b (PyInt 0)); [discriminate | ].
    exact (py_truediv_valid a b r Va Vb H).
Qed.

Lemma results_are_binary64_witness :
  (valid_num (PyInt (3 ^ 40)) = true /\ valid_num (PyFloat (flt 1 (-3))) = true) /\
  Calculator.multiply (PyInt (3 ^ 40)) (PyFloat (flt 1 (-3)))
  = Return (PyFloat (fmul (flt (3 ^ 40) 0) (flt 1 (-3)))) /\
  valid_num (PyFloat (fmul (flt (3 ^ 40) 0) (flt 1 (-3)))) = true.
Proof.
  split; [repeat split | ]. split; [reflexivity | ].
  apply (results_are_binary64 (PyInt (3 ^ 40)) (PyFloat (flt 1 (-3)))
           (PyFloat (fmul (flt (3 ^ 40) 0) (flt 1 (-3)))) eq_refl eq_refl).
  right. right. left. reflexivity.
Defined.

(* ===================================================================== *)
(** ** Further properties: [power]                                        *)
(* ===================================================================== *)

(** [float_pow] returns a complex number only on a negative base with a
    finite exponent that is not an integer. *)
Lemma float_pow_complex (L : Libm) (iv iw re im : float) :
  float_pow L iv iw = Return (PyComplex re im) ->
  fltb iv fzero = true /\ is_finite iw = true /\ float_is_integer iw = false.
Proof.
  unfold float_pow.
  destruct (feqb iw fzero) eqn:E0; [discriminate | ].
  destruct (is_nan iv) eqn:E1; [discriminate | ].
  destruct (is_nan iw) eqn:E2; [discriminate | ].
  destruct (is_inf iw) eqn:E3.
  { cbv zeta. destruct (feqb (fabs iv) fone); [discriminate | ].
    destruct (Bool.eqb _ _); discriminate. }
  destruct (is_inf iv) eqn:E4.
  { cbv zeta. destruct (fltb fzero iw); discriminate. }
  destruct (feqb iv fzero) eqn:E5.
  { destruct (fltb iw fzero); discriminate. }
  destruct (fltb iv fzero && negb (float_is_integer iw)) eqn:E6.
  - intros _. apply andb_prop in E6. destruct E6 as [H1 H2].
    apply negb_true_iff in H2.
    repeat split; try assumption.
    destruct iw; cbn [is_nan is_inf is_finite] in *; congruence.
  - cbv zeta. case_ifs; discriminate.
Qed.

(** X13. [power] returns a complex number only for a negative base and a
    float exponent that is finite and not an integer; never for an int
    exponent.  [square_root], whose argument is never negative when the
    power is taken, never returns one. *)
Theorem complex_results (L : Libm) :
  (forall a b re im,
     Calculator.power L a b = Return (PyComplex re im) ->
     py_lt a (PyInt 0) = true /\
     exists y, b = PyFloat y /\ is_finite y = true
               /\ float_is_integer y = false) /\
  (forall n re im, Calculator.square_root L n <> Return (PyComplex re im)).
Proof.
  assert (G : forall a b re im,
             (iv <- to_double a ;; iw <- to_double b ;; float_pow L iv iw)
             = Return (PyComplex re im) ->
             py_lt a (PyInt 0) = true /\
             exists y, b = PyFloat y /\ is_finite y = true
                       /\ float_is_integer y = false).
  { intros a b re im.
    destruct (to_double a) as [iv|e] eqn:Ea; cbn [bind]; [ | discriminate].
    destruct (to_double b) as [iw|e] eqn:Eb; cbn [bind]; [ | discriminate].
    intros H. apply float_pow_complex in H. destruct H as (H1 & H2 & H3).
    split; [now rewrite <- (to_double_neg a iv Ea) | ].
    destruct b as [k|y].
    - cbn [to_double] in Eb. apply int_to_float_integer in Eb. congruence.
    - injection Eb as ->. eauto. }
  split.
  - intros a b re im. unfold Calculator.power.
    destruct a as [x|x], b as [y|y]; try apply G.
    cbn [py_pow]. destruct (0 <=? y); [discriminate | ].
    apply (G (PyInt x) (PyInt y)).
  - intros n re im. unfold Calculator.square_root.
    destruct (py_lt n (PyInt 0)) eqn:Hn; [discriminate | ].
    intros H.
    assert (H' : (iv <- to_double n ;; iw <- to_double (PyFloat fhalf) ;;
                  float_pow L iv iw) = Return (PyComplex re im))
      by (destruct n; exact H).
    apply G in H'. destruct H' as [H' _]. congruence.
Qed.

Lemma complex_results_witness :
  Calculator.power sample_libm (PyInt (-4)) (PyFloat fhalf)
  = Return (PyComplex fzero (flt 2 0)) /\
  py_lt (PyInt (-4)) (PyInt 0) = true /\
  exists y, PyFloat fhalf = PyFloat y /\ is_finite y = true
            /\ float_is_integer y = false.
Proof.
  split; [reflexivity | ].
  apply (proj1 (complex_results sample_libm) (PyInt (-4)) (PyFloat fhalf)
           fzero (flt 2 0)).
  reflexivity.
Defined.

(** X14. Special cases of [power] that are settled before the C library
    is called: [power(x, 0.0)] and [power(x, -0.0)] are [1.0] for every
    float [x], NaN included; [power(1.0, y)] and [power(1, y)] are [1.0]
    for every float [y], NaN and the infinities included; otherwise a NaN
    operand gives NaN. *)
Theorem power_special_cases (L : Libm) (x y : float) :
  (feqb y fzero = true ->
   Calculator.power L (PyFloat x) (PyFloat y) = Return (Real (PyFloat fone))) /\
  Calculator.power L (PyFloat fone) (PyFloat y) = Return (Real (PyFloat fone)) /\
  Calculator.power L (PyInt 1) (PyFloat y) = Return (Real (PyFloat fone)) /\
  (feqb y fzero = false -> feqb x fone = false ->
   is_nan x = true \/ is_nan y = true ->
   Calculator.power L (PyFloat x) (PyFloat y)
   = Return (Real (PyFloat S754_nan))).
Proof.
  assert (H1 : float_pow L fone y = Return (Real (PyFloat fone))).
  { unfold float_pow. destruct (feqb y fzero); [reflexivity | ].
    change (is_nan fone) with false. cbv iota.
    change (feqb fone fone) with true. cbv iota.
    destruct (is_nan y); [reflexivity | ].
    destruct (is_inf y); reflexivity. }
  split; [ | split; [ | split]].
  - intros Hy. unfold Calculator.power. cbn [py_pow to_double bind].
    unfold float_pow. now rewrite Hy.
  - exact H1.
  - exact H1.
  - intros Hy Hx Hn. unfold Calculator.power. cbn [py_pow to_double bind].
    unfold float_pow. rewrite Hy.
    destruct x as [sx|sx| |sx mx ex]; cbn [is_nan]; try reflexivity;
      destruct Hn as [Hn | Hn]; try discriminate Hn;
      destruct y; try discriminate Hn; cbn [is_nan]; now rewrite Hx.
Qed.

Lemma power_special_cases_witness :
  Calculator.power sample_libm (PyFloat S754_nan) (PyFloat (S754_zero true))
  = Return (Real (PyFloat fone)) /\
  Calculator.power sample_libm (PyFloat fone) (PyFloat S754_nan)
  = Return (Real (PyFloat fone)) /\
  Calculator.power sample_libm (PyInt 1) (PyFloat (S754_infinity true))
  = Return (Real (PyFloat fone)) /\
  Calculator.power sample_libm (PyFloat (flt 2 0)) (PyFloat S754_nan)
  = Return (Real (PyFloat S754_nan)).
Proof.
  split; [ | split; [ | split]].
  - apply (proj1 (power_special_cases sample_libm S754_nan (S754_zero true))).
    reflexivity.
  - exact (proj1 (proj2 (power_special_cases sample_libm fone S754_nan))).
  - exact (proj1 (proj2 (proj2
             (power_special_cases sample_libm fone (S754_infinity true))))).
  - apply (proj2 (proj2 (proj2
             (power_special_cases sample_libm (flt 2 0) S754_nan))));
      [reflexivity | reflexivity | now right].
Defined.

(** X15. On ints the laws of exponents hold exactly, at any size, for
    exponents that are not negative: [power(a, m + n)] is
    [multiply(power(a, m), power(a, n))], [power(power(a, m), n)] is
    [power(a, m * n)], [power(a, 1)] is [a] and [power(a, 2)] is
    [multiply(a, a)]. *)
Theorem power_int_laws (L : Libm) (a m n : Z) :
  0 <= m -> 0 <= n ->
  exists p q,
    Calculator.power L (PyInt a) (PyInt m) = Return (Real p) /\
    Calculator.power L (PyInt a) (PyInt n) = Return (Real q) /\
    (r <- Calculator.multiply p q ;; Return (Real r))
    = Calculator.power L (PyInt a) (PyInt (m + n)) /\
    Calculator.power L p (PyInt n)
    = Calculator.power L (PyInt a) (PyInt (m * n)) /\
    Calculator.power L (PyInt a) (PyInt 1) = Return (Real (PyInt a)) /\
    (r <- Calculator.multiply (PyInt a) (PyInt a) ;; Return (Real r))
    = Calculator.power L (PyInt a) (PyInt 2).
Proof.
  intros Hm Hn. exists (PyInt (a ^ m)), (PyInt (a ^ n)).
  unfold Calculator.power, Calculator.multiply, py_mul. cbn [py_pow arith bind].
  rewrite (proj2 (Z.leb_le 0 m) Hm), (proj2 (Z.leb_le 0 n) Hn).
  rewrite (proj2 (Z.leb_le 0 (m + n)) ltac:(lia)).
  rewrite (proj2 (Z.leb_le 0 (m * n)) ltac:(nia)).
  change (0 <=? 1) with true. change (0 <=? 2) with true. cbv iota.
  repeat split.
  - now rewrite Z.pow_add_r.
  - now rewrite Z.pow_mul_r.
  - now rewrite Z.pow_1_r.
  - now rewrite Z.pow_2_r.
Qed.

Lemma power_int_laws_witness :
  (0 <= 3 /\ 0 <= 4) /\
  exists p q,
    Calculator.power sample_libm (PyInt (-2)) (PyInt 3) = Return (Real p) /\
    Calculator.power sample_libm (PyInt (-2)) (PyInt 4) = Return (Real q) /\
    (r <- Calculator.multiply p q ;; Return (Real r))
    = Calculator.power sample_libm (PyInt (-2)) (PyInt (3 + 4)) /\
    Calculator.power sample_libm p (PyInt 4)
    = Calculator.power sample_libm (PyInt (-2)) (PyInt (3 * 4)) /\
    Calculator.power sample_libm (PyInt (-2)) (PyInt 1)
    = Return (Real (PyInt (-2))) /\
    (r <- Calculator.multiply (PyInt (-2)) (PyInt (-2)) ;; Return (Real r))
    = Calculator.power sample_libm (PyInt (-2)) (PyInt 2).
Proof.
  assert (H3 : 0 <= 3) by (vm_compute; discriminate).
  assert (H4 : 0 <= 4) by (vm_compute; discriminate).
  split; [split; assumption | ].
  exact (power_int_laws sample_libm (-2) 3 4 H3 H4).
Defined.

(* ===================================================================== *)
(** ** Further properties: ints                                           *)
(* ===================================================================== *)

(** X16. Where an int meets a float, the int is converted first, and
    that raises [OverflowError] exactly from [2^1024 - 2^970] on in
    magnitude, whatever the float (NaN, zero and the infinities
    included); below, [add], [subtract] and [multiply] return the IEEE
    result on the nearest float to the int. *)
Theorem mixed_overflow_threshold (n : Z) (x : float) :
  let big := 2 ^ 1024 - 2 ^ 970 <=? Z.abs n in
  Calculator.add (PyInt n) (PyFloat x)
  = (if big then Raise OverflowError
     else Return (PyFloat (fadd (flt n 0) x))) /\
  Calculator.add (PyFloat x) (PyInt n)
  = (if big then Raise OverflowError
     else Return (PyFloat (fadd x (flt n 0)))) /\
  Calculator.subtract (PyInt n) (PyFloat x)
  = (if big then Raise OverflowError
     else Return (PyFloat (fsub (flt n 0) x))) /\
  Calculator.subtract (PyFloat x) (PyInt n)
  = (if big then Raise OverflowError
     else Return (PyFloat (fsub x (flt n 0)))) /\
  Calculator.multiply (PyInt n) (PyFloat x)
  = (if big then Raise OverflowError
     else Return (PyFloat (fmul (flt n 0) x))) /\
  Calculator.multiply (PyFloat x) (PyInt n)
  = (if big then Raise OverflowError
     else Return (PyFloat (fmul x (flt n 0)))).
Proof.
  cbv zeta.
  unfold Calculator.add, Calculator.subtract, Calculator.multiply,
    py_add, py_sub, py_mul.
  cbn [arith to_double bind]. rewrite int_to_float_overflow.
  destruct (2 ^ 1024 - 2 ^ 970 <=? Z.abs n); repeat split.
Qed.

(** X17. Round trips on ints.  [subtract(add(a, b), b)] and
    [add(subtract(a, b), b)] return [a] itself, at any size; and
    [divide(multiply(a, b), b)] is exactly [a] (as a float) for every
    [b] other than 0, at any size, as long as [a] has at most 53 bits. *)
Theorem int_round_trips (a b : Z) :
  (s <- Calculator.add (PyInt a) (PyInt b) ;; Calculator.subtract s (PyInt b))
  = Return (PyInt a) /\
  (d <- Calculator.subtract (PyInt a) (PyInt b) ;; Calculator.add d (PyInt b))
  = Return (PyInt a) /\
  (b <> 0 -> Z.abs a <= 2 ^ 53 ->
   exists q,
     (p <- Calculator.multiply (PyInt a) (PyInt b) ;;
      Calculator.divide p (PyInt b)) = Return (PyFloat q)
     /\ py_eq (PyFloat q) (PyInt a) = true).
Proof.
  split; [ | split].
  - cbn. f_equal. f_equal. ring.
  - cbn. f_equal. f_equal. ring.
  - intros Hb Ha.
    unfold Calculator.multiply, py_mul. cbn [arith bind].
    unfold Calculator.divide.
    assert (Hb0 : py_eq (PyInt b) (PyInt 0) = false).
    { unfold py_eq, py_cmp. destruct (Z.compare_spec b 0); try reflexivity.
      contradiction. }
    rewrite Hb0. cbn [py_truediv].
    destruct (small_int_representable a Ha) as (z & Hz & Fz & Uz & _).
    destruct (int_true_divide_exact (a * b) b z Hb Hz Fz)
      as (q & E & Hq & Fq & Uq).
    { rewrite Uz. ring. }
    exists q. rewrite E. cbn [bind]. split; [reflexivity | ].
    apply py_eq_int_units; [assumption | assumption | congruence].
Qed.

Lemma int_round_trips_witness :
  (3 ^ 400 <> 0 /\ Z.abs (2 ^ 53 - 1) <= 2 ^ 53) /\
  exists q,
    (p <- Calculator.multiply (PyInt (2 ^ 53 - 1)) (PyInt (3 ^ 400)) ;;
     Calculator.divide p (PyInt (3 ^ 400))) = Return (PyFloat q)
    /\ py_eq (PyFloat q) (PyInt (2 ^ 53 - 1)) = true.
Proof.
  assert (H1 : 3 ^ 400 <> 0) by (vm_compute; discriminate).
  assert (H2 : Z.abs (2 ^ 53 - 1) <= 2 ^ 53) by (vm_compute; discriminate).
  split; [split; assumption | ].
  exact (proj2 (proj2 (int_round_trips (2 ^ 53 - 1) (3 ^ 400))) H1 H2).
Defined.

(* ===================================================================== *)
(** ** Further properties: the test suite                                 *)
(* ===================================================================== *)

Import TestCalculator.

(** [x ** 0.5] where it is the C library's [pow]. *)
Lemma pow_half_at (L : Libm) (x r : float) :
  is_finite x = true -> feqb x fzero = false -> feqb x fone = false ->
  libm_pow L x fhalf = r -> is_inf r = false ->
  pow_half L x = Return (Real (PyFloat r)).
Proof.
  intros Fx H0 H1 Hr Hi. unfold pow_half.
  rewrite H0, H1, Hr, Hi.
  destruct x; try discriminate Fx; reflexivity.
Qed.

Lemma py_pow_half_at (L : Libm) (a : num) (x r : float) :
  to_double a = Return x -> py_lt a (PyInt 0) = false ->
  is_finite x = true -> feqb x fzero = false -> feqb x fone = false ->
  libm_pow L x fhalf = r -> is_inf r = false ->
  py_pow L a (PyFloat fhalf) = Return (Real (PyFloat r)).
Proof.
  intros Ta Hn Fx H0 H1 Hr Hi.
  assert (E : py_pow L a (PyFloat fhalf)
              = (iv <- to_double a ;; float_pow L iv fhalf))
    by (destruct a; reflexivity).
  rewrite E, Ta. cbn [bind].
  rewrite float_pow_half by (now rewrite (to_double_neg a x Ta)).
  now apply pow_half_at.
Qed.

Lemma square_root_at (L : Libm) (a : num) (x r : float) :
  to_double a = Return x -> py_lt a (PyInt 0) = false ->
  is_finite x = true -> feqb x fzero = false -> feqb x fone = false ->
  libm_pow L x fhalf = r -> is_inf r = false ->
  Calculator.square_root L a = Return (Real (PyFloat r)).
Proof.
  intros Ta Hn Fx H0 H1 Hr Hi. unfold Calculator.square_root.
  rewrite Hn. now apply (py_pow_half_at L a x r).
Qed.

(** X18. The test suite passes.  With a C library whose [pow(x, 0.5)]
    is the correctly rounded square root at the seven arguments the
    tests reach it with, each of the fifteen test methods of
    [TestCalculator] runs to its end: every [assert] holds and every
    [pytest.raises] block raises the expected [ValueError]. *)
Theorem test_suite_passes (L : Libm) :
  (forall x, In x pow_arguments -> libm_pow L x fhalf = fsqrt x) ->
  test_suite L = repeat Passed 15.
Proof.
  intros H.
  assert (S : forall a x,
             In x pow_arguments ->
             to_double a = Return x -> py_lt a (PyInt 0) = false ->
             is_finite x = true -> feqb x fzero = false ->
             feqb x fone = false -> is_inf (fsqrt x) = false ->
             Calculator.square_root L a = Return (Real (PyFloat (fsqrt x)))).
  { intros a x Hx Ta Hn Fx H0 H1 Hi.
    apply (square_root_at L a x); try assumption. now apply H. }
  assert (P : Calculator.power L (int 2) (flo 5 1)
              = Return (Real (PyFloat (fsqrt (flt 2 0))))).
  { unfold Calculator.power.
    change (flo 5 1) with (PyFloat fhalf).
    apply (py_pow_half_at L (int 2) (flt 2 0)); try reflexivity.
    apply H. cbn. tauto. }
  unfold test_suite, test_power_positive_numbers,
    test_square_root_positive_numbers, test_square_root_decimal_numbers.
  rewrite P.
  rewrite (S (int 4) (flt 4 0)) by (try reflexivity; cbn; tauto).
  rewrite (S (int 9) (flt 9 0)) by (try reflexivity; cbn; tauto).
  rewrite (S (int 16) (flt 16 0)) by (try reflexivity; cbn; tauto).
  rewrite (S (int 25) (flt 25 0)) by (try reflexivity; cbn; tauto).
  rewrite (S (flo 225 2) (float_lit 225 2)) by (try reflexivity; cbn; tauto).
  rewrite (S (flo 25 2) (float_lit 25 2)) by (try reflexivity; cbn; tauto).
  vm_compute. reflexivity.
Qed.

Lemma test_suite_passes_witness :
  (forall x, In x pow_arguments -> libm_pow sample_libm x fhalf = fsqrt x) /\
  test_suite sample_libm = repeat Passed 15.
Proof.
  assert (H : forall x, In x pow_arguments ->
                        libm_pow sample_libm x fhalf = fsqrt x)
    by (intros x _; reflexivity).
  split; [exact H | ].
  exact (test_suite_passes sample_libm H).
Defined.

(* ===================================================================== *)
(** ** Further properties: nearest results and order                      *)
(* ===================================================================== *)

(** X19. A finite float returned by [add], [subtract], [multiply] or
    [divide] on two finite floats is a float nearest to the exact
    result: no finite float is nearer to the exact sum, difference,
    product or quotient. *)
Theorem results_are_nearest (x y r : float) :
  valid x = true -> valid y = true ->
  is_finite x = true -> is_finite y = true -> is_finite r = true ->
  (Calculator.add (PyFloat x) (PyFloat y) = Return (PyFloat r) ->
   nearest r (float_units x + float_units y) 1) /\
  (Calculator.subtract (PyFloat x) (PyFloat y) = Return (PyFloat r) ->
   nearest r (float_units x - float_units y) 1) /\
  (Calculator.multiply (PyFloat x) (PyFloat y) = Return (PyFloat r) ->
   nearest r (float_units x * float_units y) (2 ^ 1074)) /\
  (Calculator.divide (PyFloat x) (PyFloat y) = Return (PyFloat r) ->
   nearest r (float_units x * 2 ^ 1074 * Z.sgn (float_units y))
     (Z.abs (float_units y))).
Proof.
  intros Hx Hy Fx Fy Fr.
  split; [ | split; [ | split]].
  - intros E. injection E as <-. now apply fadd_nearest.
  - intros E. injection E as <-. now apply fsub_nearest.
  - intros E. injection E as <-. now apply fmul_nearest.
  - unfold Calculator.divide.
    destruct (py_eq (PyFloat y) (PyInt 0)) eqn:Hy0; [discriminate | ].
    cbn [py_truediv to_double bind]. unfold float_div.
    rewrite py_eq_zero_float in Hy0. rewrite Hy0. cbn [bind].
    intros E. injection E as <-.
    destruct y as [sy|sy| |sy my ey]; try discriminate.
    cbn [valid valid_binary] in Hy.
    destruct (bounded_inv my ey Hy) as (Hry & _).
    pose proof (pow2_pos (ey + 1074) ltac:(lia)) as HY.
    destruct (fdiv_rounded_nearest x sy my ey Hx Fx Hy) as [_ Q].
    cbv zeta in Q. specialize (Q Fr).
    cbn [float_units].
    set (B := Zpos my * 2 ^ (ey + 1074)) in *.
    assert (HB : 0 < B) by (unfold B; nia).
    replace (float_units x * 2 ^ 1074 * Z.sgn (cond_Zopp sy B))
      with (cond_Zopp sy (float_units x * 2 ^ 1074)).
    2:{ destruct sy; cbn [cond_Zopp].
        - rewrite Z.sgn_neg by lia. ring.
        - rewrite Z.sgn_pos by lia. ring. }
    replace (Z.abs (cond_Zopp sy B)) with B
      by (destruct sy; cbn [cond_Zopp]; lia).
    exact Q.
Qed.

Lemma results_are_nearest_witness :
  (valid (flt 1 0) = true /\ valid (flt 3 0) = true /\
   is_finite (flt 1 0) = true /\ is_finite (flt 3 0) = true /\
   is_finite (fdiv (flt 1 0) (flt 3 0)) = true) /\
  Calculator.divide (PyFloat (flt 1 0)) (PyFloat (flt 3 0))
  = Return (PyFloat (fdiv (flt 1 0) (flt 3 0))) /\
  nearest (fdiv (flt 1 0) (flt 3 0))
    (float_units (flt 1 0) * 2 ^ 1074 * Z.sgn (float_units (flt 3 0)))
    (Z.abs (float_units (flt 3 0))).
Proof.
  split; [repeat split | ]. split; [reflexivity | ].
  apply (proj2 (proj2 (proj2
           (results_are_nearest (flt 1 0) (flt 3 0) (fdiv (flt 1 0) (flt 3 0))
              eq_refl eq_refl eq_refl eq_refl eq_refl)))).
  reflexivity.
Defined.

(** Two results rounded to nearest from two numbers in order. *)
Lemma py_le_rounded (r1 r2 : float) (N1 N2 D : Z) :
  0 < D ->
  rounded r1 N1 D = true -> rounded r2 N2 D = true ->
  (is_finite r1 = true -> nearest r1 N1 D) ->
  (is_finite r2 = true -> nearest r2 N2 D) ->
  N1 <= N2 ->
  (N1 = N2 -> ext_units r1 = ext_units r2) ->
  py_le (PyFloat r1) (PyFloat r2) = true.
Proof.
  intros HD R1 R2 Q1 Q2 HN Hdet.
  destruct (rounded_valid r1 N1 D R1) as [V1 Nn1].
  destruct (rounded_valid r2 N2 D R2) as [V2 Nn2].
  rewrite py_le_floats by assumption. apply Z.leb_le.
  now apply (round_mono r1 r2 N1 N2 D).
Qed.

Lemma py_le_units (x y : float) :
  valid x = true -> valid y = true ->
  is_finite x = true -> is_finite y = true ->
  py_le (PyFloat x) (PyFloat y) = true -> float_units x <= float_units y.
Proof.
  intros Hx Hy Fx Fy H. unfold py_le, py_cmp in H.
  rewrite SFcompare_units in H by assumption.
  destruct (Z.compare_spec (float_units x) (float_units y));
    try discriminate; lia.
Qed.

(** Floats of the same value give results of the same value. *)
Lemma same_units_same_result (fop : float -> float) (b c : float) :
  (forall s s', ext_units (fop (S754_zero s)) = ext_units (fop (S754_zero s'))) ->
  valid b = true -> valid c = true ->
  is_finite b = true -> is_finite c = true ->
  float_units b = float_units c ->
  ext_units (fop b) = ext_units (fop c).
Proof.
  intros.
  destruct (float_units_inj b c) as [-> | [Zb Zc]]; try assumption;
    [reflexivity | ].
  destruct b, c; try discriminate. auto.
Qed.

Lemma zero_le_units (a : float) :
  valid a = true -> is_finite a = true ->
  (py_le (PyInt 0) (PyFloat a) = true -> 0 <= float_units a) /\
  (py_lt (PyInt 0) (PyFloat a) = true -> 0 < float_units a).
Proof.
  intros Ha Fa. unfold py_le, py_lt.
  rewrite (py_cmp_units (PyInt 0) (PyFloat a)) by (try assumption; reflexivity).
  cbn [num_units]. rewrite Z.mul_0_l.
  destruct (Z.compare_spec 0 (float_units a)); split; intros; try discriminate; lia.
Qed.

(** X20. Rounding never inverts an order.  For finite floats with
    [b <= c]: [add(b, a) <= add(c, a)] and [add(a, b) <= add(a, c)];
    [subtract(b, a) <= subtract(c, a)] and
    [subtract(a, c) <= subtract(a, b)]; [multiply(b, a) <= multiply(c, a)]
    when [0 <= a]; [divide(b, a) <= divide(c, a)] when [0 < a].  The
    results may be infinite. *)
Theorem operations_monotone (a b c : float) :
  valid a = true -> valid b = true -> valid c = true ->
  is_finite a = true -> is_finite b = true -> is_finite c = true ->
  py_le (PyFloat b) (PyFloat c) = true ->
  result_le (Calculator.add (PyFloat b) (PyFloat a))
            (Calculator.add (PyFloat c) (PyFloat a)) = true /\
  result_le (Calculator.add (PyFloat a) (PyFloat b))
            (Calculator.add (PyFloat a) (PyFloat c)) = true /\
  result_le (Calculator.subtract (PyFloat b) (PyFloat a))
            (Calculator.subtract (PyFloat c) (PyFloat a)) = true /\
  result_le (Calculator.subtract (PyFloat a) (PyFloat c))
            (Calculator.subtract (PyFloat a) (PyFloat b)) = true /\
  (py_le (PyInt 0) (PyFloat a) = true ->
   result_le (Calculator.multiply (PyFloat b) (PyFloat a))
             (Calculator.multiply (PyFloat c) (PyFloat a)) = true) /\
  (py_lt (PyInt 0) (PyFloat a) = true ->
   result_le (Calculator.divide (PyFloat b) (PyFloat a))
             (Calculator.divide (PyFloat c) (PyFloat a)) = true).
Proof.
  intros Ha Hb Hc Fa Fb Fc Hle.
  pose proof (py_le_units b c Hb Hc Fb Fc Hle) as Hu.
  pose proof (pow2_pos 1074 ltac:(lia)) as HT.
  assert (Hadd : py_le (PyFloat (fadd b a)) (PyFloat (fadd c a)) = true).
  { apply (py_le_rounded _ _ (float_units b + float_units a)
             (float_units c + float_units a) 1); try lia.
    - now apply fadd_rounded.
    - now apply fadd_rounded.
    - now apply fadd_nearest.
    - now apply fadd_nearest.
    - intros E.
      apply (same_units_same_result (fun t => fadd t a)); try assumption;
        [ | lia].
      intros s s'. destruct a as [sa|sa| |sa ma ea]; try reflexivity.
      destruct s, s', sa; reflexivity. }
  split; [exact Hadd | ].
  split.
  { change (py_le (PyFloat (fadd a b)) (PyFloat (fadd a c)) = true).
    rewrite (fadd_comm a b), (fadd_comm a c). exact Hadd. }
  split; [ | split; [ | split]].
  - apply (py_le_rounded _ _ (float_units b - float_units a)
             (float_units c - float_units a) 1); try lia.
    + now apply fsub_rounded.
    + now apply fsub_rounded.
    + now apply fsub_nearest.
    + now apply fsub_nearest.
    + intros E.
      apply (same_units_same_result (fun t => fsub t a)); try assumption;
        [ | lia].
      intros s s'. destruct a as [sa|sa| |sa ma ea]; try reflexivity.
      destruct s, s', sa; reflexivity.
  - apply (py_le_rounded _ _ (float_units a - float_units c)
             (float_units a - float_units b) 1); try lia.
    + now apply fsub_rounded.
    + now apply fsub_rounded.
    + now apply fsub_nearest.
    + now apply fsub_nearest.
    + intros E.
      apply (same_units_same_result (fun t => fsub a t)); try assumption;
        [ | lia].
      intros s s'. destruct a as [sa|sa| |sa ma ea]; try reflexivity.
      destruct s, s', sa; reflexivity.
  - intros H0. apply (proj1 (zero_le_units a Ha Fa)) in H0.
    apply (py_le_rounded _ _ (float_units b * float_units a)
             (float_units c * float_units a) (2 ^ 1074)); try lia.
    + now apply fmul_rounded.
    + now apply fmul_rounded.
    + now apply fmul_nearest.
    + now apply fmul_nearest.
    + now apply Z.mul_le_mono_nonneg_r.
    + intros E.
      destruct (Z.eq_dec (float_units a) 0) as [E0 | N0].
      * destruct a as [sa|sa| |sa ma ea]; try discriminate.
        -- destruct b, c; try discriminate; reflexivity.
        -- exfalso. cbn [valid valid_binary] in Ha.
           destruct (bounded_inv ma ea Ha) as (Hr & _).
           pose proof (pow2_pos (ea + 1074) ltac:(lia)).
           cbn [float_units] in E0. destruct sa; cbn [cond_Zopp] in E0; nia.
      * apply (same_units_same_result (fun t => fmul t a)); try assumption.
        -- intros s s'. destruct a as [sa|sa| |sa ma ea]; reflexivity.
        -- apply Z.mul_reg_r in E; assumption.
  - intros H0. apply (proj2 (zero_le_units a Ha Fa)) in H0.
    destruct a as [sa|sa| |sa ma ea]; try discriminate Fa;
      [cbn [float_units] in H0; lia | ].
    cbn [valid valid_binary] in Ha.
    destruct (bounded_inv ma ea Ha) as (Hr & _).
    pose proof (pow2_pos (ea + 1074) ltac:(lia)) as HA.
    assert (sa = false).
    { destruct sa; [ | reflexivity]. cbn [float_units cond_Zopp] in H0. nia. }
    subst sa.
    unfold Calculator.divide. rewrite py_eq_zero_float.
    change (feqb (S754_finite false ma ea) fzero) with false. cbv iota.
    cbn [py_truediv to_double bind]. unfold float_div.
    change (feqb (S754_finite false ma ea) fzero) with false.
    cbn [bind result_le].
    destruct (fdiv_rounded_nearest b false ma ea Hb Fb Ha) as [Rb Qb].
    destruct (fdiv_rounded_nearest c false ma ea Hc Fc Ha) as [Rc Qc].
    cbv zeta in Rb, Qb, Rc, Qc. cbn [cond_Zopp] in Rb, Qb, Rc, Qc.
    apply (py_le_rounded _ _ (float_units b * 2 ^ 1074)
             (float_units c * 2 ^ 1074) (Zpos ma * 2 ^ (ea + 1074)));
      try assumption.
    + apply Z.mul_le_mono_nonneg_r; lia.
    + intros E.
      apply (same_units_same_result (fun t => fdiv t (S754_finite false ma ea)));
        try assumption.
      * intros s s'. reflexivity.
      * apply Z.mul_reg_r in E; [assumption | lia].
Qed.

Lemma operations_monotone_witness :
  (valid (flt 1 (-1)) = true /\ valid (flt 1 0) = true /\
   valid (flt 3 0) = true /\ is_finite (flt 1 (-1)) = true /\
   is_finite (flt 1 0) = true /\ is_finite (flt 3 0) = true /\
   py_le (PyFloat (flt 1 0)) (PyFloat (flt 3 0)) = true /\
   py_le (PyInt 0) (PyFloat (flt 1 (-1))) = true /\
   py_lt (PyInt 0) (PyFloat (flt 1 (-1))) = true) /\
  result_le (Calculator.add (PyFloat (flt 1 0)) (PyFloat (flt 1 (-1))))
            (Calculator.add (PyFloat (flt 3 0)) (PyFloat (flt 1 (-1)))) = true /\
  result_le (Calculator.add (PyFloat (flt 1 (-1))) (PyFloat (flt 1 0)))
            (Calculator.add (PyFloat (flt 1 (-1))) (PyFloat (flt 3 0))) = true /\
  result_le (Calculator.subtract (PyFloat (flt 1 0)) (PyFloat (flt 1 (-1))))
            (Calculator.subtract (PyFloat (flt 3 0)) (PyFloat (flt 1 (-1))))
  = true /\
  result_le (Calculator.subtract (PyFloat (flt 1 (-1))) (PyFloat (flt 3 0)))
            (Calculator.subtract (PyFloat (flt 1 (-1))) (PyFloat (flt 1 0)))
  = true /\
  result_le (Calculator.multiply (PyFloat (flt 1 0)) (PyFloat (flt 1 (-1))))
            (Calculator.multiply (PyFloat (flt 3 0)) (PyFloat (flt 1 (-1))))
  = true /\
  result_le (Calculator.divide (PyFloat (flt 1 0)) (PyFloat (flt 1 (-1))))
            (Calculator.divide (PyFloat (flt 3 0)) (PyFloat (flt 1 (-1))))
  = true.
Proof.
  split; [repeat split | ].
  destruct (operations_monotone (flt 1 (-1)) (flt 1 0) (flt 3 0)
              eq_refl eq_refl eq_refl eq_refl eq_refl eq_refl eq_refl)
    as (H1 & H2 & H3 & H4 & H5 & H6).
  split; [exact H1 | ]. split; [exact H2 | ]. split; [exact H3 | ].
  split; [exact H4 | ]. split; [exact (H5 eq_refl) | exact (H6 eq_refl)].
Defined.

(* ===================================================================== *)
(** ** Further properties: the other round trip, and exact differences   *)
(* ===================================================================== *)

(** The product of the second step can overflow although the quotient
    did not: [(max / 3.0) * 3.0] is [+inf] for the largest float. *)
Lemma divide_multiply_overflow :
  Calculator.divide (PyFloat (flt (2 ^ 53 - 1) 971)) (PyFloat (flt 3 0))
  = Return (PyFloat (fdiv (flt (2 ^ 53 - 1) 971) (flt 3 0))) /\
  is_normal (fdiv (flt (2 ^ 53 - 1) 971) (flt 3 0)) = true /\
  Calculator.multiply (PyFloat (fdiv (flt (2 ^ 53 - 1) 971) (flt 3 0)))
    (PyFloat (flt 3 0))
  = Return (PyFloat (S754_infinity false)).
Proof. repeat split; vm_compute; reflexivity. Qed.

(** X21. The round trip in the other order.  For finite floats [a] and
    [b] with [b != 0], [divide(a, b)] returns a float [q] and
    [multiply(q, b)] a float [p]; when the quotient did not underflow
    ([q] is a normal float, or [a] is zero) and the product did not
    overflow ([p] is finite), [p] is within floating-point tolerance of
    [a]: [|p - a| <= 2^-51 * |a| + 2^-1074]. *)
Theorem divide_multiply_round_trip (a b : float) :
  valid a = true -> valid b = true ->
  is_finite a = true -> is_finite b = true ->
  py_eq (PyFloat b) (PyInt 0) = false ->
  exists q p,
    Calculator.divide (PyFloat a) (PyFloat b) = Return (PyFloat q) /\
    Calculator.multiply (PyFloat q) (PyFloat b) = Return (PyFloat p) /\
    (is_normal q || is_zero a = true -> is_finite p = true ->
     close_to (PyFloat p) (PyFloat a) = true).
Proof.
  intros Ha Hb Fa Fb Hb0.
  exists (fdiv a b), (fmul (fdiv a b) b).
  split; [ | split; [reflexivity | ]].
  - unfold Calculator.divide. rewrite Hb0.
    cbn [py_truediv to_double bind]. unfold float_div.
    rewrite py_eq_zero_float in Hb0. now rewrite Hb0.
  - intros Hn Hp.
    rewrite py_eq_zero_float in Hb0.
    destruct b as [sb|sb| |sb mb eb]; try discriminate.
    cbn [valid valid_binary] in Hb.
    pose proof (fdiv_fmul_close a sb mb eb Ha Fa Hb Hn Hp) as Hc.
    unfold close_to, within. cbn [is_real]. rewrite Hp, Fa. cbn [andb].
    apply Z.leb_le. cbn [num_units].
    set (P := float_units (fmul _ _)) in *.
    set (A := float_units a) in *.
    change (2 ^ 50) with 1125899906842624 in Hc.
    change (2 ^ 51) with 2251799813685248.
    lia.
Qed.

Lemma divide_multiply_round_trip_witness :
  (valid (flt 1 0) = true /\ valid (flt 3 0) = true /\
   is_finite (flt 1 0) = true /\ is_finite (flt 3 0) = true /\
   py_eq (PyFloat (flt 3 0)) (PyInt 0) = false /\
   is_normal (fdiv (flt 1 0) (flt 3 0)) || is_zero (flt 1 0) = true /\
   is_finite (fmul (fdiv (flt 1 0) (flt 3 0)) (flt 3 0)) = true) /\
  Calculator.divide (PyFloat (flt 1 0)) (PyFloat (flt 3 0))
  = Return (PyFloat (fdiv (flt 1 0) (flt 3 0))) /\
  Calculator.multiply (PyFloat (fdiv (flt 1 0) (flt 3 0))) (PyFloat (flt 3 0))
  = Return (PyFloat (fmul (fdiv (flt 1 0) (flt 3 0)) (flt 3 0))) /\
  close_to (PyFloat (fmul (fdiv (flt 1 0) (flt 3 0)) (flt 3 0)))
    (PyFloat (flt 1 0)) = true.
Proof.
  split; [repeat split | ]. split; [reflexivity | ]. split; [reflexivity | ].
  destruct (divide_multiply_round_trip (flt 1 0) (flt 3 0)
              eq_refl eq_refl eq_refl eq_refl eq_refl)
    as (q & p & Hd & Hm & Hc).
  assert (Eq : q = fdiv (flt 1 0) (flt 3 0)).
  { assert (E : Return (PyFloat q)
                = Return (PyFloat (fdiv (flt 1 0) (flt 3 0))))
      by (rewrite <- Hd; reflexivity).
    now injection E. }
  subst q.
  assert (Ep : p = fmul (fdiv (flt 1 0) (flt 3 0)) (flt 3 0)).
  { assert (E : Return (PyFloat p)
                = Return (PyFloat (fmul (fdiv (flt 1 0) (flt 3 0)) (flt 3 0))))
      by (rewrite <- Hm; reflexivity).
    now injection E. }
  subst p.
  apply Hc; reflexivity.
Defined.

(** X22. Sterbenz: when two floats are within a factor of two of each
    other, [b/2 <= a <= 2*b], [subtract(a, b)] is exact: it returns the
    difference itself, with no rounding. *)
Theorem subtract_nearby_exact (a b : float) :
  valid a = true -> valid b = true ->
  is_finite a = true -> is_finite b = true ->
  float_units b <= 2 * float_units a -> float_units a <= 2 * float_units b ->
  exists r, Calculator.subtract (PyFloat a) (PyFloat b) = Return (PyFloat r) /\
            is_finite r = true /\
            float_units r = float_units a - float_units b.
Proof.
  intros Ha Hb Fa Fb H1 H2.
  exists (fsub a b). split; [reflexivity | ].
  assert (R : exists z, valid z = true /\ is_finite z = true /\
                        float_units z = float_units a - float_units b).
  { destruct a as [sa|sa| |sa ma ea]; try discriminate;
      destruct b as [sb|sb| |sb mb eb]; try discriminate;
      cbn [float_units valid valid_binary] in *.
    - exists fzero. repeat split.
    - exfalso. destruct (bounded_inv mb eb Hb) as (Hr & _).
      pose proof (pow2_pos (eb + 1074) ltac:(lia)).
      destruct sb; cbn [cond_Zopp] in *; nia.
    - exfalso. destruct (bounded_inv ma ea Ha) as (Hr & _).
      pose proof (pow2_pos (ea + 1074) ltac:(lia)).
      destruct sa; cbn [cond_Zopp] in *; nia.
    - destruct (bounded_inv ma ea Ha) as (Hra & _).
      destruct (bounded_inv mb eb Hb) as (Hrb & _).
      pose proof (pow2_pos (ea + 1074) ltac:(lia)).
      pose proof (pow2_pos (eb + 1074) ltac:(lia)).
      assert (sa = false) by (destruct sa, sb; cbn [cond_Zopp] in *; try reflexivity; nia).
      assert (sb = false) by (destruct sa, sb; cbn [cond_Zopp] in *; try reflexivity; nia).
      subst sa sb. cbn [cond_Zopp] in *.
      now apply sterbenz_representable. }
  destruct R as (z & Hz & Fz & Uz).
  destruct (fsub_exact a b z Ha Hb Hz Fa Fb Fz Uz) as (_ & Fr & Ur).
  split; [exact Fr | congruence].
Qed.

Lemma subtract_nearby_exact_witness :
  (valid (flt 7 (-2)) = true /\ valid (flt (2 ^ 53 - 1) (-53)) = true /\
   is_finite (flt 7 (-2)) = true /\
   is_finite (flt (2 ^ 53 - 1) (-53)) = true /\
   float_units (flt (2 ^ 53 - 1) (-53)) <= 2 * float_units (flt 7 (-2)) /\
   float_units (flt 7 (-2)) <= 2 * float_units (flt (2 ^ 53 - 1) (-53))) /\
  exists r,
    Calculator.subtract (PyFloat (flt 7 (-2)))
      (PyFloat (flt (2 ^ 53 - 1) (-53))) = Return (PyFloat r) /\
    is_finite r = true /\
    float_units r
    = float_units (flt 7 (-2)) - float_units (flt (2 ^ 53 - 1) (-53)).
Proof.
  assert (H1 : float_units (flt (2 ^ 53 - 1) (-53))
               <= 2 * float_units (flt 7 (-2)))
    by (vm_compute; discriminate).
  assert (H2 : float_units (flt 7 (-2))
               <= 2 * float_units (flt (2 ^ 53 - 1) (-53)))
    by (vm_compute; discriminate).
  split; [repeat split; assumption | ].
  exact (subtract_nearby_exact (flt 7 (-2)) (flt (2 ^ 53 - 1) (-53))
           eq_refl eq_refl eq_refl eq_refl H1 H2).
Defined.
